(** * cooler-admin: the API routes, the database helper, two UI state
    machines and the handlers of the components that call the routes,
    embedded shallowly.

    The Next.js route handlers are [async] functions built from
    [try]/[catch], early [return]s and awaited calls to the outside world
    (the Postgres pool, [fetch], the clock, [crypto.randomUUID], [jose]).
    They are written here in a small state-and-exception monad over an
    abstract world; every call that leaves the process is appended to a
    trace, and every exception raised is appended to a log, so that
    statements such as "no database operation is performed" or "an
    exception was thrown inside the handler" have a direct meaning.

    Console output is not modelled: [console.log] and [console.error] have
    no influence on any result.  Where a logged expression itself reads the
    clock, the read is kept.

    What the JavaScript engine throws by itself (reading a property of
    [null], converting an object without a usable [toString] to a string,
    making a response with a status that admits no body) is thrown here
    too; the wording of those messages, and the printing of numbers beyond
    the safe integers, belong to the engine and are a parameter. *)

From Stdlib Require Import ZArith Ascii String List Bool Lia.
From stdpp Require Import base gmap strings list pretty.

Local Set Warnings "-register-all,-clear-no-such-hyp".
Local Open Scope string_scope.
Local Open Scope list_scope.
Local Open Scope Z_scope.

(** ** JavaScript values *)

Module Js.

(** The values that travel through the handlers: what [JSON.parse] yields,
    plus [undefined].  Numbers are integers: the handlers compute only with
    row counts, status codes and table counts.  An integer beyond
    2^53 - 1 in absolute value stands for the double the engine holds in its
    place. *)
Inductive JsVal : Type :=
| JUndefined
| JNull
| JBool (b : bool)
| JNum (n : Z)
| JStr (s : string)
| JArr (items : list JsVal)
| JObj (fields : list (string * JsVal)).

(** What a [throw] carries: an [Error] object with its [message], or any
    other value. *)
Inductive Thrown : Type :=
| JsError (message : string)
| NonError.

(** What the engine itself throws in the code below: the read of a
    property of [null] or [undefined], the destructuring of [null] or
    [undefined], the call of something that is not a function, the
    conversion to a string of an object that has none, and a response status
    that the [Response] constructor refuses.  Each is an [Error] (a
    [TypeError] or a [RangeError]); the wording of its message is the
    engine's. *)
Inductive EngineFault : Type :=
| ReadOfNullish (v : JsVal) (k : string)
| DestructureOfNullish (v : JsVal) (k : string)
| NotAFunction (v : JsVal)
| NoPrimitive (v : JsVal)
| InvalidStatus (s : Z).

(** What a run depends on the engine for: the messages of its own errors,
    and how it prints the numbers that are beyond the integers every
    engine prints digit by digit. *)
Record Engine : Type := {
  fault_message : EngineFault -> string;
  Number_toString : Z -> string
}.

(** The [Error] the engine throws for a fault. *)
Definition raise (engine : Engine) (f : EngineFault) : Thrown :=
  JsError (fault_message engine f).

(** A value, or what the engine throws instead. *)
Definition thrown {A} (engine : Engine) (r : A + EngineFault) : A + Thrown :=
  match r with
  | inl a => inl a
  | inr f => inr (raise engine f)
  end.

(** [error instanceof Error ? error.message : dflt] *)
Definition error_message (error : Thrown) (dflt : string) : string :=
  match error with
  | JsError m => m
  | NonError => dflt
  end.

(** [!!v] *)
Definition truthy (v : JsVal) : bool :=
  match v with
  | JUndefined | JNull => false
  | JBool b => b
  | JNum n => negb (n =? 0)
  | JStr s => negb (String.eqb s "")
  | JArr _ | JObj _ => true
  end.

(** [a || b] *)
Definition js_or (a b : JsVal) : JsVal := if truthy a then a else b.

(** [s || d] for [s : string | undefined | null], as in
    [process.env.X || 'default']. *)
Definition or_else (s : option string) (d : string) : string :=
  match s with
  | Some v => if String.eqb v "" then d else v
  | None => d
  end.

(** Own-property lookup in an object literal; the first binding wins. *)
Fixpoint get_field (k : string) (fields : list (string * JsVal)) : option JsVal :=
  match fields with
  | [] => None
  | (k', v) :: rest => if String.eqb k k' then Some v else get_field k rest
  end.

(** The field [k] of a value that is an object literal. *)
Definition field (k : string) (v : JsVal) : option JsVal :=
  match v with
  | JObj fields => get_field k fields
  | _ => None
  end.

(** [v.k], for property names that no built-in prototype defines (all the
    names the handlers read are of this kind): a [TypeError] on [null] and
    [undefined], the own property of an object, [undefined] otherwise. *)
Definition get_prop (v : JsVal) (k : string) : JsVal + EngineFault :=
  match v with
  | JUndefined | JNull => inr (ReadOfNullish v k)
  | JObj fields => inl (default JUndefined (get_field k fields))
  | _ => inl JUndefined
  end.

(** [const { k } = v], for the same property names. *)
Definition destructure (v : JsVal) (k : string) : JsVal + EngineFault :=
  match v with
  | JUndefined | JNull => inr (DestructureOfNullish v k)
  | JObj fields => inl (default JUndefined (get_field k fields))
  | _ => inl JUndefined
  end.

(** [v?.k] *)
Definition get_prop_opt (v : JsVal) (k : string) : JsVal :=
  match v with
  | JObj fields => default JUndefined (get_field k fields)
  | _ => JUndefined
  end.

(** [String(n)].  An integer up to 2^53 - 1 in absolute value prints in
    decimal; the numbers beyond are doubles, and the engine prints their
    shortest form. *)
Definition number_string (engine : Engine) (n : Z) : string :=
  if Z.abs n <=? 9007199254740991 then pretty n else Number_toString engine n.

(** [String(v)] as a template literal [`${v}`] computes it.  Array elements
    [null] and [undefined] print as nothing.  An object prints through the
    [toString] it inherits, unless it has a property [toString] of its
    own: the values here are never functions, so there is then nothing to
    call and the conversion throws. *)
Fixpoint template_string (engine : Engine) (v : JsVal) : string + EngineFault :=
  match v with
  | JUndefined => inl "undefined"
  | JNull => inl "null"
  | JBool true => inl "true"
  | JBool false => inl "false"
  | JNum n => inl (number_string engine n)
  | JStr s => inl s
  | JArr items =>
      match
        (fix each (l : list JsVal) : list string + EngineFault :=
           match l with
           | [] => inl []
           | x :: rest =>
               match
                 match x with
                 | JUndefined | JNull => inl ""
                 | _ => template_string engine x
                 end
               with
               | inl piece =>
                   match each rest with
                   | inl pieces => inl (piece :: pieces)
                   | inr f => inr f
                   end
               | inr f => inr f
               end
           end) items
      with
      | inl pieces => inl (String.concat "," pieces)
      | inr f => inr f
      end
  | JObj fields =>
      match get_field "toString" fields with
      | Some _ => inr (NoPrimitive v)
      | None => inl "[object Object]"
      end
  end.

(** [s.replace(pat, rep)] with a string pattern: the first occurrence only. *)
Fixpoint replace_first (pat rep s : string) : string :=
  if String.prefix pat s then
    rep +:+ String.substring (String.length pat) (String.length s - String.length pat) s
  else
    match s with
    | EmptyString => EmptyString
    | String c rest => String c (replace_first pat rep rest)
    end.

End Js.
Export Js.

(** ** HTTP messages *)

Module Http.

(** The incoming [NextRequest]: its URL, the decoded query parameters of
    that URL, its headers (names in lower case, values as [headers.get]
    returns them) and what [request.json()] resolves to or rejects with. *)
Record Request : Type := {
  url : string;
  searchParams : list (string * string);
  headers : list (string * string);
  json_body : JsVal + Thrown
}.

(** [headers.get(name)] and [searchParams.get(name)]: the first value under
    the name, or [null]. *)
Fixpoint pairs_get (hs : list (string * string)) (name : string) : option string :=
  match hs with
  | [] => None
  | (n, v) :: rest => if String.eqb n name then Some v else pairs_get rest name
  end.

(** The dynamic segment of the route [transactions/[userId]]. *)
Record RouteParams : Type := {
  userId : string
}.

(** The argument of an outgoing [fetch]. *)
Record FetchRequest : Type := {
  fetch_url : string;
  fetch_method : string;
  fetch_headers : list (string * string);
  fetch_timeout : option Z
}.

(** What [fetch] resolves to.  The status is the three-digit code of the
    answer.  The body has arrived with the response: [text()] gives it as
    it is, [json()] gives its parse or rejects; a transport failure shows
    as a rejected [fetch]. *)
Record FetchResponse : Type := {
  resp_status : Z;
  resp_text : string;
  resp_json : JsVal + Thrown
}.

(** [response.ok] *)
Definition ok (r : FetchResponse) : bool :=
  (200 <=? resp_status r) && (resp_status r <=? 299).

(** What a handler returns: the value handed to [NextResponse.json] (before
    serialisation) and the status. *)
Record NextResponse : Type := {
  status : Z;
  body : JsVal
}.

(** [NextResponse.json(body)] *)
Definition NextResponse_json (b : JsVal) : NextResponse :=
  {| status := 200; body := b |}.

(** The statuses [NextResponse.json] accepts together with a body: 200 to
    599, except the statuses of responses without a body. *)
Definition valid_status (s : Z) : bool :=
  (200 <=? s) && (s <=? 599) && negb ((s =? 204) || (s =? 205) || (s =? 304)).

(** [NextResponse.json(body, { status })]: the constructor of the response
    throws for a status it does not accept. *)
Definition NextResponse_json_status (b : JsVal) (s : Z) : NextResponse + EngineFault :=
  if valid_status s then inl {| status := s; body := b |} else inr (InvalidStatus s).

End Http.
Export Http.

(** ** The outside world *)

(** The result object of [pool.query]: [rowCount] is a number or [null]. *)
Record PgResult : Type := {
  pg_rowCount : option Z
}.

(** The [SignJWT] builder of [jose], as the calls made on it leave it.
    [setExpirationTime] takes a span in the notation of [jose], where
    ['5m'] is five minutes from the time of the call. *)
Record SignJWT : Type := {
  jwt_payload : JsVal;
  jwt_protectedHeader : option JsVal;
  jwt_expirationTime : option string
}.

Definition new_SignJWT (payload : JsVal) : SignJWT :=
  {| jwt_payload := payload; jwt_protectedHeader := None; jwt_expirationTime := None |}.

Definition setProtectedHeader (h : JsVal) (b : SignJWT) : SignJWT :=
  {| jwt_payload := jwt_payload b;
     jwt_protectedHeader := Some h;
     jwt_expirationTime := jwt_expirationTime b |}.

Definition setExpirationTime (span : string) (b : SignJWT) : SignJWT :=
  {| jwt_payload := jwt_payload b;
     jwt_protectedHeader := jwt_protectedHeader b;
     jwt_expirationTime := Some span |}.

(** [process.env] *)
Record ProcessEnv : Type := {
  DATABASE_URL : option string;
  NEXT_PUBLIC_ADMIN_PASSWORD : option string;
  NEXT_PUBLIC_API_URL : option string;
  NEXT_PUBLIC_APP_URL : option string;
  ADMIN_JWT_SECRET : option string
}.

(** Everything the handlers call that is not code of the repository, over
    a world [W] (database, network peers, clock, entropy). *)
Record Host (W : Type) : Type := {
  pool_query : string -> option (list string) -> W -> (PgResult + Thrown) * W;
  net_fetch : FetchRequest -> W -> (FetchResponse + Thrown) * W;
  Date_now : W -> Z * W;
  crypto_randomUUID : W -> string * W;
  Date_toISOString : Z -> string;
  jose_sign : SignJWT -> string -> W -> (string + Thrown) * W;
  engine : Engine
}.

Arguments pool_query {W} _ _ _ _.
Arguments net_fetch {W} _ _ _.
Arguments Date_now {W} _ _.
Arguments crypto_randomUUID {W} _ _.
Arguments Date_toISOString {W} _ _.
Arguments jose_sign {W} _ _ _ _.
Arguments engine {W} _.

(** One entry per call that left the process, with what came back. *)
Inductive Event : Type :=
| EvNow (t : Z)
| EvUUID (u : string)
| EvQuery (text : string) (params : option (list string)) (out : PgResult + Thrown)
| EvFetch (req : FetchRequest) (out : FetchResponse + Thrown)
| EvSign (jwt : SignJWT) (secret : string) (out : string + Thrown).

(** The SQL statements among the events, with their parameters. *)
Definition statements (evs : list Event) : list (string * option (list string)) :=
  flat_map (fun e => match e with EvQuery t p _ => [(t, p)] | _ => [] end) evs.

(** The [fetch] calls among the events, with what they gave. *)
Definition fetches (evs : list Event) : list (FetchRequest * (FetchResponse + Thrown)) :=
  flat_map (fun e => match e with EvFetch r out => [(r, out)] | _ => [] end) evs.

(** ** The monad of the handlers *)

Module Run.

Record State (W : Type) : Type := {
  world : W;
  trace : list Event;
  raised : list Thrown
}.

Arguments world {W} _.
Arguments trace {W} _.
Arguments raised {W} _.

Definition M (W A : Type) : Type := State W -> (A + Thrown) * State W.

Definition ret {W A} (a : A) : M W A := fun st => (inl a, st).

Definition bind {W A B} (m : M W A) (k : A -> M W B) : M W B :=
  fun st =>
    match m st with
    | (inl a, st') => k a st'
    | (inr e, st') => (inr e, st')
    end.

Definition log_raised {W} (e : Thrown) (st : State W) : State W :=
  {| world := world st; trace := trace st; raised := raised st ++ [e] |}.

Definition log_event {W} (ev : Event) (w : W) (st : State W) : State W :=
  {| world := w; trace := trace st ++ [ev]; raised := raised st |}.

(** [throw e] *)
Definition throw {W A} (e : Thrown) : M W A :=
  fun st => (inr e, log_raised e st).

(** A value that is already a result or an exception. *)
Definition lift {W A} (r : A + Thrown) : M W A :=
  match r with
  | inl a => ret a
  | inr e => throw e
  end.

(** [try { body } catch (error) { handler }] *)
Definition try_catch {W A} (body : M W A) (handler : Thrown -> M W A) : M W A :=
  fun st =>
    match body st with
    | (inl a, st') => (inl a, st')
    | (inr e, st') => handler e st'
    end.

(** An awaited call that may reject. *)
Definition call {W A} (f : W -> (A + Thrown) * W) (ev : A + Thrown -> Event) : M W A :=
  fun st =>
    let '(out, w) := f (world st) in
    let st' := log_event (ev out) w st in
    match out with
    | inl a => (inl a, st')
    | inr e => (inr e, log_raised e st')
    end.

(** A call that always returns. *)
Definition read {W A} (f : W -> A * W) (ev : A -> Event) : M W A :=
  fun st =>
    let '(a, w) := f (world st) in
    (inl a, log_event (ev a) w st).

(** The calls made and the exceptions raised between [st] and [st']. *)
Definition new_events {W} (st st' : State W) : list Event :=
  skipn (length (trace st)) (trace st').

Definition new_raised {W} (st st' : State W) : list Thrown :=
  skipn (length (raised st)) (raised st').

(** The state [st] after a run that left the world as [w], made the calls
    [evs] and raised [errs]. *)
Definition after {W} (st : State W) (w : W) (evs : list Event) (errs : list Thrown)
  : State W :=
  {| world := w; trace := trace st ++ evs; raised := raised st ++ errs |}.

End Run.
Export Run.

Declare Scope js_scope.
Delimit Scope js_scope with js.
Notation "x <- m ;; k" := (bind m (fun x => k))
  (at level 100, m at next level, right associativity) : js_scope.
Notation "m ;;; k" := (bind m (fun _ => k))
  (at level 100, right associativity) : js_scope.
Local Open Scope js_scope.

(** ** src/lib/db.ts *)

Module Db.

(** The options handed to [new Pool]. *)
Record PoolConfig : Type := {
  connectionString : option string;
  max : Z;
  idleTimeoutMillis : Z;
  connectionTimeoutMillis : Z
}.

Definition pool (env : ProcessEnv) : PoolConfig :=
  {| connectionString := DATABASE_URL env;
     max := 20;
     idleTimeoutMillis := 30000;
     connectionTimeoutMillis := 2000 |}.

(** The object [clearTable] resolves to. *)
Record ClearResult : Type := {
  success : bool;
  rowCount : Z;
  error : option string
}.

(** The object [results] of [clearTables], which starts as [{}]: its own
    properties as a map from name to value, and the object that has
    replaced its prototype, if any. *)
Record ResultsObject : Type := {
  own : gmap string ClearResult;
  prototype : option ClearResult
}.

Definition empty_object : ResultsObject := {| own := ∅; prototype := None |}.

(** [results[name] = r].  Every name makes or overwrites an own property
    except [__proto__], which is the accessor of [Object.prototype]: it
    makes [r] the prototype of [results] and leaves the own properties
    alone. *)
Definition assign (name : string) (r : ClearResult) (results : ResultsObject)
  : ResultsObject :=
  if String.eqb name "__proto__" then {| own := own results; prototype := Some r |}
  else {| own := <[name := r]> (own results); prototype := prototype results |}.

Section WithHost.
Context {W : Type} (host : Host W).

(** [Date.now()] *)
Definition now : M W Z := read (Date_now host) EvNow.

(** [pool.query(text, params)] *)
Definition pool_query_call (text : string) (params : option (list string)) : M W PgResult :=
  call (pool_query host text params) (EvQuery text params).

Definition query (text : string) (params : option (list string)) : M W PgResult :=
  start <- now ;;
  try_catch
    (res <- pool_query_call text params ;;
     finish <- now ;;
     ret res)
    (fun error => throw error).

Definition clearTable (tableName : string) : M W ClearResult :=
  try_catch
    (result <- query ("DELETE FROM " +:+ tableName) None ;;
     ret {| success := true;
            rowCount := default 0 (pg_rowCount result);
            error := None |})
    (fun error =>
       let errorMessage := error_message error "Unknown error" in
       ret {| success := false; rowCount := 0; error := Some errorMessage |}).

(** The [for ... of] loop of [clearTables]. *)
Fixpoint clearTables_loop (tableNames : list string) (results : ResultsObject)
  : M W ResultsObject :=
  match tableNames with
  | [] => ret results
  | tableName :: rest =>
      r <- clearTable tableName ;;
      clearTables_loop rest (assign tableName r results)
  end.

Definition clearTables (tableNames : list string) : M W ResultsObject :=
  clearTables_loop tableNames empty_object.

End WithHost.

End Db.

(** ** The route handlers, src/app/api *)

Module Shared.

(** [!given || given !== expected], the test every gated handler makes on
    its credential header. *)
Definition rejects (given : option string) (expected : string) : bool :=
  match given with
  | None => true
  | Some v => String.eqb v "" || negb (String.eqb v expected)
  end.

(** The answer of the gates. *)
Definition Unauthorized : NextResponse :=
  {| status := 401;
     body := JObj [("success", JBool false); ("error", JStr "Unauthorized")] |}.

(** The answer of the [catch] blocks:
    [{ success: false, error, details }] with status 500. *)
Definition failure (error details : string) : NextResponse :=
  {| status := 500;
     body := JObj [("success", JBool false); ("error", JStr error);
                   ("details", JStr details)] |}.

Section WithHost.
Context {W : Type} (host : Host W) (env : ProcessEnv).

(** A value, or the exception the engine throws instead. *)
Definition attempt {A} (r : A + EngineFault) : M W A :=
  lift (thrown (engine host) r).

(** [return NextResponse.json(body, { status })] *)
Definition respond (b : JsVal) (s : Z) : M W NextResponse :=
  attempt (NextResponse_json_status b s).

(** [return NextResponse.json({ success: false, error: 'Unauthorized' },
    { status: 401 })] *)
Definition unauthorized : M W NextResponse :=
  respond (JObj [("success", JBool false); ("error", JStr "Unauthorized")]) 401.

(** The [return] of the [catch] blocks. *)
Definition fail (error details : string) : M W NextResponse :=
  respond
    (JObj [("success", JBool false); ("error", JStr error); ("details", JStr details)])
    500.

(** [new Date().toISOString()] *)
Definition timestamp : M W string :=
  t <- Db.now host ;;
  ret (Date_toISOString host t).

(** [fetch(url, init)] *)
Definition fetch (req : FetchRequest) : M W FetchResponse :=
  call (net_fetch host req) (EvFetch req).

(** The four handlers that empty one table through [clearTable] have the
    same text up to the table and the wording of their messages. *)
Definition table_clear_DELETE (table cleared failed failedCatch : string)
  (request : Request) : M W NextResponse :=
  try_catch
    (let adminPassword := pairs_get (headers request) "admin-password" in
     let expectedPassword := or_else (NEXT_PUBLIC_ADMIN_PASSWORD env) "admin123" in
     if rejects adminPassword expectedPassword then unauthorized
     else
       result <- Db.clearTable host table ;;
       if Db.success result then
         let message :=
           cleared +:+ " cleared successfully. Removed "
             +:+ number_string (engine host) (Db.rowCount result) +:+ " rows." in
         ts <- timestamp ;;
         ret (NextResponse_json
                (JObj [("success", JBool true);
                       ("message", JStr message);
                       ("timestamp", JStr ts);
                       ("rowCount", JNum (Db.rowCount result))]))
       else
         respond
           (JObj [("success", JBool false);
                  ("error", JStr failed);
                  ("details", from_option JStr JUndefined (Db.error result))])
           500)
    (fun error => fail failedCatch (error_message error "Unknown error")).

End WithHost.

End Shared.
Export Shared.

Module AnomaliesClear.
Section WithHost.
Context {W : Type} (host : Host W) (env : ProcessEnv).

Definition DELETE : Request -> M W NextResponse :=
  table_clear_DELETE host env "anomaly_flags" "Anomaly flags"
    "Failed to clear anomaly flags" "Failed to clear anomalies".

End WithHost.
End AnomaliesClear.

Module TransactionsClear.
Section WithHost.
Context {W : Type} (host : Host W) (env : ProcessEnv).

Definition DELETE : Request -> M W NextResponse :=
  table_clear_DELETE host env "transactions" "Transactions"
    "Failed to clear transactions" "Failed to clear transactions".

End WithHost.
End TransactionsClear.

Module TransactionItemsClear.
Section WithHost.
Context {W : Type} (host : Host W) (env : ProcessEnv).

Definition DELETE : Request -> M W NextResponse :=
  table_clear_DELETE host env "transaction_items" "Transaction items"
    "Failed to clear transaction items" "Failed to clear transaction items".

End WithHost.
End TransactionItemsClear.

Module SubmissionsClear.
Section WithHost.
Context {W : Type} (host : Host W) (env : ProcessEnv).

Definition DELETE : Request -> M W NextResponse :=
  table_clear_DELETE host env "submissions" "Submissions"
    "Failed to clear submissions" "Failed to clear submissions".

End WithHost.
End SubmissionsClear.

Module IntegrationsClear.
Section WithHost.
Context {W : Type} (host : Host W) (env : ProcessEnv).

(** [`${result.rowCount}`] and [rowCount: result.rowCount] on the driver's
    result, whose [rowCount] may be [null]. *)
Definition rowCount_value (result : PgResult) : JsVal :=
  from_option JNum JNull (pg_rowCount result).

Definition DELETE (request : Request) : M W NextResponse :=
  try_catch
    (let adminPassword := pairs_get (headers request) "admin-password" in
     let expectedPassword := or_else (NEXT_PUBLIC_ADMIN_PASSWORD env) "admin123" in
     if rejects adminPassword expectedPassword then unauthorized host
     else
       try_catch
         (result <- Db.query host "DELETE FROM integrations WHERE type = $1" (Some ["shopify"]) ;;
          rows <- attempt host (template_string (engine host) (rowCount_value result)) ;;
          let message :=
            "Shopify integrations cleared successfully. Removed " +:+ rows +:+ " rows." in
          ts <- timestamp host ;;
          ret (NextResponse_json
                 (JObj [("success", JBool true);
                        ("message", JStr message);
                        ("timestamp", JStr ts);
                        ("rowCount", rowCount_value result)])))
         (fun dbError =>
            let errorMessage := error_message dbError "Unknown database error" in
            fail host "Failed to clear Shopify integrations" errorMessage))
    (fun error =>
       fail host "Failed to clear integrations" (error_message error "Unknown error")).

End WithHost.
End IntegrationsClear.

Module VectordbClear.
Section WithHost.
Context {W : Type} (host : Host W) (env : ProcessEnv).

Definition DELETE (request : Request) : M W NextResponse :=
  try_catch
    (let adminPassword := pairs_get (headers request) "admin-password" in
     let expectedPassword := or_else (NEXT_PUBLIC_ADMIN_PASSWORD env) "admin123" in
     if rejects adminPassword expectedPassword then unauthorized host
     else
       let coolerApiUrl := or_else (NEXT_PUBLIC_API_URL env) "http://localhost:8888" in
       let adminToken := "Bearit01!" in
       try_catch
         (response <- fetch host
            {| fetch_url := coolerApiUrl +:+ "/admin/vector-db/clear-all";
               fetch_method := "DELETE";
               fetch_headers := [("Authorization", "Bearer " +:+ adminToken);
                                 ("Content-Type", "application/json")];
               fetch_timeout := Some 10000 |} ;;
          if ok response then
            result <- lift (resp_json response) ;;
            ts <- timestamp host ;;
            ret (NextResponse_json
                   (JObj [("success", JBool true);
                          ("message", JStr "VectorDB cleared successfully");
                          ("timestamp", JStr ts);
                          ("apiResponse", result)]))
          else
            let errorText := resp_text response in
            respond host
              (JObj [("success", JBool false);
                     ("error", JStr ("API call failed: " +:+ pretty (resp_status response)));
                     ("details", JStr errorText)])
              (resp_status response))
         (fun fetchError =>
            fail host "Failed to call Cooler API"
              (error_message fetchError "Unknown error")))
    (fun error =>
       fail host "Failed to clear VectorDB" (error_message error "Unknown error")).

End WithHost.
End VectordbClear.

Module ApiRequests.
Section WithHost.
Context {W : Type} (host : Host W) (env : ProcessEnv).

Definition GET (request : Request) : M W NextResponse :=
  try_catch
    (let limit := or_else (pairs_get (searchParams request) "limit") "100" in
     let userId := pairs_get (searchParams request) "userId" in
     let base := or_else (NEXT_PUBLIC_API_URL env) "https://api.cooler.dev" in
     let apiUrl :=
       match userId with
       | Some u =>
           if String.eqb u "" then base +:+ "/admin/api-requests/recent?limit=" +:+ limit
           else base +:+ "/admin/customers/" +:+ u +:+ "/api-requests/recent?limit=" +:+ limit
       | None => base +:+ "/admin/api-requests/recent?limit=" +:+ limit
       end in
     response <- fetch host
       {| fetch_url := apiUrl;
          fetch_method := "GET";
          fetch_headers := [("Authorization", "Bearer Bearit01!");
                            ("Content-Type", "application/json")];
          fetch_timeout := None |} ;;
     if negb (ok response) then
       respond host
         (JObj [("success", JBool false);
                ("error", JStr ("Failed to fetch API requests: "
                                  +:+ pretty (resp_status response)));
                ("details", JStr (resp_text response))])
         (resp_status response)
     else
       data <- lift (resp_json response) ;;
       ts <- timestamp host ;;
       ret (NextResponse_json
              (JObj [("success", JBool true);
                     ("data", data);
                     ("timestamp", JStr ts)])))
    (fun error =>
       fail host "Failed to fetch API requests" (error_message error "Unknown error")).

End WithHost.
End ApiRequests.

Module Transactions.

(** The object the [map] callback builds from one upstream transaction
    that is neither [null] nor [undefined]. *)
Definition reshaped (tx : JsVal) : JsVal :=
  JObj [("id", get_prop_opt tx "id");
        ("dateCreated", get_prop_opt tx "dateCreated");
        ("status", get_prop_opt tx "statusFootprint");
        ("itemCount", js_or (get_prop_opt tx "itemCount") (JNum 0));
        ("stripeUsageId", get_prop_opt tx "stripeUsageId")].

Section WithHost.
Context {W : Type} (host : Host W) (env : ProcessEnv).

(** The [map] callback, property read by property read. *)
Definition reshape (tx : JsVal) : M W JsVal :=
  id <- attempt host (get_prop tx "id") ;;
  dateCreated <- attempt host (get_prop tx "dateCreated") ;;
  statusFootprint <- attempt host (get_prop tx "statusFootprint") ;;
  itemCount <- attempt host (get_prop tx "itemCount") ;;
  stripeUsageId <- attempt host (get_prop tx "stripeUsageId") ;;
  ret (JObj [("id", id);
             ("dateCreated", dateCreated);
             ("status", statusFootprint);
             ("itemCount", js_or itemCount (JNum 0));
             ("stripeUsageId", stripeUsageId)]).

(** [items.map(f)], left to right. *)
Fixpoint map_M (f : JsVal -> M W JsVal) (items : list JsVal) : M W (list JsVal) :=
  match items with
  | [] => ret []
  | x :: rest =>
      y <- f x ;;
      ys <- map_M f rest ;;
      ret (y :: ys)
  end.

(** [v.slice(0, 7).map(f)]: an array gives the mapped first seven; on a
    string [slice] gives a string, which has no [map], and on any other
    value there is no [slice]: in both cases what is called is not a
    function. *)
Definition slice_0_7_map (v : JsVal) (f : JsVal -> M W JsVal) : M W JsVal :=
  match v with
  | JArr items =>
      ys <- map_M f (firstn 7 items) ;;
      ret (JArr ys)
  | _ => throw (raise (engine host) (NotAFunction v))
  end.

Definition GET (request : Request) (params : RouteParams) : M W NextResponse :=
  try_catch
    (let authHeader := pairs_get (headers request) "authorization" in
     let expectedToken := "Bearer Bearit01!" in
     if rejects authHeader expectedToken then unauthorized host
     else
       let userId := userId params in
       if String.eqb userId "" then
         respond host
           (JObj [("success", JBool false); ("error", JStr "userId is required")])
           400
       else
         let apiUrl :=
           or_else (NEXT_PUBLIC_API_URL env) "https://api.cooler.dev"
             +:+ "/admin/customers/" +:+ userId +:+ "/database-counts" in
         response <- fetch host
           {| fetch_url := apiUrl;
              fetch_method := "GET";
              fetch_headers := [("Authorization", "Bearer Bearit01!");
                                ("Content-Type", "application/json")];
              fetch_timeout := None |} ;;
         if negb (ok response) then
           respond host
             (JObj [("success", JBool false);
                    ("error", JStr ("Failed to fetch transactions: "
                                      +:+ pretty (resp_status response)));
                    ("details", JStr (resp_text response))])
             (resp_status response)
         else
           data <- lift (resp_json response) ;;
           recent <- attempt host (get_prop data "recentTransactions") ;;
           recentTransactions <- slice_0_7_map (js_or recent (JArr [])) reshape ;;
           counts <- attempt host (get_prop data "counts") ;;
           let totalCount := js_or (get_prop_opt counts "transactions") (JNum 0) in
           ts <- timestamp host ;;
           ret (NextResponse_json
                  (JObj [("success", JBool true);
                         ("userId", JStr userId);
                         ("transactions", recentTransactions);
                         ("totalCount", totalCount);
                         ("timestamp", JStr ts)])))
    (fun error =>
       fail host "Failed to fetch transactions" (error_message error "Unknown error")).

End WithHost.
End Transactions.

Module Impersonate.
Section WithHost.
Context {W : Type} (host : Host W) (env : ProcessEnv).

(** [crypto.randomUUID()] *)
Definition randomUUID : M W string := read (crypto_randomUUID host) EvUUID.

(** [await builder.sign(secret)] *)
Definition sign (jwt : SignJWT) (secret : string) : M W string :=
  call (jose_sign host jwt secret) (EvSign jwt secret).

Definition POST (request : Request) : M W NextResponse :=
  try_catch
    (let authHeader := pairs_get (headers request) "authorization" in
     let expectedToken := "Bearer Bearit01!" in
     if rejects authHeader expectedToken then unauthorized host
     else
       body <- lift (json_body request) ;;
       userId <- attempt host (destructure body "userId") ;;
       if negb (truthy userId) then
         respond host
           (JObj [("success", JBool false); ("error", JStr "userId is required")])
           400
       else
         nonce <- randomUUID ;;
         created <- Db.now host ;;
         let expiresAt := created + 5 * 60 * 1000 in
         issued <- Db.now host ;;
         let payload :=
           JObj [("userId", userId);
                 ("adminId", JStr "admin");
                 ("readOnly", JBool true);
                 ("expiresAt", JStr (Date_toISOString host expiresAt));
                 ("nonce", JStr nonce);
                 ("iat", JNum (issued / 1000))] in
         let secret :=
           or_else (ADMIN_JWT_SECRET env) "admin-secret-key-change-in-production" in
         token <- sign
           (setExpirationTime "5m"
              (setProtectedHeader (JObj [("alg", JStr "HS256")]) (new_SignJWT payload)))
           secret ;;
         let appUrl := or_else (NEXT_PUBLIC_APP_URL env) "https://app.cooler.dev" in
         user <- attempt host (template_string (engine host) userId) ;;
         let magicLink :=
           appUrl +:+ "/transactions?impersonate=" +:+ user +:+ "&token=" +:+ token in
         audited <- timestamp host ;;
         ret (NextResponse_json
                (JObj [("success", JBool true);
                       ("magicLink", JStr magicLink);
                       ("token", JStr token);
                       ("expiresAt", JStr (Date_toISOString host expiresAt));
                       ("message", JStr "Magic link generated successfully")])))
    (fun error =>
       fail host "Failed to generate magic link" (error_message error "Unknown error")).

End WithHost.
End Impersonate.

Module ClearDatabase.

(** One entry of the object [results]: [{ success, error }], with [error]
    initially [null]. *)
Record TableResult : Type := {
  success : bool;
  error : option string
}.

Definition Results : Type := list (string * TableResult).

(** The object literal [results] starts from. *)
Definition initial_results : Results :=
  map (fun k => (k, {| success := false; error := None |}))
    ["vectordb"; "transactions"; "transactionItems"; "submissions"; "anomalies";
     "integrations"].

(** [results.key.success = true] *)
Fixpoint set_success (key : string) (results : Results) : Results :=
  match results with
  | [] => []
  | (k, r) :: rest =>
      if String.eqb k key then (k, {| success := true; error := error r |}) :: rest
      else (k, r) :: set_success key rest
  end.

(** [results.key.error = msg] *)
Fixpoint set_error (key msg : string) (results : Results) : Results :=
  match results with
  | [] => []
  | (k, r) :: rest =>
      if String.eqb k key then (k, {| success := success r; error := Some msg |}) :: rest
      else (k, r) :: set_error key msg rest
  end.

(** [Object.values(results).filter(r => r.success).length] *)
Definition successCount (results : Results) : Z :=
  Z.of_nat (length (List.filter (fun r => success r) (map snd results))).

(** [Object.keys(results).length] *)
Definition totalCount (results : Results) : Z :=
  Z.of_nat (length (map fst results)).

(** [results] as it is placed in the response. *)
Definition results_value (results : Results) : JsVal :=
  JObj (map (fun kr =>
               (fst kr,
                JObj [("success", JBool (success (snd kr)));
                      ("error", from_option JStr JNull (error (snd kr)))]))
          results).

(** The six sub-requests, in the order the handler makes them: the key
    under [results] and the path of the route. *)
Definition steps : list (string * string) :=
  [("vectordb", "/api/vectordb/clear");
   ("transactions", "/api/transactions/clear");
   ("transactionItems", "/api/transaction-items/clear");
   ("submissions", "/api/submissions/clear");
   ("anomalies", "/api/anomalies/clear");
   ("integrations", "/api/integrations/clear")].

(** The request of one step. *)
Definition step_request (baseUrl adminPassword path : string) : FetchRequest :=
  {| fetch_url := baseUrl +:+ path;
     fetch_method := "DELETE";
     fetch_headers := [("admin-password", adminPassword);
                       ("Content-Type", "application/json")];
     fetch_timeout := Some 10000 |}.

Section WithHost.
Context {W : Type} (host : Host W) (env : ProcessEnv).

(** One of the six [try]/[catch] blocks; they differ in the key and the
    path only. *)
Definition clear_step (baseUrl adminPassword : string) (results : Results)
  (step : string * string) : M W Results :=
  let '(key, path) := step in
  try_catch
    (response <- fetch host (step_request baseUrl adminPassword path) ;;
     if ok response then ret (set_success key results)
     else
       let errorText := resp_text response in
       ret (set_error key (pretty (resp_status response) +:+ ": " +:+ errorText) results))
    (fun error =>
       let errorMsg := error_message error "Unknown error" in
       ret (set_error key errorMsg results)).

(** The blocks in sequence. *)
Fixpoint clear_steps (baseUrl adminPassword : string) (results : Results)
  (todo : list (string * string)) : M W Results :=
  match todo with
  | [] => ret results
  | step :: rest =>
      results' <- clear_step baseUrl adminPassword results step ;;
      clear_steps baseUrl adminPassword results' rest
  end.

Definition POST (request : Request) : M W NextResponse :=
  try_catch
    (let adminPassword := pairs_get (headers request) "admin-password" in
     let expectedPassword := or_else (NEXT_PUBLIC_ADMIN_PASSWORD env) "admin123" in
     if rejects adminPassword expectedPassword then unauthorized host
     else
       let adminPassword := default "" adminPassword in
       let baseUrl := replace_first "/api/clear-database" "" (url request) in
       results <- clear_steps baseUrl adminPassword initial_results steps ;;
       let successCount := successCount results in
       let totalCount := totalCount results in
       let overallSuccess := successCount =? totalCount in
       let message :=
         if overallSuccess then
           "Successfully cleared " +:+ pretty successCount +:+ "/" +:+ pretty totalCount
             +:+ " database tables"
         else
           "Cleared " +:+ pretty successCount +:+ "/" +:+ pretty totalCount
             +:+ " database tables with some errors" in
       ret (NextResponse_json
              (JObj [("success", JBool overallSuccess);
                     ("message", JStr message);
                     ("results", results_value results);
                     ("summary",
                      JObj [("cleared", JNum successCount);
                            ("total", JNum totalCount);
                            ("errors", JNum (totalCount - successCount))])])))
    (fun error =>
       fail host "Failed to clear database" (error_message error "Unknown error")).

End WithHost.
End ClearDatabase.

(** ** All the routes *)

Module Api.

Inductive Route : Type :=
| AnomaliesClearRoute
| VectordbClearRoute
| TransactionsClearRoute
| TransactionItemsClearRoute
| SubmissionsClearRoute
| IntegrationsClearRoute
| ClearDatabaseRoute
| ApiRequestsRoute
| ImpersonateRoute
| TransactionsRoute.

(** The routes that delete rows of the database. *)
Definition table_clearing (r : Route) : bool :=
  match r with
  | AnomaliesClearRoute | TransactionsClearRoute | TransactionItemsClearRoute
  | SubmissionsClearRoute | IntegrationsClearRoute => true
  | _ => false
  end.

Section WithHost.
Context {W : Type} (host : Host W) (env : ProcessEnv).

(** The exported handler of each route file. *)
Definition handler (r : Route) (request : Request) (params : RouteParams)
  : M W NextResponse :=
  match r with
  | AnomaliesClearRoute => AnomaliesClear.DELETE host env request
  | VectordbClearRoute => VectordbClear.DELETE host env request
  | TransactionsClearRoute => TransactionsClear.DELETE host env request
  | TransactionItemsClearRoute => TransactionItemsClear.DELETE host env request
  | SubmissionsClearRoute => SubmissionsClear.DELETE host env request
  | IntegrationsClearRoute => IntegrationsClear.DELETE host env request
  | ClearDatabaseRoute => ClearDatabase.POST host env request
  | ApiRequestsRoute => ApiRequests.GET host env request
  | ImpersonateRoute => Impersonate.POST host env request
  | TransactionsRoute => Transactions.GET host env request params
  end.

End WithHost.
End Api.

(** ** src/components/AnomalyProcessor.tsx *)

Module AnomalyProcessor.

Inductive ResolutionAction : Type :=
| UPDATE_SUBMISSION
| UPDATE_NAICS_CODE
| UPDATE_PRICE
| MARK_RESOLVED.

Section Form.
(** JavaScript numbers; the component only carries the price along. *)
Context {number : Type}.

(** The form state [submissionData]. *)
Record SubmissionData : Type := {
  title : string;
  manufacturer : string;
  category : string;
  description : string;
  price : number;
  currency : string;
  naicsCode : string
}.

(** The values placed in [requestData]. *)
Inductive Value : Type :=
| VAction (a : ResolutionAction)
| VString (s : string)
| VNumber (n : number)
| VSubmission (d : SubmissionData).

(** [o.k = v] on the object [requestData]. *)
Fixpoint assign (k : string) (v : Value) (o : list (string * Value)) : list (string * Value) :=
  match o with
  | [] => [(k, v)]
  | (k', v') :: rest =>
      if String.eqb k k' then (k, v) :: rest else (k', v') :: assign k v rest
  end.

(** The component state [handleResolve] reads. *)
Record FormState : Type := {
  selectedAction : ResolutionAction;
  resolutionNotes : string;
  submissionData : SubmissionData
}.

(** The object [handleResolve] builds before the call to [axios.post]. *)
Definition requestData (st : FormState) : list (string * Value) :=
  let requestData :=
    [("action", VAction (selectedAction st)); ("notes", VString (resolutionNotes st))] in
  match selectedAction st with
  | UPDATE_SUBMISSION =>
      assign "submissionData" (VSubmission (submissionData st)) requestData
  | UPDATE_NAICS_CODE =>
      assign "naicsCode" (VString (naicsCode (submissionData st))) requestData
  | UPDATE_PRICE =>
      assign "currency" (VString (currency (submissionData st)))
        (assign "price" (VNumber (price (submissionData st))) requestData)
  | MARK_RESOLVED => requestData
  end.

(** The arguments of [axios.post]. *)
Record AxiosPost : Type := {
  post_url : string;
  post_data : list (string * Value);
  post_headers : list (string * string)
}.

(** The call [handleResolve] makes for the anomaly [anomalyId].  Its early
    return on a falsy [selectedAction] is unreachable: the four actions
    are non-empty strings. *)
Definition handleResolve (API_BASE_URL anomalyId : string) (st : FormState) : AxiosPost :=
  {| post_url := API_BASE_URL +:+ "/admin/anomalies/" +:+ anomalyId +:+ "/resolve";
     post_data := requestData st;
     post_headers := [("Authorization", "Bearer Bearit01!")] |}.

End Form.

Arguments SubmissionData : clear implicits.
Arguments Value : clear implicits.
Arguments FormState : clear implicits.
Arguments AxiosPost : clear implicits.

End AnomalyProcessor.

(** ** The page of API requests (src/app/api-requests/page.tsx) *)

Module ApiRequestsPage.

Inductive StatusFilter : Type := all | success | error.

Section Page.
(** The rows of the list and the [Date] of the last update are carried
    along only. *)
Context {ApiRequest Date : Type} (endpoint : ApiRequest -> string).

(** The [useState] cells of the component. *)
Record PageState : Type := {
  requests : list ApiRequest;
  loading : bool;
  error_ : option string;
  lastUpdated : option Date;
  autoRefresh : bool;
  refreshInterval : Z;
  searchTerm : string;
  statusFilter : StatusFilter;
  endpointFilter : string;
  userIdFilter : string;
  selectedRequest : option ApiRequest;
  isModalOpen : bool
}.

(** The first render, with [searchParams.get('userId') || '']. *)
Definition initial (userIdParam : option string) : PageState :=
  {| requests := [];
     loading := true;
     error_ := None;
     lastUpdated := None;
     autoRefresh := true;
     refreshInterval := 5000;
     searchTerm := "";
     statusFilter := all;
     endpointFilter := "";
     userIdFilter := or_else userIdParam "";
     selectedRequest := None;
     isModalOpen := false |}.

(** The state setters the component calls.  [setRefreshInterval] is
    declared by its [useState] and called nowhere. *)
Inductive Setter : Type :=
| setRequests (v : list ApiRequest)
| setLoading (v : bool)
| setError (v : option string)
| setLastUpdated (v : option Date)
| setAutoRefresh (v : bool)
| setSearchTerm (v : string)
| setStatusFilter (v : StatusFilter)
| setEndpointFilter (v : string)
| setUserIdFilter (v : string)
| setSelectedRequest (v : option ApiRequest)
| setIsModalOpen (v : bool).

Definition apply (st : PageState) (s : Setter) : PageState :=
  match s with
  | setRequests v =>
      {| requests := v; loading := loading st; error_ := error_ st;
         lastUpdated := lastUpdated st; autoRefresh := autoRefresh st;
         refreshInterval := refreshInterval st; searchTerm := searchTerm st;
         statusFilter := statusFilter st; endpointFilter := endpointFilter st;
         userIdFilter := userIdFilter st; selectedRequest := selectedRequest st;
         isModalOpen := isModalOpen st |}
  | setLoading v =>
      {| requests := requests st; loading := v; error_ := error_ st;
         lastUpdated := lastUpdated st; autoRefresh := autoRefresh st;
         refreshInterval := refreshInterval st; searchTerm := searchTerm st;
         statusFilter := statusFilter st; endpointFilter := endpointFilter st;
         userIdFilter := userIdFilter st; selectedRequest := selectedRequest st;
         isModalOpen := isModalOpen st |}
  | setError v =>
      {| requests := requests st; loading := loading st; error_ := v;
         lastUpdated := lastUpdated st; autoRefresh := autoRefresh st;
         refreshInterval := refreshInterval st; searchTerm := searchTerm st;
         statusFilter := statusFilter st; endpointFilter := endpointFilter st;
         userIdFilter := userIdFilter st; selectedRequest := selectedRequest st;
         isModalOpen := isModalOpen st |}
  | setLastUpdated v =>
      {| requests := requests st; loading := loading st; error_ := error_ st;
         lastUpdated := v; autoRefresh := autoRefresh st;
         refreshInterval := refreshInterval st; searchTerm := searchTerm st;
         statusFilter := statusFilter st; endpointFilter := endpointFilter st;
         userIdFilter := userIdFilter st; selectedRequest := selectedRequest st;
         isModalOpen := isModalOpen st |}
  | setAutoRefresh v =>
      {| requests := requests st; loading := loading st; error_ := error_ st;
         lastUpdated := lastUpdated st; autoRefresh := v;
         refreshInterval := refreshInterval st; searchTerm := searchTerm st;
         statusFilter := statusFilter st; endpointFilter := endpointFilter st;
         userIdFilter := userIdFilter st; selectedRequest := selectedRequest st;
         isModalOpen := isModalOpen st |}
  | setSearchTerm v =>
      {| requests := requests st; loading := loading st; error_ := error_ st;
         lastUpdated := lastUpdated st; autoRefresh := autoRefresh st;
         refreshInterval := refreshInterval st; searchTerm := v;
         statusFilter := statusFilter st; endpointFilter := endpointFilter st;
         userIdFilter := userIdFilter st; selectedRequest := selectedRequest st;
         isModalOpen := isModalOpen st |}
  | setStatusFilter v =>
      {| requests := requests st; loading := loading st; error_ := error_ st;
         lastUpdated := lastUpdated st; autoRefresh := autoRefresh st;
         refreshInterval := refreshInterval st; searchTerm := searchTerm st;
         statusFilter := v; endpointFilter := endpointFilter st;
         userIdFilter := userIdFilter st; selectedRequest := selectedRequest st;
         isModalOpen := isModalOpen st |}
  | setEndpointFilter v =>
      {| requests := requests st; loading := loading st; error_ := error_ st;
         lastUpdated := lastUpdated st; autoRefresh := autoRefresh st;
         refreshInterval := refreshInterval st; searchTerm := searchTerm st;
         statusFilter := statusFilter st; endpointFilter := v;
         userIdFilter := userIdFilter st; selectedRequest := selectedRequest st;
         isModalOpen := isModalOpen st |}
  | setUserIdFilter v =>
      {| requests := requests st; loading := loading st; error_ := error_ st;
         lastUpdated := lastUpdated st; autoRefresh := autoRefresh st;
         refreshInterval := refreshInterval st; searchTerm := searchTerm st;
         statusFilter := statusFilter st; endpointFilter := endpointFilter st;
         userIdFilter := v; selectedRequest := selectedRequest st;
         isModalOpen := isModalOpen st |}
  | setSelectedRequest v =>
      {| requests := requests st; loading := loading st; error_ := error_ st;
         lastUpdated := lastUpdated st; autoRefresh := autoRefresh st;
         refreshInterval := refreshInterval st; searchTerm := searchTerm st;
         statusFilter := statusFilter st; endpointFilter := endpointFilter st;
         userIdFilter := userIdFilter st; selectedRequest := v;
         isModalOpen := isModalOpen st |}
  | setIsModalOpen v =>
      {| requests := requests st; loading := loading st; error_ := error_ st;
         lastUpdated := lastUpdated st; autoRefresh := autoRefresh st;
         refreshInterval := refreshInterval st; searchTerm := searchTerm st;
         statusFilter := statusFilter st; endpointFilter := endpointFilter st;
         userIdFilter := userIdFilter st; selectedRequest := selectedRequest st;
         isModalOpen := v |}
  end.

(** What can happen to the page: the outcomes of [fetchApiRequests] and
    the handlers bound to the controls. *)
Inductive PageEvent : Type :=
| FetchSucceeded (data : list ApiRequest) (at_ : Date)
| FetchRefused (message : option string)
| FetchThrew
| RequestClick (request : ApiRequest)
| CloseModal
| ViewUser (userId : string)
| ViewSimilarRequests (request : ApiRequest)
| ToggleAutoRefresh
| SearchTermChange (v : string)
| StatusFilterChange (v : StatusFilter)
| EndpointFilterChange (v : string)
| UserIdFilterChange (v : string).

(** The setter calls each event makes, in order. *)
Definition setters (st : PageState) (e : PageEvent) : list Setter :=
  match e with
  | FetchSucceeded data at_ =>
      [setError None; setRequests data; setLastUpdated (Some at_); setLoading false]
  | FetchRefused message =>
      [setError None;
       setError (Some (or_else message "Failed to fetch API requests"));
       setLoading false]
  | FetchThrew =>
      [setError None; setError (Some "Failed to fetch API requests"); setLoading false]
  | RequestClick request => [setSelectedRequest (Some request); setIsModalOpen true]
  | CloseModal => [setIsModalOpen false; setSelectedRequest None]
  | ViewUser userId => [setUserIdFilter userId; setIsModalOpen false]
  | ViewSimilarRequests request =>
      [setEndpointFilter (endpoint request); setIsModalOpen false]
  | ToggleAutoRefresh => [setAutoRefresh (negb (autoRefresh st))]
  | SearchTermChange v => [setSearchTerm v]
  | StatusFilterChange v => [setStatusFilter v]
  | EndpointFilterChange v => [setEndpointFilter v]
  | UserIdFilterChange v => [setUserIdFilter v]
  end.

Definition step (st : PageState) (e : PageEvent) : PageState :=
  fold_left apply (setters st e) st.

Definition run (st : PageState) (es : list PageEvent) : PageState :=
  fold_left step es st.

(** The effect on [autoRefresh], [refreshInterval] and [fetchApiRequests]:
    the delay handed to [setInterval], when a timer is set at all. *)
Definition scheduled (st : PageState) : option Z :=
  if autoRefresh st then Some (refreshInterval st) else None.

End Page.

Arguments PageState : clear implicits.
Arguments Setter : clear implicits.
Arguments PageEvent : clear implicits.

End ApiRequestsPage.

(** ** A concrete world, for running the handlers on examples *)

Module Sim.

(** A clock that advances by one millisecond per reading, tables with
    their row counts, peers that answer by URL, and a counter for UUIDs. *)
Record World : Type := {
  clock : Z;
  tables : list (string * N);
  peers : list (string * FetchResponse);
  uuids : N
}.

(** The word after [DELETE FROM ], up to the next space. *)
Fixpoint first_word (s : string) : string :=
  match s with
  | EmptyString => EmptyString
  | String c rest => if Ascii.eqb c " "%char then EmptyString else String c (first_word rest)
  end.

Definition table_of (text : string) : string :=
  first_word (String.substring 12 (String.length text - 12) text).

Fixpoint rows_of (t : string) (ts : list (string * N)) : option N :=
  match ts with
  | [] => None
  | (k, n) :: rest => if String.eqb k t then Some n else rows_of t rest
  end.

Fixpoint empty_table (t : string) (ts : list (string * N)) : list (string * N) :=
  match ts with
  | [] => []
  | (k, n) :: rest =>
      if String.eqb k t then (k, 0%N) :: rest else (k, n) :: empty_table t rest
  end.

(** A [DELETE] removes every row of a table that exists and fails on one
    that does not. *)
Definition sim_query (text : string) (params : option (list string)) (w : World)
  : (PgResult + Thrown) * World :=
  let t := table_of text in
  match rows_of t (tables w) with
  | Some n =>
      (inl {| pg_rowCount := Some (Z.of_N n) |},
       {| clock := clock w; tables := empty_table t (tables w);
          peers := peers w; uuids := uuids w |})
  | None => (inr (JsError ("relation " +:+ t +:+ " does not exist")), w)
  end.

Fixpoint peer_of (u : string) (ps : list (string * FetchResponse)) : option FetchResponse :=
  match ps with
  | [] => None
  | (k, r) :: rest => if String.eqb k u then Some r else peer_of u rest
  end.

Definition sim_fetch (req : FetchRequest) (w : World) : (FetchResponse + Thrown) * World :=
  match peer_of (fetch_url req) (peers w) with
  | Some r => (inl r, w)
  | None => (inr (JsError "fetch failed"), w)
  end.

Definition sim_now (w : World) : Z * World :=
  (clock w,
   {| clock := clock w + 1; tables := tables w; peers := peers w; uuids := uuids w |}).

Definition sim_uuid (w : World) : string * World :=
  ("00000000-0000-4000-8000-" +:+ pretty (uuids w),
   {| clock := clock w; tables := tables w; peers := peers w;
      uuids := (uuids w + 1)%N |}).

(** [n] in decimal, padded with zeros to [width] digits. *)
Definition padded (width : nat) (n : Z) : string :=
  let digits := pretty n in
  String.concat "" (repeat "0" (width - String.length digits)) +:+ digits.

(** [new Date(ms).toISOString()] for the years 0 to 9999. *)
Definition sim_iso (ms : Z) : string :=
  let days := ms / 86400000 in
  let rest := ms mod 86400000 in
  let z := days + 719468 in
  let era := z / 146097 in
  let doe := z - era * 146097 in
  let yoe := (doe - doe / 1460 + doe / 36524 - doe / 146096) / 365 in
  let doy := doe - (365 * yoe + yoe / 4 - yoe / 100) in
  let mp := (5 * doy + 2) / 153 in
  let d := doy - (153 * mp + 2) / 5 + 1 in
  let m := if mp <? 10 then mp + 3 else mp - 9 in
  let y := yoe + era * 400 + (if m <=? 2 then 1 else 0) in
  padded 4 y +:+ "-" +:+ padded 2 m +:+ "-" +:+ padded 2 d +:+ "T"
    +:+ padded 2 (rest / 3600000) +:+ ":"
    +:+ padded 2 (rest mod 3600000 / 60000) +:+ ":"
    +:+ padded 2 (rest mod 60000 / 1000) +:+ "."
    +:+ padded 3 (rest mod 1000) +:+ "Z".

(** How the value [v] shows in the messages of the engine. *)
Definition nullish_name (v : JsVal) : string :=
  match v with
  | JNull => "null"
  | _ => "undefined"
  end.

(** The character that delimits strings. *)
Definition quote : string := String (ascii_of_nat 34) EmptyString.

(** An engine for the examples, with the wording of V8 and of the
    [Response] of Node.  The destructured expression, which V8 quotes from
    the source, is taken to be [body].  No example holds a number beyond
    the safe integers: for those the decimal digits are a stand-in for
    the shortest form that V8 prints. *)
Definition sim_engine : Engine :=
  {| fault_message := fun f =>
       match f with
       | ReadOfNullish v k =>
           "Cannot read properties of " +:+ nullish_name v
             +:+ " (reading '" +:+ k +:+ "')"
       | DestructureOfNullish v k =>
           "Cannot destructure property '" +:+ k +:+ "' of 'body' as it is "
             +:+ nullish_name v +:+ "."
       | NotAFunction _ => "(intermediate value).slice(...).map is not a function"
       | NoPrimitive _ => "Cannot convert object to primitive value"
       | InvalidStatus s =>
           if (200 <=? s) && (s <=? 599) then
             "Response constructor: Invalid response status code " +:+ pretty s
           else "init[" +:+ quote +:+ "status" +:+ quote
                  +:+ "] must be in the range of 200 to 599, inclusive."
       end;
     Number_toString := fun n => pretty n |}.

(** A stand-in for the compact serialisation: it shows the subject and the
    requested lifetime instead of encoding and signing them. *)
Definition sim_sign (jwt : SignJWT) (secret : string) (w : World)
  : (string + Thrown) * World :=
  (inl ("jwt."
          +:+ match field "userId" (jwt_payload jwt) with
              | Some (JStr u) => u
              | _ => "?"
              end
          +:+ "." +:+ default "" (jwt_expirationTime jwt)),
   w).

Definition host : Host World :=
  {| pool_query := sim_query;
     net_fetch := sim_fetch;
     Date_now := sim_now;
     crypto_randomUUID := sim_uuid;
     Date_toISOString := sim_iso;
     jose_sign := sim_sign;
     engine := sim_engine |}.

(** No variable of the environment is set. *)
Definition env : ProcessEnv :=
  {| DATABASE_URL := None;
     NEXT_PUBLIC_ADMIN_PASSWORD := None;
     NEXT_PUBLIC_API_URL := None;
     NEXT_PUBLIC_APP_URL := None;
     ADMIN_JWT_SECRET := None |}.

Definition answer (s : Z) (text : string) (json : JsVal + Thrown) : FetchResponse :=
  {| resp_status := s; resp_text := text; resp_json := json |}.

Definition not_json : JsVal + Thrown := inr (JsError "Unexpected token").

(** The upstream answers for customer [u1] with nine transactions; of the
    six routes behind clear-database, vectordb answers 500, anomalies
    answers 401, integrations does not answer and the other three answer
    200. *)
Definition initial_world : World :=
  {| clock := 0;
     tables := [("anomaly_flags", 3%N); ("transactions", 9%N); ("submissions", 0%N);
                ("integrations", 2%N)];
     peers :=
       [("https://api.cooler.dev/admin/customers/u1/database-counts",
         answer 200 "{...}"
           (inl (JObj
              [("recentTransactions",
                JArr (map (fun i =>
                             JObj [("id", JNum i);
                                   ("dateCreated", JStr "2024-01-01");
                                   ("statusFootprint", JStr "DONE");
                                   ("itemCount", JNum (i - 1))])
                        [1; 2; 3; 4; 5; 6; 7; 8; 9]));
               ("counts", JObj [("transactions", JNum 9)])])));
        ("https://api.cooler.dev/admin/customers/u2/database-counts",
         answer 404 "no such customer" not_json);
        ("http://admin.local/api/vectordb/clear", answer 500 "upstream down" not_json);
        ("http://admin.local/api/transactions/clear", answer 200 "{}" (inl (JObj [])));
        ("http://admin.local/api/transaction-items/clear", answer 200 "{}" (inl (JObj [])));
        ("http://admin.local/api/submissions/clear", answer 200 "{}" (inl (JObj [])));
        ("http://admin.local/api/anomalies/clear", answer 401 "Unauthorized" not_json)];
     uuids := 7 |}.

Definition start : State World :=
  {| world := initial_world; trace := []; raised := [] |}.

Definition request (u : string) (hs : list (string * string)) (b : JsVal + Thrown) : Request :=
  {| url := u; searchParams := []; headers := hs; json_body := b |}.

(** Requests with and without the credential each gate asks for. *)
Definition admin_request (u : string) : Request :=
  request u [("admin-password", "admin123")] not_json.

Definition anonymous_request (u : string) : Request := request u [] not_json.

Definition guessing_request (u : string) : Request :=
  request u [("admin-password", "letmein")] not_json.

Definition impersonate_request : Request :=
  request "http://admin.local/api/impersonate"
    [("authorization", "Bearer Bearit01!")]
    (inl (JObj [("userId", JStr "u1")])).

Definition transactions_request : Request :=
  request "http://admin.local/api/transactions/u1"
    [("authorization", "Bearer Bearit01!")] not_json.

Definition no_params : RouteParams := {| userId := "" |}.

End Sim.

(** ** The statements of the specification *)

Module Spec.



(** What [clearTable] makes of the outcome of its query. *)
Definition clear_outcome (out : PgResult + Thrown) : Db.ClearResult :=
  match out with
  | inl res =>
      {| Db.success := true; Db.rowCount := default 0 (pg_rowCount res); Db.error := None |}
  | inr e =>
      {| Db.success := false; Db.rowCount := 0;
         Db.error := Some (error_message e "Unknown error") |}
  end.

(** The statement each table-clearing route sends to the database. *)
Definition clear_statement (r : Api.Route) : string * option (list string) :=
  match r with
  | Api.AnomaliesClearRoute => ("DELETE FROM anomaly_flags", None)
  | Api.TransactionsClearRoute => ("DELETE FROM transactions", None)
  | Api.TransactionItemsClearRoute => ("DELETE FROM transaction_items", None)
  | Api.SubmissionsClearRoute => ("DELETE FROM submissions", None)
  | Api.IntegrationsClearRoute =>
      ("DELETE FROM integrations WHERE type = $1", Some ["shopify"])
  | _ => ("", None)
  end.

(** A sub-request of clear-database succeeded: it was answered, with a
    status from 200 to 299. *)
Definition fetch_succeeded (out : FetchResponse + Thrown) : bool :=
  match out with
  | inl r => ok r
  | inr _ => false
  end.

(** What one block of clear-database writes into [results] for the
    outcome of its sub-request. *)
Definition record_outcome (key : string) (out : FetchResponse + Thrown)
  (results : ClearDatabase.Results) : ClearDatabase.Results :=
  match out with
  | inl r =>
      if ok r then ClearDatabase.set_success key results
      else ClearDatabase.set_error key
             (pretty (resp_status r) +:+ ": " +:+ resp_text r) results
  | inr e => ClearDatabase.set_error key (error_message e "Unknown error") results
  end.

Definition record_outcomes (outs : list (string * (FetchResponse + Thrown)))
  (results : ClearDatabase.Results) : ClearDatabase.Results :=
  fold_left (fun rs ko => record_outcome (fst ko) (snd ko) rs) outs results.

(** The [success] flag under each key of [results]. *)
Definition flags (results : ClearDatabase.Results) : list (string * bool) :=
  map (fun kr => (fst kr, ClearDatabase.success (snd kr))) results.

(** [set_success], on the flags. *)
Fixpoint mark (key : string) (fs : list (string * bool)) : list (string * bool) :=
  match fs with
  | [] => []
  | (k, b) :: rest => if String.eqb k key then (k, true) :: rest else (k, b) :: mark key rest
  end.

(** The events of a sequence of [fetch] calls and their outcomes. *)
Definition fetch_events (reqs : list FetchRequest) (outs : list (FetchResponse + Thrown))
  : list Event :=
  map (fun ro => EvFetch (fst ro) (snd ro)) (combine reqs outs).

(** The six sub-requests of clear-database for a base URL and a password. *)
Definition step_requests (baseUrl adminPassword : string) : list FetchRequest :=
  map (fun s => ClearDatabase.step_request baseUrl adminPassword (snd s)) ClearDatabase.steps.

(** The array [(v || []).slice(0, 7)] runs over, for [v] an array or a
    falsy value. *)
Definition array_or_empty (v : JsVal) : list JsVal :=
  match v with
  | JArr items => items
  | _ => []
  end.

(** The body of section 7: [{ success: false, error, details }] with
    status 500. *)
Definition error_envelope (resp : NextResponse) : Prop :=
  status resp = 500
  /\ field "success" (body resp) = Some (JBool false)
  /\ (exists e, field "error" (body resp) = Some (JStr e))
  /\ (exists d, field "details" (body resp) = Some (JStr d)).

(** The error handling section 7 describes, for one run of a handler from
    [st] to [st'] with the response [resp]: if an exception was raised on
    the way the response is the error envelope, and if a [fetch] was
    answered with a status that is not ok the response has that status. *)
Definition spec_uniform_errors {W} (st : State W) (resp : NextResponse) (st' : State W)
  : Prop :=
  (new_raised st st' <> [] -> error_envelope resp)
  /\ (forall req up,
        In (req, inl up) (fetches (new_events st st')) ->
        ok up = false ->
        status resp = resp_status up).

(** The error handling of the routes that pass an upstream status on: as
    above when a response can have the status of the upstream together with
    a body; when it cannot, the response is the error envelope. *)
Definition uniform_errors {W} (st : State W) (resp : NextResponse) (st' : State W) : Prop :=
  (new_raised st st' <> [] -> error_envelope resp)
  /\ (forall req up,
        In (req, inl up) (fetches (new_events st st')) ->
        ok up = false ->
        if valid_status (resp_status up) then status resp = resp_status up
        else error_envelope resp).

(** The envelope of section 6 as the specification words it: a boolean
    [success], with [data] when it is true and [error] when it is false. *)
Definition spec_envelope (resp : NextResponse) : Prop :=
  exists b,
    field "success" (body resp) = Some (JBool b)
    /\ (b = true -> is_Some (field "data" (body resp)))
    /\ (b = false -> is_Some (field "error" (body resp))).

(** The envelope the routes produce: a boolean [success]; with
    [success: false] an [error] string, except for the summary of
    clear-database; with [success: true] a field [data] on the
    api-requests route and on no other. *)
Definition envelope (route : Api.Route) (resp : NextResponse) : Prop :=
  exists b,
    field "success" (body resp) = Some (JBool b)
    /\ (b = false ->
        (exists e, field "error" (body resp) = Some (JStr e))
        \/ (route = Api.ClearDatabaseRoute
            /\ status resp = 200
            /\ is_Some (field "message" (body resp))
            /\ is_Some (field "results" (body resp))
            /\ is_Some (field "summary" (body resp))))
    /\ (b = true ->
        (is_Some (field "data" (body resp)) <-> route = Api.ApiRequestsRoute)).

End Spec.
Export Spec.

(** ** Further statements about the routes and the database helper *)

Module More.

(** The credential each route asks for: the header and the value it must
    carry.  api-requests asks for none. *)
Definition gate (env : ProcessEnv) (r : Api.Route) : option (string * string) :=
  match r with
  | Api.ApiRequestsRoute => None
  | Api.ImpersonateRoute | Api.TransactionsRoute =>
      Some ("authorization", "Bearer Bearit01!")
  | _ => Some ("admin-password", or_else (NEXT_PUBLIC_ADMIN_PASSWORD env) "admin123")
  end.

(** Neither [null] nor [undefined]. *)
Definition defined (v : JsVal) : bool :=
  match v with
  | JUndefined | JNull => false
  | _ => true
  end.

(** The first element that is [null] or [undefined], if there is one. *)
Definition first_nullish (items : list JsVal) : option JsVal :=
  List.find (fun v => negb (defined v)) items.

(** What a block of clear-database leaves under [error] for the outcome
    of its sub-request; [None] is the initial [null]. *)
Definition outcome_error (out : FetchResponse + Thrown) : option string :=
  match out with
  | inl r => if ok r then None else Some (pretty (resp_status r) +:+ ": " +:+ resp_text r)
  | inr e => Some (error_message e "Unknown error")
  end.

(** The [error] under each key of [results]. *)
Definition errors (results : ClearDatabase.Results) : list (string * option string) :=
  map (fun kr => (fst kr, ClearDatabase.error (snd kr))) results.

(** [results[name] = r] for each pair in turn. *)
Definition assign_all (kvs : list (string * Db.ClearResult)) (results : Db.ResultsObject)
  : Db.ResultsObject :=
  fold_left (fun acc kv => Db.assign (fst kv) (snd kv) acc) kvs results.

(** The outcomes of the statements among the events. *)
Definition query_outcomes (evs : list Event) : list (PgResult + Thrown) :=
  flat_map (fun e => match e with EvQuery _ _ out => [out] | _ => [] end) evs.

End More.
Export More.

(** A second world for examples: the upstream answers the clearing of the
    vector index with 200 and a body that is not JSON, lists two recent
    API requests, answers [null] for those of customer [u4] and 304 for
    the counts of customer [u5]; the driver reports no row count for the
    integrations. *)
Module Lab.

Definition lab_query (text : string) (params : option (list string)) (w : Sim.World)
  : (PgResult + Thrown) * Sim.World :=
  (inl {| pg_rowCount := None |}, w).

Definition host : Host Sim.World :=
  {| pool_query := lab_query;
     net_fetch := Sim.sim_fetch;
     Date_now := Sim.sim_now;
     crypto_randomUUID := Sim.sim_uuid;
     Date_toISOString := Sim.sim_iso;
     jose_sign := Sim.sim_sign;
     engine := Sim.sim_engine |}.

Definition transaction (i : Z) : JsVal :=
  JObj [("id", JNum i); ("statusFootprint", JStr "DONE")].

Definition initial_world : Sim.World :=
  {| Sim.clock := 0;
     Sim.tables := [];
     Sim.peers :=
       [("http://localhost:8888/admin/vector-db/clear-all",
         Sim.answer 200 "cleared" Sim.not_json);
        ("https://api.cooler.dev/admin/customers/u3/database-counts",
         Sim.answer 200 "{...}"
           (inl (JObj [("recentTransactions",
                        JArr [transaction 1; transaction 2; JNull; transaction 4])])));
        ("https://api.cooler.dev/admin/customers/u4/database-counts",
         Sim.answer 200 "{...}"
           (inl (JObj [("recentTransactions",
                        JArr [transaction 1; transaction 2; transaction 3; transaction 4;
                              transaction 5; transaction 6; transaction 7; JNull])])));
        ("https://api.cooler.dev/admin/api-requests/recent?limit=100",
         Sim.answer 200 "[...]"
           (inl (JArr [JObj [("id", JStr "r1"); ("userId", JStr "u3")];
                       JObj [("id", JStr "r2"); ("userId", JStr "u4")]])));
        ("https://api.cooler.dev/admin/customers/u4/api-requests/recent?limit=50",
         Sim.answer 200 "null" (inl JNull));
        ("https://api.cooler.dev/admin/customers/u5/database-counts",
         Sim.answer 304 "" Sim.not_json)];
     Sim.uuids := 0 |}.

Definition start : State Sim.World :=
  {| world := initial_world; trace := []; raised := [] |}.

End Lab.

(** ** Further statements about impersonate *)

Module MoreImpersonate.

(** What reading the body of an impersonate request throws, if anything:
    the rejection of [request.json()], or what the engine throws when
    [userId] is taken out of [null] or [undefined]. *)
Definition body_error (engine : Engine) (request : Request) : option Thrown :=
  match json_body request with
  | inr e => Some e
  | inl v =>
      if defined v then None else Some (raise engine (DestructureOfNullish v "userId"))
  end.

End MoreImpersonate.
Export MoreImpersonate.

(** ** Further statements about the clearing routes *)

Module MoreClear.

(** [set_error], on the errors. *)
Fixpoint put (key msg : string) (es : list (string * option string))
  : list (string * option string) :=
  match es with
  | [] => []
  | (k, e) :: rest =>
      if String.eqb k key then (k, Some msg) :: rest else (k, e) :: put key msg rest
  end.

(** The entry of [results] for a key and the outcome of its sub-request,
    as the response shows it. *)
Definition result_entry (ko : string * (FetchResponse + Thrown)) : string * JsVal :=
  (fst ko,
   JObj [("success", JBool (fetch_succeeded (snd ko)));
         ("error", from_option JStr JNull (outcome_error (snd ko)))]).

(** What clear-database does with the failures of its sub-requests, for
    a run from [st] to [st'] answered with [resp]: the status is 200, six
    sub-requests were made, and [results] holds under each of the six keys
    the outcome of its sub-request: [success: false] with the failure
    under [error] for one that failed. *)
Definition failures_recorded {W} (st : State W) (resp : NextResponse) (st' : State W)
  : Prop :=
  status resp = 200
  /\ length (fetches (new_events st st')) = 6%nat
  /\ field "results" (body resp)
     = Some (JObj (map result_entry
                     (combine
                        ["vectordb"; "transactions"; "transactionItems"; "submissions";
                         "anomalies"; "integrations"]
                        (map snd (fetches (new_events st st')))))).

(** The beginning of the success message of each table-clearing route, up
    to the number of rows. *)
Definition cleared_text (r : Api.Route) : string :=
  match r with
  | Api.AnomaliesClearRoute => "Anomaly flags cleared successfully. Removed "
  | Api.TransactionsClearRoute => "Transactions cleared successfully. Removed "
  | Api.TransactionItemsClearRoute => "Transaction items cleared successfully. Removed "
  | Api.SubmissionsClearRoute => "Submissions cleared successfully. Removed "
  | Api.IntegrationsClearRoute => "Shopify integrations cleared successfully. Removed "
  | _ => ""
  end.

End MoreClear.
Export MoreClear.

(** ** The components that call the routes *)

Module Browser.

(** A line break inside a message. *)
Definition nl : string := String "010"%char "".

(** What a client reads back from a body sent with [NextResponse.json]:
    [JSON.parse(JSON.stringify(v))].  A property whose value is
    [undefined] is left out, an array element [undefined] becomes [null].
    The routes never send [undefined] itself as a body. *)
Fixpoint wire (v : JsVal) : JsVal :=
  match v with
  | JArr items =>
      JArr ((fix each (l : list JsVal) : list JsVal :=
               match l with
               | [] => []
               | JUndefined :: rest => JNull :: each rest
               | x :: rest => wire x :: each rest
               end) items)
  | JObj fields =>
      JObj ((fix each (l : list (string * JsVal)) : list (string * JsVal) :=
               match l with
               | [] => []
               | (_, JUndefined) :: rest => each rest
               | (k, x) :: rest => (k, wire x) :: each rest
               end) fields)
  | _ => v
  end.

(** What [await axios.get(...)] and [await axios.post(...)] give for the
    answer of a route: [response.data] when the status is from 200 to 299,
    a rejection with an [Error] otherwise ([validateStatus] is left at its
    default). *)
Definition axios_data (r : NextResponse) : JsVal + Thrown :=
  if (200 <=? status r) && (status r <=? 299) then inl (wire (body r))
  else inr (JsError ("Request failed with status code " +:+ pretty (status r))).

(** [await response.json()] on what [fetch] resolved with, whatever the
    status. *)
Definition fetch_json (r : NextResponse) : JsVal := wire (body r).

(** The rest of a [try] block after a value that may have been thrown. *)
Definition and_then {A B} (r : A + Thrown) (k : A -> B + Thrown) : B + Thrown :=
  match r with
  | inl a => k a
  | inr e => inr e
  end.

(** A value the engine computes in a [try] block of a component, or what
    it throws instead. *)
Definition tried {A} (browser : Engine) (r : A + EngineFault) : A + Thrown :=
  thrown browser r.

(** What [throw new Error(v)] throws: an [Error] whose message is
    [String(v)], and empty for [undefined]; or what the conversion of [v]
    throws. *)
Definition new_Error (browser : Engine) (v : JsVal) : Thrown :=
  match v with
  | JUndefined => JsError ""
  | _ =>
      match template_string browser v with
      | inl message => JsError message
      | inr f => raise browser f
      end
  end.

(** [s.includes(t)] *)
Fixpoint includes (s t : string) : bool :=
  String.prefix t s
  || match s with
     | EmptyString => false
     | String _ rest => includes rest t
     end.

End Browser.
Export Browser.

(** ** What [handleResolve] of AnomalyProcessor does with the answer *)

Module AnomalyProcessorRun.
Import AnomalyProcessor.

Section Form.
(** [browser] is the engine the component runs in. *)
Context {number : Type} (browser : Engine).

(** What the component does that can be seen from outside: its state
    setter, the request, the callbacks of its parent and [alert]. *)
Inductive Effect : Type :=
| SetIsProcessing (v : bool)
| Post (p : AxiosPost number)
| OnResolved (anomalyId : string)
| OnClose
| Alert (text : string).

(** The [try] block from the answer of [axios.post] on; [outcome] is
    [response.data] or what the call rejected with. *)
Definition answered (anomalyId : string) (outcome : JsVal + Thrown)
  : list Effect + Thrown :=
  and_then outcome (fun data =>
  and_then (tried browser (get_prop data "success")) (fun success =>
    if truthy success then inl [OnResolved anomalyId; OnClose]
    else
      and_then (tried browser (get_prop data "error")) (fun error =>
        inr (new_Error browser (js_or error (JStr "Failed to resolve anomaly")))))).

(** One run of [handleResolve], in the order of its effects. *)
Definition run (API_BASE_URL anomalyId : string) (st : FormState number)
  (outcome : JsVal + Thrown) : list Effect :=
  [SetIsProcessing true; Post (handleResolve API_BASE_URL anomalyId st)]
  ++ match answered anomalyId outcome with
     | inl effects => effects
     | inr error =>
         [Alert ("Failed to resolve anomaly: " +:+ error_message error "Unknown error")]
     end
  ++ [SetIsProcessing false].

(** The answer reports success: [response.data.success] is truthy. *)
Definition reports_success (outcome : JsVal + Thrown) : bool :=
  match outcome with
  | inl data => truthy (get_prop_opt data "success")
  | inr _ => false
  end.

End Form.

Arguments Effect : clear implicits.

End AnomalyProcessorRun.

(** ** The page of anomalies *)

Module AnomaliesPage.

Section Page.
(** The rows and the breakdowns of the statistics are carried along only;
    the three counters are whole numbers. *)
Context {AnomalyFlag Breakdown number : Type} (id : AnomalyFlag -> string)
  (browser : Engine).

Record AnomalyStats : Type := {
  totalAnomalies : Z;
  unresolvedAnomalies : Z;
  resolvedAnomalies : Z;
  breakdown : Breakdown
}.

(** The [useState] cells the handlers below write. *)
Record PageState : Type := {
  anomalies : list AnomalyFlag;
  anomalyStats : option AnomalyStats;
  processingAnomaly : option AnomalyFlag;
  showAnomalyProcessor : bool
}.

Definition handleAnomalyResolved (anomalyId : string) (st : PageState) : PageState :=
  {| anomalies :=
       List.filter (fun anomaly => negb (String.eqb (id anomaly) anomalyId)) (anomalies st);
     anomalyStats :=
       match anomalyStats st with
       | Some prev =>
           Some {| totalAnomalies := totalAnomalies prev;
                   unresolvedAnomalies := Z.max 0 (unresolvedAnomalies prev - 1);
                   resolvedAnomalies := resolvedAnomalies prev + 1;
                   breakdown := breakdown prev |}
       | None => None
       end;
     processingAnomaly := None;
     showAnomalyProcessor := false |}.

Definition handleProcessAnomaly (anomaly : AnomalyFlag) (st : PageState) : PageState :=
  {| anomalies := anomalies st;
     anomalyStats := anomalyStats st;
     processingAnomaly := Some anomaly;
     showAnomalyProcessor := true |}.

Definition handleCloseProcessor (st : PageState) : PageState :=
  {| anomalies := anomalies st;
     anomalyStats := anomalyStats st;
     processingAnomaly := None;
     showAnomalyProcessor := false |}.

(** The page on an effect of the processor it renders: [onResolved] is
    [handleAnomalyResolved] and [onClose] is [handleCloseProcessor]; the
    other effects stay inside the processor. *)
Definition react (st : PageState) (e : AnomalyProcessorRun.Effect number) : PageState :=
  match e with
  | AnomalyProcessorRun.OnResolved anomalyId => handleAnomalyResolved anomalyId st
  | AnomalyProcessorRun.OnClose => handleCloseProcessor st
  | _ => st
  end.

(** The button of a row opens the processor on that row, and the
    processor is then told to resolve; no other update of the page
    arrives before the answer. *)
Definition process (API_BASE_URL : string) (anomaly : AnomalyFlag)
  (form : AnomalyProcessor.FormState number) (outcome : JsVal + Thrown) (st : PageState)
  : PageState :=
  fold_left react
    (AnomalyProcessorRun.run browser API_BASE_URL (id anomaly) form outcome)
    (handleProcessAnomaly anomaly st).

End Page.

Arguments AnomalyStats : clear implicits.
Arguments PageState : clear implicits.

End AnomaliesPage.

(** ** The rows the page of API requests shows *)

Module RequestList.
Import ApiRequestsPage.

Section Page.
Context {ApiRequest Date : Type}
  (requestType : ApiRequest -> option string)
  (succeeded : ApiRequest -> bool)
  (endpoint userId : ApiRequest -> string)
  (toLowerCase : string -> string).

(** The callback of [requests.filter]. *)
Definition shown (st : PageState ApiRequest Date) (request : ApiRequest) : bool :=
  if negb (String.eqb (searchTerm st) "")
     && negb match requestType request with
             | Some t => includes (toLowerCase t) (toLowerCase (searchTerm st))
             | None => false
             end
  then false
  else if match statusFilter st with success => negb (succeeded request) | _ => false end
  then false
  else if match statusFilter st with error => succeeded request | _ => false end
  then false
  else if negb (String.eqb (endpointFilter st) "")
          && negb (includes (endpoint request) (endpointFilter st))
  then false
  else if negb (String.eqb (userIdFilter st) "")
          && negb (String.eqb (userId request) (userIdFilter st))
  then false
  else true.

Definition filteredRequests (st : PageState ApiRequest Date) : list ApiRequest :=
  List.filter (shown st) (requests st).

End Page.
End RequestList.

(** ** The components that sign in as a customer, preview transactions
    and clear the database, each with the route it calls *)

Module SignInAs.

Inductive Effect : Type :=
| SetSigningIn (v : bool)
| SetSignInError (v : JsVal)
| WindowOpen (target : JsVal) (name : string).

(** The [try] block from the answer of [axios.post] on. *)
Definition answered (browser : Engine) (outcome : JsVal + Thrown)
  : list Effect + Thrown :=
  and_then outcome (fun data =>
  and_then (tried browser (get_prop data "success")) (fun success =>
    if truthy success then
      and_then (tried browser (get_prop data "magicLink")) (fun magicLink =>
        inl [WindowOpen magicLink "_blank"])
    else
      and_then (tried browser (get_prop data "error")) (fun error =>
        inl [SetSignInError (js_or error (JStr "Failed to generate magic link"))]))).

(** The tokens signed among the events. *)
Definition signed (evs : list Event) : list string :=
  flat_map (fun e => match e with EvSign _ _ (inl token) => [token] | _ => [] end) evs.

Section WithHost.
Context {W : Type} (host : Host W) (env : ProcessEnv) (origin : string)
  (browser : Engine).

(** The request as it reaches the route. *)
Definition request (userId : string) : Request :=
  {| url := origin +:+ "/api/impersonate";
     searchParams := [];
     headers := [("authorization", "Bearer Bearit01!");
                 ("content-type", "application/json")];
     json_body := inl (JObj [("userId", JStr userId)]) |}.

(** [handleSignInAs], in RequestDetailsModal for [request.userId] and in
    the dashboard for its argument, with the route answering. *)
Definition handleSignInAs (userId : string) : M W (list Effect) :=
  response <- Impersonate.POST host env (request userId) ;;
  ret ([SetSigningIn true; SetSignInError JNull]
       ++ match answered browser (axios_data response) with
          | inl effects => effects
          | inr _ => [SetSignInError (JStr "Failed to generate magic link")]
          end
       ++ [SetSigningIn false]).

End WithHost.
End SignInAs.

Module TransactionPreview.

Inductive Effect : Type :=
| SetLoading (v : bool)
| SetError (v : JsVal)
| SetTransactions (v : JsVal).

(** The [try] block from the answer of [axios.get] on. *)
Definition answered (browser : Engine) (outcome : JsVal + Thrown)
  : list Effect + Thrown :=
  and_then outcome (fun data =>
  and_then (tried browser (get_prop data "success")) (fun success =>
    if truthy success then
      and_then (tried browser (get_prop data "transactions")) (fun transactions =>
        inl [SetTransactions (js_or transactions (JArr []))])
    else
      and_then (tried browser (get_prop data "error")) (fun error =>
        inl [SetError (js_or error (JStr "Failed to fetch transactions"))]))).

(** A user id that is one segment of a path as it stands: letters, digits,
    [-] and [_], and not empty. *)
Definition segment_char (c : ascii) : bool :=
  let n := nat_of_ascii c in
  ((48 <=? n) && (n <=? 57))%nat || ((65 <=? n) && (n <=? 90))%nat
  || ((97 <=? n) && (n <=? 122))%nat || (n =? 45)%nat || (n =? 95)%nat.

Definition segment (s : string) : bool :=
  negb (String.eqb s "") && forallb segment_char (list_ascii_of_string s).

Section WithHost.
Context {W : Type} (host : Host W) (env : ProcessEnv) (origin : string)
  (browser : Engine).

(** The request as it reaches the route. *)
Definition request (userId : string) : Request :=
  {| url := origin +:+ "/api/transactions/" +:+ userId;
     searchParams := [];
     headers := [("accept", "application/json, text/plain, */*");
                 ("authorization", "Bearer Bearit01!")];
     json_body := inr (JsError "Unexpected end of JSON input") |}.

(** [fetchTransactions] with the route answering; the router hands the
    segment after [/api/transactions/] to the route as [params.userId]. *)
Definition fetchTransactions (userId : string) : M W (list Effect) :=
  response <- Transactions.GET host env (request userId) {| Http.userId := userId |} ;;
  ret ([SetLoading true; SetError JNull]
       ++ match answered browser (axios_data response) with
          | inl effects => effects
          | inr _ => [SetError (JStr "Failed to fetch transactions")]
          end
       ++ [SetLoading false]).

End WithHost.
End TransactionPreview.

Module Dashboard.

Inductive Effect : Type :=
| SetIsClearingDatabase (v : bool)
| Alert (text : string).

(** The [try] block from the parsed answer on. *)
Definition answered (browser : Engine) (result : JsVal) : list Effect + Thrown :=
  and_then (tried browser (get_prop result "success")) (fun success =>
    if truthy success then
      and_then (tried browser (get_prop result "message")) (fun message =>
      and_then (tried browser (template_string browser message)) (fun text =>
        inl [Alert ("✅ " +:+ text +:+ nl +:+ nl
                      +:+ "Check console for detailed results.")]))
    else
      and_then (tried browser (get_prop result "error")) (fun error =>
      and_then
        (tried browser
           (template_string browser (js_or error (JStr "Failed to clear database"))))
        (fun text =>
           inl [Alert ("❌ " +:+ text +:+ nl +:+ nl +:+ "Check console for details.")]))).

Section WithHost.
(** [buildEnv] is the environment the page was built with: the value of
    [NEXT_PUBLIC_ADMIN_PASSWORD] is placed in the page at build time. *)
Context {W : Type} (host : Host W) (env buildEnv : ProcessEnv) (origin : string)
  (browser : Engine).

(** The request as it reaches the route. *)
Definition request : Request :=
  {| url := origin +:+ "/api/clear-database";
     searchParams := [];
     headers := [("admin-password", or_else (NEXT_PUBLIC_ADMIN_PASSWORD buildEnv) "admin123");
                 ("content-type", "application/json")];
     json_body := inr (JsError "Unexpected end of JSON input") |}.

(** [clearDatabase] with the route answering; [confirmed] is what
    [confirm] returned. *)
Definition clearDatabase (confirmed : bool) : M W (list Effect) :=
  if negb confirmed then ret []
  else
    response <- ClearDatabase.POST host env request ;;
    ret ([SetIsClearingDatabase true]
         ++ match answered browser (fetch_json response) with
            | inl effects => effects
            | inr _ => [Alert "❌ Failed to clear database. Check console for details."]
            end
         ++ [SetIsClearingDatabase false]).

End WithHost.
End Dashboard.

(** ** The two components that list API requests, with the route *)

Module RequestsClients.

Inductive Effect : Type :=
| SetError (v : JsVal)
| SetRequests (v : JsVal)
| SetLastUpdated
| SetLoading (v : bool)
| SetLoadingApiRequests (v : bool)
| SetCustomerApiRequests (v : JsVal).

(** The [try] block of [fetchApiRequests] of the page from the answer of
    [axios.get] on. *)
Definition page_answered (browser : Engine) (outcome : JsVal + Thrown)
  : list Effect + Thrown :=
  and_then outcome (fun data =>
  and_then (tried browser (get_prop data "success")) (fun success =>
    if truthy success then
      and_then (tried browser (get_prop data "data")) (fun rows =>
        inl [SetRequests (js_or rows (JArr [])); SetLastUpdated])
    else
      and_then (tried browser (get_prop data "error")) (fun error =>
        inl [SetError (js_or error (JStr "Failed to fetch API requests"))]))).

(** The [try] block of [fetchCustomerApiRequests] of the dashboard from the
    answer of [axios.get] on. *)
Definition dashboard_answered (browser : Engine) (outcome : JsVal + Thrown)
  : list Effect + Thrown :=
  and_then outcome (fun data =>
  and_then (tried browser (get_prop data "success")) (fun success =>
    if truthy success then
      and_then (tried browser (get_prop data "data")) (fun rows =>
        inl [SetCustomerApiRequests (js_or rows (JArr []))])
    else inl [])).

Section WithHost.
Context {W : Type} (host : Host W) (env : ProcessEnv) (origin : string)
  (browser : Engine).

(** The request of the page as it reaches the route, for a user filter
    that needs no escaping in a URL: [params] is [{ limit: 100 }], with
    [userId] added when the filter is not empty. *)
Definition page_request (userIdFilter : string) : Request :=
  {| url := origin +:+ "/api/api-requests?limit=100"
              +:+ (if String.eqb userIdFilter "" then "" else "&userId=" +:+ userIdFilter);
     searchParams := ("limit", "100")
                     :: (if String.eqb userIdFilter "" then []
                         else [("userId", userIdFilter)]);
     headers := [("accept", "application/json, text/plain, */*")];
     json_body := inr (JsError "Unexpected end of JSON input") |}.

(** [fetchApiRequests] of the page with the route answering. *)
Definition fetchApiRequests (userIdFilter : string) : M W (list Effect) :=
  response <- ApiRequests.GET host env (page_request userIdFilter) ;;
  ret ([SetError JNull]
       ++ match page_answered browser (axios_data response) with
          | inl effects => effects
          | inr _ => [SetError (JStr "Failed to fetch API requests")]
          end
       ++ [SetLoading false]).

(** The request of the dashboard as it reaches the route:
    [params] is [{ userId, limit: 50 }]. *)
Definition dashboard_request (userId : string) : Request :=
  {| url := origin +:+ "/api/api-requests?userId=" +:+ userId +:+ "&limit=50";
     searchParams := [("userId", userId); ("limit", "50")];
     headers := [("accept", "application/json, text/plain, */*")];
     json_body := inr (JsError "Unexpected end of JSON input") |}.

(** [fetchCustomerApiRequests] of the dashboard with the route answering. *)
Definition fetchCustomerApiRequests (userId : string) : M W (list Effect) :=
  response <- ApiRequests.GET host env (dashboard_request userId) ;;
  ret ([SetLoadingApiRequests true]
       ++ match dashboard_answered browser (axios_data response) with
          | inl effects => effects
          | inr _ => [SetCustomerApiRequests (JArr [])]
          end
       ++ [SetLoadingApiRequests false]).

End WithHost.
End RequestsClients.

(** ** The login form of the dashboard (src/app/page.tsx) *)

Module Login.

Inductive Effect : Type :=
| SetLoading (v : bool)
| SetError (v : string)
| SetIsAuthenticated (v : bool)
| FetchDashboardData
| FetchAggregateUsage.

(** [handleLogin] for the password typed into the form.  The two fetches
    are started and not awaited, and nothing else in the [try] block can
    throw, so its [catch] is never entered. *)
Definition handleLogin (buildEnv : ProcessEnv) (password : string) : list Effect :=
  [SetLoading true; SetError ""]
  ++ (if String.eqb password (or_else (NEXT_PUBLIC_ADMIN_PASSWORD buildEnv) "admin123")
      then [SetIsAuthenticated true; FetchDashboardData; FetchAggregateUsage]
      else [SetError "Invalid password"])
  ++ [SetLoading false].

End Login.

(** ** Further statements about the URLs of clear-database *)

Module MoreUrls.

(** [pat] occurs in [s] at one of the first [n] positions. *)
Fixpoint occurs_before (pat : string) (n : nat) (s : string) : bool :=
  match n with
  | O => false
  | S n' =>
      String.prefix pat s
      || match s with
         | EmptyString => false
         | String _ rest => occurs_before pat n' rest
         end
  end.

End MoreUrls.
Export MoreUrls.

(** ** clear-database together with the routes it calls *)

Module Loopback.

(** Header names as [Headers] keeps them: in lower case. *)
Definition lower (c : ascii) : ascii :=
  let n := nat_of_ascii c in
  if ((65 <=? n) && (n <=? 90))%nat then ascii_of_nat (n + 32) else c.

Fixpoint lowercase (s : string) : string :=
  match s with
  | EmptyString => EmptyString
  | String c rest => String (lower c) (lowercase rest)
  end.

(** The route files of the application behind the paths that
    clear-database calls. *)
Definition served : list (string * Api.Route) :=
  [("/api/vectordb/clear", Api.VectordbClearRoute);
   ("/api/transactions/clear", Api.TransactionsClearRoute);
   ("/api/transaction-items/clear", Api.TransactionItemsClearRoute);
   ("/api/submissions/clear", Api.SubmissionsClearRoute);
   ("/api/anomalies/clear", Api.AnomaliesClearRoute);
   ("/api/integrations/clear", Api.IntegrationsClearRoute)].

Fixpoint route_at (path : string) (routes : list (string * Api.Route)) : option Api.Route :=
  match routes with
  | [] => None
  | (p, r) :: rest => if String.eqb path p then Some r else route_at path rest
  end.

(** What follows [origin] in [url], when [url] begins with it. *)
Fixpoint path_after (origin url : string) : option string :=
  match origin with
  | EmptyString => Some url
  | String c origin' =>
      match url with
      | EmptyString => None
      | String d url' => if Ascii.eqb c d then path_after origin' url' else None
      end
  end.

(** The successful outcomes among the outcomes of statements. *)
Definition succeeded (out : PgResult + Thrown) : bool :=
  match out with
  | inl _ => true
  | inr _ => false
  end.

(** The upstream cleared the vector index and said so in JSON. *)
Definition vector_cleared (out : FetchResponse + Thrown) : bool :=
  match out with
  | inl r => ok r && match resp_json r with inl _ => true | inr _ => false end
  | inr _ => false
  end.

Section WithHost.
(** The application is deployed at [origin]; [stringify] is
    [JSON.stringify]. *)
Context {W : Type} (host : Host W) (env : ProcessEnv) (origin : string)
  (stringify : JsVal -> string).

(** A [fetch] of the application as the route receives it. *)
Definition incoming (req : FetchRequest) : Request :=
  {| url := fetch_url req;
     searchParams := [];
     headers := map (fun nv => (lowercase (fst nv), snd nv)) (fetch_headers req);
     json_body := inr (JsError "Unexpected end of JSON input") |}.

(** The answer of a route as [fetch] resolves with it. *)
Definition answer (r : NextResponse) : FetchResponse :=
  {| resp_status := status r;
     resp_text := stringify (body r);
     resp_json := inl (wire (body r)) |}.

(** [fetch] inside the deployed application.  A [DELETE] of one of the
    six paths at [origin] runs the route and resolves with its answer,
    within the time the caller allows; every other request leaves the
    process.  The state of the process (what it called and raised so far)
    is the world of this [fetch]. *)
Definition loop_fetch (req : FetchRequest) (s : State W)
  : (FetchResponse + Thrown) * State W :=
  match
    if String.eqb (fetch_method req) "DELETE"
    then from_option (fun path => route_at path served) None
           (path_after origin (fetch_url req))
    else None
  with
  | Some r =>
      match Api.handler host env r (incoming req) {| userId := "" |} s with
      | (inl resp, s') => (inl (answer resp), s')
      | (inr e, s') => (inr e, s')
      end
  | None =>
      let '(out, w) := net_fetch host req (world s) in
      (out, log_event (EvFetch req out) w s)
  end.

(** A call of the host that only concerns its world. *)
Definition on_world {A} (f : W -> A * W) (s : State W) : A * State W :=
  let '(a, w) := f (world s) in
  (a, {| world := w; trace := trace s; raised := raised s |}).

(** The host of a handler that reaches the other routes through
    [fetch]. *)
Definition loop_host : Host (State W) :=
  {| pool_query := fun text params => on_world (pool_query host text params);
     net_fetch := loop_fetch;
     Date_now := on_world (Date_now host);
     crypto_randomUUID := on_world (crypto_randomUUID host);
     Date_toISOString := Date_toISOString host;
     jose_sign := fun jwt secret => on_world (jose_sign host jwt secret);
     engine := engine host |}.

End WithHost.
End Loopback.

(** * Properties *)

Example sim_iso_epoch : Sim.sim_iso 0 = "1970-01-01T00:00:00.000Z".
Proof. reflexivity. Qed.

Example sim_iso_leap_day : Sim.sim_iso 1709210096789 = "2024-02-29T12:34:56.789Z".
Proof. vm_compute. reflexivity. Qed.

Example replace_first_base :
  replace_first "/api/clear-database" "" "http://admin.local/api/clear-database"
  = "http://admin.local".
Proof. reflexivity. Qed.

Example template_string_array (engine : Engine) :
  template_string engine (JArr [JNum 1; JNull; JStr "a"; JArr [JBool true; JNum (-2)]])
  = inl "1,,a,true,-2".
Proof. reflexivity. Qed.

Example template_string_own_toString (engine : Engine) :
  template_string engine (JArr [JStr "u1"; JObj [("toString", JNum 1)]])
  = inr (NoPrimitive (JObj [("toString", JNum 1)])).
Proof. reflexivity. Qed.

Example status_304_has_no_body :
  NextResponse_json_status (JObj []) 304 = inr (InvalidStatus 304).
Proof. reflexivity. Qed.

(** ** The connection pool *)

(** C7. The pool is created with at most 20 clients, an idle timeout of
    30000 ms and a connection timeout of 2000 ms, whatever the
    environment holds. *)
Theorem pool_settings (env : ProcessEnv) :
  Db.max (Db.pool env) = 20
  /\ Db.idleTimeoutMillis (Db.pool env) = 30000
  /\ Db.connectionTimeoutMillis (Db.pool env) = 2000.
Proof. repeat split. Qed.

(** ** The payload of a resolution *)

Section ResolutionPayload.
Import AnomalyProcessor.
Context {number : Type}.
Implicit Types (st : FormState number).

Lemma requestData_starts_with_action_notes st :
  firstn 2 (requestData st)
  = [("action", VAction (selectedAction st)); ("notes", VString (resolutionNotes st))].
Proof. unfold requestData. now destruct (selectedAction st). Qed.

(** C5. The object posted to the resolution endpoint is determined by the
    selected action: [action] and [notes] alone for MARK_RESOLVED, with
    [submissionData] added for UPDATE_SUBMISSION, [naicsCode] for
    UPDATE_NAICS_CODE, and [price] and [currency] for UPDATE_PRICE. *)
Theorem resolution_payload_shape (API_BASE_URL anomalyId : string) st :
  let base :=
    [("action", VAction (selectedAction st)); ("notes", VString (resolutionNotes st))] in
  let form := submissionData st in
  post_data (handleResolve API_BASE_URL anomalyId st)
  = match selectedAction st with
    | MARK_RESOLVED => base
    | UPDATE_SUBMISSION => base ++ [("submissionData", VSubmission form)]
    | UPDATE_NAICS_CODE => base ++ [("naicsCode", VString (naicsCode form))]
    | UPDATE_PRICE =>
        base ++ [("price", VNumber (price form)); ("currency", VString (currency form))]
    end.
Proof.
  cbv zeta. unfold handleResolve, requestData. cbn [post_data].
  case (selectedAction st); reflexivity.
Qed.

End ResolutionPayload.

(** ** The refresh timer of the request list *)

Section RefreshTimer.
Import ApiRequestsPage.
Context {ApiRequest Date : Type} (endpoint : ApiRequest -> string).
Implicit Types (st : PageState ApiRequest Date) (s : Setter ApiRequest Date).

Lemma apply_keeps_interval st s : refreshInterval (apply st s) = refreshInterval st.
Proof. destruct s; reflexivity. Qed.

Lemma setters_keep_interval (ss : list (Setter ApiRequest Date)) st :
  refreshInterval (fold_left apply ss st) = refreshInterval st.
Proof.
  revert st. induction ss as [|s ss IH]; intro st; cbn [fold_left].
  - reflexivity.
  - rewrite IH. apply apply_keeps_interval.
Qed.

Lemma step_keeps_interval st (e : PageEvent ApiRequest Date) :
  refreshInterval (step endpoint st e) = refreshInterval st.
Proof. unfold step. apply setters_keep_interval. Qed.

Lemma run_keeps_interval (es : list (PageEvent ApiRequest Date)) st :
  refreshInterval (run endpoint st es) = refreshInterval st.
Proof.
  unfold run. revert st. induction es as [|e es IH]; intro st; cbn [fold_left].
  - reflexivity.
  - rewrite IH. apply step_keeps_interval.
Qed.

(** C8. In every state the page can reach, the refresh interval is 5000:
    no setter call changes it, and the timer is set with 5000 whenever
    auto-refresh is on, and not set when it is off. *)
Theorem refresh_interval_fixed (userIdParam : option string)
  (es : list (PageEvent ApiRequest Date)) :
  let st := run endpoint (initial userIdParam) es in
  refreshInterval st = 5000
  /\ scheduled st = (if autoRefresh st then Some 5000 else None)
  /\ forall s, refreshInterval (apply st s) = 5000.
Proof.
  intro st.
  assert (Hst : refreshInterval st = 5000) by (subst st; now rewrite run_keeps_interval).
  split; [exact Hst|]. split.
  - unfold scheduled. now rewrite Hst.
  - intro s. now rewrite apply_keeps_interval.
Qed.

End RefreshTimer.

(** ** Running the monad *)

Section RunFacts.
Context {W : Type}.
Implicit Types (st : State W).

Lemma after_nothing st : after st (world st) [] [] = st.
Proof. destruct st; unfold after; cbn. now rewrite !app_nil_r. Qed.

Lemma after_after st w evs errs w' evs' errs' :
  after (after st w evs errs) w' evs' errs' = after st w' (evs ++ evs') (errs ++ errs').
Proof. unfold after; cbn. now rewrite !app_assoc. Qed.

Lemma log_event_after st ev w : log_event ev w st = after st w [ev] [].
Proof. unfold log_event, after. now rewrite app_nil_r. Qed.

Lemma log_raised_after st e : log_raised e st = after st (world st) [] [e].
Proof. unfold log_raised, after. now rewrite app_nil_r. Qed.

Lemma statements_app evs evs' : statements (evs ++ evs') = statements evs ++ statements evs'.
Proof. unfold statements. now rewrite flat_map_app. Qed.

Lemma fetches_app evs evs' : fetches (evs ++ evs') = fetches evs ++ fetches evs'.
Proof. unfold fetches. now rewrite flat_map_app. Qed.

Lemma new_events_after st w evs errs : new_events st (after st w evs errs) = evs.
Proof. unfold new_events. cbn [trace after]. apply drop_app_length. Qed.

Lemma new_raised_after st w evs errs : new_raised st (after st w evs errs) = errs.
Proof. unfold new_raised. cbn [raised after]. apply drop_app_length. Qed.

Lemma new_events_same st : new_events st st = [].
Proof. apply drop_all. Qed.

Lemma new_raised_same st : new_raised st st = [].
Proof. apply drop_all. Qed.

Lemma fetches_fetch_events reqs outs : fetches (fetch_events reqs outs) = combine reqs outs.
Proof.
  unfold fetch_events, fetches.
  induction (combine reqs outs) as [|[rq o] l IH]; [reflexivity|].
  cbn. now rewrite IH.
Qed.

Lemma ret_run {A} (a : A) st : ret a st = (inl a, st).
Proof. reflexivity. Qed.

Lemma throw_run {A} (e : Thrown) st :
  throw (A := A) e st = (inr e, after st (world st) [] [e]).
Proof. unfold throw. now rewrite log_raised_after. Qed.

Lemma bind_inl {A B} (m : M W A) (k : A -> M W B) st a st' :
  m st = (inl a, st') -> bind m k st = k a st'.
Proof. unfold bind. now intros ->. Qed.

Lemma bind_inr {A B} (m : M W A) (k : A -> M W B) st e st' :
  m st = (inr e, st') -> bind m k st = (inr e, st').
Proof. unfold bind. now intros ->. Qed.

Lemma try_catch_inl {A} (m : M W A) h st a st' :
  m st = (inl a, st') -> try_catch m h st = (inl a, st').
Proof. unfold try_catch. now intros ->. Qed.

Lemma try_catch_inr {A} (m : M W A) h st e st' :
  m st = (inr e, st') -> try_catch m h st = h e st'.
Proof. unfold try_catch. now intros ->. Qed.

Lemma read_run {A} (f : W -> A * W) ev st a w :
  f (world st) = (a, w) -> read f ev st = (inl a, after st w [ev a] []).
Proof. unfold read. intros ->. now rewrite log_event_after. Qed.

Lemma call_run {A} (f : W -> (A + Thrown) * W) ev st out w :
  f (world st) = (out, w) ->
  call f ev st
  = (out, after st w [ev out] match out with inl _ => [] | inr e => [e] end).
Proof.
  unfold call. intros ->. destruct out; rewrite log_event_after; [reflexivity|].
  now rewrite log_raised_after, after_after.
Qed.

Lemma lift_run {A} (r : A + Thrown) st :
  lift r st
  = (r, after st (world st) [] match r with inl _ => [] | inr e => [e] end).
Proof.
  destruct r; unfold lift.
  - now rewrite ret_run, after_nothing.
  - apply throw_run.
Qed.

End RunFacts.

(** Brings the states of a run to the form [after st w evs errs]. *)
Ltac to_after :=
  rewrite ?after_after; cbn [app world trace raised].

(** Case analysis on the innermost scrutinee of the goal. *)
Ltac destruct_scrutinee :=
  match goal with
  | |- context [match ?x with _ => _ end] =>
      lazymatch x with
      | context [match _ with _ => _ end] => fail
      | _ => destruct x eqn:?
      end
  end.

(** Runs a handler along every path: the combinators are unfolded and each
    test and each outcome of a call is split into its cases. *)
Ltac run_paths :=
  unfold try_catch, bind, fail, unauthorized, respond, attempt, thrown,
    NextResponse_json_status, lift, ret, throw, call, read;
  change (valid_status 400) with true;
  change (valid_status 401) with true;
  change (valid_status 500) with true;
  cbn [world trace raised log_event log_raised fst snd];
  repeat (destruct_scrutinee; cbn [world trace raised log_event log_raised fst snd]).

(** Computes what a path added to the trace and to the raised list. *)
Ltac path_added :=
  unfold new_events, new_raised;
  cbn [world trace raised log_event log_raised];
  rewrite <- ?app_assoc; rewrite ?drop_app_length, ?drop_all; cbn [app].

(** ** What the engine throws *)

Section EngineFacts.
Context {W : Type} (host : Host W).
Implicit Types (st : State W).

Lemma attempt_inl {A} (a : A) st : attempt host (inl a) st = (inl a, st).
Proof. reflexivity. Qed.

Lemma attempt_inr {A} (f : EngineFault) st :
  attempt (A := A) host (inr f) st
  = (inr (raise (engine host) f), after st (world st) [] [raise (engine host) f]).
Proof. unfold attempt. cbn [thrown]. now rewrite lift_run. Qed.

Lemma respond_valid (b : JsVal) (s : Z) st :
  valid_status s = true -> respond host b s st = (inl {| status := s; body := b |}, st).
Proof. intros Hs. unfold respond, NextResponse_json_status. now rewrite Hs. Qed.

Lemma respond_invalid (b : JsVal) (s : Z) st :
  valid_status s = false ->
  respond host b s st
  = (inr (raise (engine host) (InvalidStatus s)),
     after st (world st) [] [raise (engine host) (InvalidStatus s)]).
Proof.
  intros Hs. unfold respond, NextResponse_json_status. rewrite Hs. apply attempt_inr.
Qed.

Lemma unauthorized_run st : unauthorized host st = (inl Unauthorized, st).
Proof. reflexivity. Qed.

Lemma fail_run (error details : string) st :
  fail host error details st = (inl (failure error details), st).
Proof. reflexivity. Qed.

(** A row count always has a text. *)
Lemma rowCount_text (engine : Engine) (res : PgResult) :
  template_string engine (IntegrationsClear.rowCount_value res)
  = inl match pg_rowCount res with
        | Some n => number_string engine n
        | None => "null"
        end.
Proof. unfold IntegrationsClear.rowCount_value. now destruct (pg_rowCount res). Qed.

End EngineFacts.

(** ** src/lib/db.ts *)

Section DbFacts.
Context {W : Type} (host : Host W).
Implicit Types (st : State W).

Lemma now_run st :
  exists t w, Db.now host st = (inl t, after st w [EvNow t] []).
Proof.
  destruct (Date_now host (world st)) as [t w] eqn:Hnow.
  exists t, w. unfold Db.now. now apply read_run.
Qed.

(** [query] makes the one call to the pool, between two readings of the
    clock, and throws again what the pool threw. *)
Lemma query_run text params st :
  exists out w evs errs,
    Db.query host text params st
    = (out, after st w evs errs)
    /\ statements evs = [(text, params)]
    /\ fetches evs = []
    /\ In (EvQuery text params out) evs
    /\ errs = match out with inl _ => [] | inr e => [e; e] end
    /\ exists w0 w1, pool_query host text params w0 = (out, w1).
Proof.
  unfold Db.query.
  destruct (now_run st) as (t0 & w0 & Hstart). rewrite (bind_inl _ _ _ _ _ Hstart).
  destruct (pool_query host text params w0) as [out w1] eqn:Hq.
  pose proof (call_run (pool_query host text params) (EvQuery text params)
                (after st w0 [EvNow t0] []) out w1 Hq) as Hcall.
  fold (Db.pool_query_call host text params) in Hcall.
  destruct out as [res|e].
  - destruct (now_run (after (after st w0 [EvNow t0] []) w1
                         [EvQuery text params (inl res)] []))
      as (t1 & w2 & Hfinish).
    exists (inl res), w2, [EvNow t0; EvQuery text params (inl res); EvNow t1], [].
    split; [|repeat split; cbn; eauto].
    erewrite try_catch_inl; [reflexivity|].
    rewrite (bind_inl _ _ _ _ _ Hcall), (bind_inl _ _ _ _ _ Hfinish), ret_run.
    now to_after.
  - exists (inr e), w1, [EvNow t0; EvQuery text params (inr e)], [e; e].
    split; [|repeat split; cbn; eauto].
    erewrite try_catch_inr; [|now rewrite (bind_inr _ _ _ _ _ Hcall)].
    rewrite throw_run. now to_after.
Qed.

(** [clearTable] always returns: the statement it sends is the [DELETE] of
    the table, and its result tells how that statement ended. *)
Lemma clearTable_run tableName st :
  exists out w evs errs,
    Db.clearTable host tableName st
    = (inl (clear_outcome out), after st w evs errs)
    /\ statements evs = [("DELETE FROM " +:+ tableName, None)]
    /\ fetches evs = []
    /\ In (EvQuery ("DELETE FROM " +:+ tableName) None out) evs
    /\ errs = match out with inl _ => [] | inr e => [e; e] end
    /\ exists w0 w1, pool_query host ("DELETE FROM " +:+ tableName) None w0 = (out, w1).
Proof.
  destruct (query_run ("DELETE FROM " +:+ tableName) None st)
    as (out & w & evs & errs & Hrun & Hstmts & Hfetch & Hin & Herrs & Hpool).
  exists out, w, evs, errs. repeat split; auto.
  unfold Db.clearTable, try_catch, bind. rewrite Hrun.
  destruct out as [res|e]; reflexivity.
Qed.





End DbFacts.

(** ** The simulated world *)




(** ** The credential gate *)

Lemma or_else_nonempty (s : option string) (d : string) : d <> "" -> or_else s d <> "".
Proof.
  intros Hd. unfold or_else. destruct s as [v|]; [|exact Hd].
  destruct (String.eqb_spec v ""); assumption.
Qed.

(** The gate lets through exactly the header that equals the expected
    credential, provided that credential is not the empty string. *)
Lemma rejects_false_iff (given : option string) (expected : string) :
  expected <> "" -> rejects given expected = false <-> given = Some expected.
Proof.
  intros Hne. unfold rejects. destruct given as [v|]; [|split; discriminate].
  destruct (String.eqb_spec v ""), (String.eqb_spec v expected); cbn; split;
    try discriminate; try congruence.
Qed.

Lemma rejects_true_iff (given : option string) (expected : string) :
  expected <> "" -> rejects given expected = true <-> given <> Some expected.
Proof.
  intros Hne. rewrite <- (rejects_false_iff given expected Hne).
  destruct (rejects given expected); split; congruence.
Qed.

Lemma admin_password_nonempty (env : ProcessEnv) :
  or_else (NEXT_PUBLIC_ADMIN_PASSWORD env) "admin123" <> "".
Proof. apply or_else_nonempty. discriminate. Qed.

(** ** The routes that empty a table *)

Section ClearRouteFacts.
Context {W : Type} (host : Host W) (env : ProcessEnv).
Implicit Types (st : State W) (request : Request).

Let given request := pairs_get (headers request) "admin-password".
Let expected := or_else (NEXT_PUBLIC_ADMIN_PASSWORD env) "admin123".

Lemma timestamp_run st :
  exists t w, timestamp host st = (inl (Date_toISOString host t), after st w [EvNow t] []).
Proof.
  destruct (now_run host st) as (t & w & Hnow). exists t, w.
  unfold timestamp. now rewrite (bind_inl _ _ _ _ _ Hnow).
Qed.

Lemma table_clear_rejected table cleared failed failedCatch request st :
  rejects (given request) expected = true ->
  table_clear_DELETE host env table cleared failed failedCatch request st
  = (inl Unauthorized, st).
Proof.
  intros Hgate. unfold table_clear_DELETE. fold (given request). fold expected.
  rewrite Hgate. reflexivity.
Qed.

(** Past the gate the handler sends the [DELETE] of its table and answers
    200 or, when the statement failed, 500 with the driver's message. *)
Lemma table_clear_passed table cleared failed failedCatch request st :
  rejects (given request) expected = false ->
  exists out w evs errs resp,
    table_clear_DELETE host env table cleared failed failedCatch request st
    = (inl resp, after st w evs errs)
    /\ statements evs = [("DELETE FROM " +:+ table, None)]
    /\ fetches evs = []
    /\ match out with
       | inl res =>
           errs = [] /\ status resp = 200
           /\ exists message ts,
               body resp = JObj [("success", JBool true);
                                 ("message", JStr message);
                                 ("timestamp", JStr ts);
                                 ("rowCount", JNum (default 0 (pg_rowCount res)))]
       | inr e => errs = [e; e] /\ resp = failure failed (error_message e "Unknown error")
       end.
Proof.
  intros Hgate. unfold table_clear_DELETE. fold (given request). fold expected.
  rewrite Hgate.
  destruct (clearTable_run host table st)
    as (out & w & evs & errs & Hclear & Hstmts & Hfetch & _ & Herrs & _).
  destruct out as [res|e].
  - destruct (timestamp_run (after st w evs errs)) as (t & w' & Hts).
    exists (inl res), w', (evs ++ [EvNow t]), errs. eexists.
    split.
    + erewrite try_catch_inl; [reflexivity|].
      rewrite (bind_inl _ _ _ _ _ Hclear). cbn [clear_outcome Db.success Db.rowCount].
      rewrite (bind_inl _ _ _ _ _ Hts), ret_run, after_after, app_nil_r. reflexivity.
    + rewrite statements_app, fetches_app, Hstmts, Hfetch. cbn.
      repeat split; eauto.
  - exists (inr e), w, evs, errs. eexists. split.
    + erewrite try_catch_inl; [reflexivity|].
      rewrite (bind_inl _ _ _ _ _ Hclear). reflexivity.
    + repeat split; auto.
Qed.

Lemma integrations_clear_rejected request st :
  rejects (given request) expected = true ->
  IntegrationsClear.DELETE host env request st = (inl Unauthorized, st).
Proof.
  intros Hgate. unfold IntegrationsClear.DELETE. fold (given request). fold expected.
  rewrite Hgate. reflexivity.
Qed.

Lemma integrations_clear_passed request st :
  rejects (given request) expected = false ->
  exists out w evs errs resp,
    IntegrationsClear.DELETE host env request st = (inl resp, after st w evs errs)
    /\ statements evs = [("DELETE FROM integrations WHERE type = $1", Some ["shopify"])]
    /\ fetches evs = []
    /\ match out with
       | inl res =>
           errs = [] /\ status resp = 200
           /\ exists message ts,
               body resp = JObj [("success", JBool true);
                                 ("message", JStr message);
                                 ("timestamp", JStr ts);
                                 ("rowCount", IntegrationsClear.rowCount_value res)]
       | inr e =>
           errs = [e; e]
           /\ resp = failure "Failed to clear Shopify integrations"
                       (error_message e "Unknown database error")
       end.
Proof.
  intros Hgate. unfold IntegrationsClear.DELETE. fold (given request). fold expected.
  rewrite Hgate.
  destruct (query_run host "DELETE FROM integrations WHERE type = $1" (Some ["shopify"]) st)
    as (out & w & evs & errs & Hquery & Hstmts & Hfetch & _ & Herrs & _).
  destruct out as [res|e].
  - destruct (timestamp_run (after st w evs errs)) as (t & w' & Hts).
    exists (inl res), w', (evs ++ [EvNow t]), errs. eexists.
    split.
    + erewrite try_catch_inl; [reflexivity|]. erewrite try_catch_inl; [reflexivity|].
      rewrite (bind_inl _ _ _ _ _ Hquery), rowCount_text.
      rewrite (bind_inl _ _ _ _ _ (attempt_inl host _ _)).
      rewrite (bind_inl _ _ _ _ _ Hts), ret_run.
      rewrite after_after, app_nil_r. reflexivity.
    + rewrite statements_app, fetches_app, Hstmts, Hfetch. cbn.
      repeat split; eauto.
  - exists (inr e), w, evs, errs. eexists. split.
    + erewrite try_catch_inl; [reflexivity|]. erewrite try_catch_inr; [reflexivity|].
      now rewrite (bind_inr _ _ _ _ _ Hquery).
    + repeat split; auto.
Qed.

(** The two cases above, for each of the five routes. *)
Lemma clear_route_rejected r request params st :
  Api.table_clearing r = true ->
  rejects (given request) expected = true ->
  Api.handler host env r request params st = (inl Unauthorized, st).
Proof.
  intros Hr Hgate.
  destruct r; try discriminate Hr; cbn [Api.handler];
    first [ now apply integrations_clear_rejected | now apply table_clear_rejected ].
Qed.

Lemma clear_route_passed r request params st :
  Api.table_clearing r = true ->
  rejects (given request) expected = false ->
  exists w evs errs resp,
    Api.handler host env r request params st = (inl resp, after st w evs errs)
    /\ statements evs = [clear_statement r].
Proof.
  intros Hr Hgate.
  destruct r; try discriminate Hr; cbn [Api.handler clear_statement];
    unfold AnomaliesClear.DELETE, TransactionsClear.DELETE,
      TransactionItemsClear.DELETE, SubmissionsClear.DELETE;
    first
      [ match goal with
        | |- context [table_clear_DELETE _ _ ?t ?a ?b ?c _ _] =>
            destruct (table_clear_passed t a b c request st Hgate)
              as (out & w & evs & errs & resp & Hrun & Hstmts & _)
        end
      | destruct (integrations_clear_passed request st Hgate)
          as (out & w & evs & errs & resp & Hrun & Hstmts & _) ];
    now exists w, evs, errs, resp.
Qed.

(** C1. On each of the five routes that empty a table, a request whose
    [admin-password] header is missing or is not the expected password is
    answered 401 with [{ success: false, error: "Unauthorized" }] and
    leaves the state as it was: no call is made at all.  A request with
    the expected password sends the route's [DELETE], and a run that sent
    any statement had the expected password. *)
Theorem clear_routes_password_gate r request params st :
  Api.table_clearing r = true ->
  (given request <> Some expected ->
     Api.handler host env r request params st
     = (inl {| status := 401;
               body := JObj [("success", JBool false); ("error", JStr "Unauthorized")] |},
        st))
  /\ (given request = Some expected ->
       exists resp st' evs,
         Api.handler host env r request params st = (inl resp, st')
         /\ trace st' = trace st ++ evs
         /\ statements evs = [clear_statement r])
  /\ (forall out st',
       Api.handler host env r request params st = (out, st') ->
       statements (trace st') <> statements (trace st) ->
       given request = Some expected).
Proof.
  intros Hr.
  pose proof (admin_password_nonempty env) as Hne. fold expected in Hne.
  split; [|split].
  - intros Hgiven. apply clear_route_rejected; [exact Hr|].
    now apply rejects_true_iff.
  - intros Hgiven.
    destruct (clear_route_passed r request params st Hr) as (w & evs & errs & resp & Hrun & Hs).
    { now apply rejects_false_iff. }
    now exists resp, (after st w evs errs), evs.
  - intros out st' Hrun Hsent.
    destruct (rejects (given request) expected) eqn:Hgate.
    + rewrite (clear_route_rejected r request params st Hr Hgate) in Hrun.
      injection Hrun as _ <-. now contradict Hsent.
    + now apply rejects_false_iff in Hgate.
Qed.

End ClearRouteFacts.

Example integrations_clear_without_header :
  Api.handler Sim.host Sim.env Api.IntegrationsClearRoute
    (Sim.anonymous_request "http://admin.local/api/integrations/clear")
    Sim.no_params Sim.start
  = (inl Unauthorized, Sim.start).
Proof. reflexivity. Qed.

Example anomalies_clear_with_password :
  exists st',
    Api.handler Sim.host Sim.env Api.AnomaliesClearRoute
      (Sim.admin_request "http://admin.local/api/anomalies/clear")
      Sim.no_params Sim.start
    = (inl (NextResponse_json
              (JObj [("success", JBool true);
                     ("message", JStr "Anomaly flags cleared successfully. Removed 3 rows.");
                     ("timestamp", JStr "1970-01-01T00:00:00.002Z");
                     ("rowCount", JNum 3)])),
       st')
    /\ statements (trace st') = [("DELETE FROM anomaly_flags", None)].
Proof. eexists. split; [vm_compute; reflexivity|]. reflexivity. Qed.

Lemma clear_routes_password_gate_witness :
  Api.handler Sim.host Sim.env Api.TransactionsClearRoute
    (Sim.guessing_request "http://admin.local/api/transactions/clear")
    Sim.no_params Sim.start
  = (inl Unauthorized, Sim.start).
Proof.
  apply (clear_routes_password_gate Sim.host Sim.env Api.TransactionsClearRoute);
    [reflexivity | vm_compute; discriminate].
Defined.

(** ** clear-database *)

Section ClearDatabaseFacts.
Import ClearDatabase.
Context {W : Type} (host : Host W) (env : ProcessEnv).
Implicit Types (st : State W) (request : Request) (results : Results).

Lemma flags_set_error key msg results : flags (set_error key msg results) = flags results.
Proof.
  induction results as [|[k r] rest IH]; [reflexivity|]. cbn [set_error].
  destruct (String.eqb k key); cbn; [reflexivity|]. now f_equal.
Qed.

Lemma flags_set_success key results : flags (set_success key results) = mark key (flags results).
Proof.
  induction results as [|[k r] rest IH]; [reflexivity|]. cbn [set_success flags map mark fst snd].
  destruct (String.eqb k key); cbn; [reflexivity|]. now f_equal.
Qed.

Lemma flags_record_outcome key out results :
  flags (record_outcome key out results)
  = if fetch_succeeded out then mark key (flags results) else flags results.
Proof.
  destruct out as [r|e]; cbn [record_outcome fetch_succeeded].
  - destruct (ok r); [apply flags_set_success | apply flags_set_error].
  - apply flags_set_error.
Qed.

Lemma successCount_flags results :
  successCount results = Z.of_nat (length (List.filter snd (flags results))).
Proof.
  unfold successCount, flags. f_equal.
  induction results as [|[k r] rest IH]; [reflexivity|]. cbn.
  destruct (success r); cbn; now rewrite IH.
Qed.

Lemma totalCount_flags results : totalCount results = Z.of_nat (length (flags results)).
Proof. unfold totalCount, flags. now rewrite !length_map. Qed.

(** One block: whatever the sub-request gives, the block ends normally
    and has written the outcome under its key. *)
Lemma clear_step_run baseUrl adminPassword results key path st :
  exists out w,
    clear_step host baseUrl adminPassword results (key, path) st
    = (inl (record_outcome key out results),
       after st w [EvFetch (step_request baseUrl adminPassword path) out]
         match out with inl _ => [] | inr e => [e] end).
Proof.
  set (req := step_request baseUrl adminPassword path).
  destruct (net_fetch host req (world st)) as [out w] eqn:Hnet.
  pose proof (call_run (net_fetch host req) (EvFetch req) st out w Hnet) as Hcall.
  fold (fetch host req) in Hcall.
  exists out, w. unfold clear_step. fold req.
  destruct out as [r|e].
  - erewrite try_catch_inl; [reflexivity|].
    rewrite (bind_inl _ _ _ _ _ Hcall). cbn [record_outcome].
    now destruct (ok r).
  - erewrite try_catch_inr; [reflexivity|].
    now rewrite (bind_inr _ _ _ _ _ Hcall).
Qed.

(** The blocks in sequence: each sub-request is made, in order, whatever
    the earlier ones gave. *)
Lemma clear_steps_run baseUrl adminPassword todo :
  forall results st,
  exists outs w errs,
    clear_steps host baseUrl adminPassword results todo st
    = (inl (record_outcomes (combine (map fst todo) outs) results),
       after st w
         (fetch_events (map (fun s => step_request baseUrl adminPassword (snd s)) todo) outs)
         errs)
    /\ length outs = length todo.
Proof.
  induction todo as [|[key path] rest IH]; intros results st.
  - exists [], (world st), []. cbn. now rewrite after_nothing.
  - destruct (clear_step_run baseUrl adminPassword results key path st) as (out & w & Hstep).
    match type of Hstep with _ = (_, ?st1) =>
      destruct (IH (record_outcome key out results) st1) as (outs & w' & errs & Hrest & Hlen)
    end.
    exists (out :: outs), w'. eexists. split; [|cbn; now rewrite Hlen].
    cbn [clear_steps]. rewrite (bind_inl _ _ _ _ _ Hstep), Hrest, after_after.
    reflexivity.
Qed.

(** After the six blocks each key carries the outcome of its own
    sub-request. *)
Lemma six_flags (outs : list (FetchResponse + Thrown)) :
  length outs = 6%nat ->
  flags (record_outcomes (combine (map fst steps) outs) initial_results)
  = combine (map fst steps) (map fetch_succeeded outs).
Proof.
  intros Hlen.
  do 6 (destruct outs as [|? outs]; [discriminate Hlen|]).
  destruct outs; [|discriminate Hlen].
  cbn [steps map fst combine record_outcomes fold_left snd].
  rewrite !flags_record_outcome.
  repeat match goal with |- context [fetch_succeeded ?o] => destruct (fetch_succeeded o) end;
    reflexivity.
Qed.

(** Counting over the six flags. *)
Lemma six_counts (bs : list bool) :
  length bs = 6%nat ->
  let fs := combine (map fst steps) bs in
  length fs = 6%nat
  /\ length (List.filter snd fs) = length (List.filter id bs)
  /\ (Z.of_nat (length (List.filter snd fs)) =? 6) = forallb id bs.
Proof.
  intros Hlen.
  do 6 (destruct bs as [|? bs]; [discriminate Hlen|]).
  destruct bs; [|discriminate Hlen].
  repeat match goal with b : bool |- _ => destruct b end; repeat split.
Qed.

Lemma filter_map_id {A} (f : A -> bool) (l : list A) :
  length (List.filter id (map f l)) = length (List.filter f l).
Proof.
  induction l as [|a l IH]; [reflexivity|]. cbn [map List.filter].
  unfold id at 1. destruct (f a); cbn [length]; now rewrite IH.
Qed.

Lemma forallb_map_id {A} (f : A -> bool) (l : list A) :
  forallb id (map f l) = forallb f l.
Proof.
  induction l as [|a l IH]; [reflexivity|]. cbn [map forallb].
  unfold id at 1. now rewrite IH.
Qed.

Lemma errors_set_success key results : errors (set_success key results) = errors results.
Proof.
  induction results as [|[k r] rest IH]; [reflexivity|]. cbn [set_success].
  destruct (String.eqb k key); cbn; [reflexivity|]. now f_equal.
Qed.

Lemma errors_set_error key msg results :
  errors (set_error key msg results) = put key msg (errors results).
Proof.
  induction results as [|[k r] rest IH]; [reflexivity|].
  cbn [set_error errors map put fst snd].
  destruct (String.eqb k key); cbn; [reflexivity|]. now f_equal.
Qed.

Lemma errors_record_outcome key out results :
  errors (record_outcome key out results)
  = match outcome_error out with
    | Some msg => put key msg (errors results)
    | None => errors results
    end.
Proof.
  destruct out as [r|e]; cbn [record_outcome outcome_error].
  - destruct (ok r); [apply errors_set_success | apply errors_set_error].
  - apply errors_set_error.
Qed.

Lemma six_errors (outs : list (FetchResponse + Thrown)) :
  length outs = 6%nat ->
  errors (record_outcomes (combine (map fst steps) outs) initial_results)
  = combine (map fst steps) (map outcome_error outs).
Proof.
  intros Hlen.
  do 6 (destruct outs as [|? outs]; [discriminate Hlen|]).
  destruct outs; [|discriminate Hlen].
  cbn [steps map fst combine record_outcomes fold_left snd].
  rewrite !errors_record_outcome.
  repeat match goal with |- context [outcome_error ?o] => destruct (outcome_error o) end;
    reflexivity.
Qed.

(** [results] as the response shows it is determined by the flags and the
    errors. *)
Lemma results_value_entries results :
  results_value results
  = JObj (map (fun fe =>
                 (fst (fst fe),
                  JObj [("success", JBool (snd (fst fe)));
                        ("error", from_option JStr JNull (snd (snd fe)))]))
            (combine (flags results) (errors results))).
Proof.
  unfold results_value, flags, errors. f_equal.
  induction results as [|[k r] rest IH]; [reflexivity|]. cbn. now rewrite IH.
Qed.

(** Past the gate the handler answers 200, and [results] holds the outcome
    of each of the six sub-requests. *)
Lemma clear_database_recorded request st :
  pairs_get (headers request) "admin-password"
  = Some (or_else (NEXT_PUBLIC_ADMIN_PASSWORD env) "admin123") ->
  exists resp st',
    POST host env request st = (inl resp, st') /\ failures_recorded st resp st'.
Proof.
  intros Hgiven.
  set (expected := or_else (NEXT_PUBLIC_ADMIN_PASSWORD env) "admin123") in *.
  set (baseUrl := replace_first "/api/clear-database" "" (url request)).
  assert (Hgate : rejects (pairs_get (headers request) "admin-password") expected = false).
  { apply rejects_false_iff; [apply admin_password_nonempty | exact Hgiven]. }
  destruct (clear_steps_run baseUrl expected steps initial_results st)
    as (outs & w & errs & Hsteps & Hlen).
  change (length steps) with 6%nat in Hlen.
  eexists _, _. split.
  - unfold POST. fold expected. rewrite Hgate, Hgiven. cbn [default from_option].
    fold baseUrl.
    erewrite try_catch_inl; [reflexivity|].
    rewrite (bind_inl _ _ _ _ _ Hsteps). apply ret_run.
  - unfold failures_recorded. rewrite new_events_after, fetches_fetch_events.
    split; [reflexivity|].
    cbn [body NextResponse_json field get_field String.eqb Ascii.eqb Bool.eqb].
    rewrite results_value_entries, six_flags, six_errors by exact Hlen.
    do 6 (destruct outs as [|? outs]; [discriminate Hlen|]).
    destruct outs; [|discriminate Hlen]. split; reflexivity.
Qed.

(** The whole of the handler, past the gate. *)
Lemma clear_database_passed request st :
  let expected := or_else (NEXT_PUBLIC_ADMIN_PASSWORD env) "admin123" in
  let baseUrl := replace_first "/api/clear-database" "" (url request) in
  pairs_get (headers request) "admin-password" = Some expected ->
  exists outs w errs results message,
    POST host env request st
    = (inl (NextResponse_json
              (JObj [("success", JBool (forallb fetch_succeeded outs));
                     ("message", JStr message);
                     ("results", results_value results);
                     ("summary",
                      JObj [("cleared", JNum (Z.of_nat (length (List.filter fetch_succeeded outs))));
                            ("total", JNum 6);
                            ("errors",
                             JNum (6 - Z.of_nat (length (List.filter fetch_succeeded outs))))])])),
       after st w (fetch_events (step_requests baseUrl expected) outs) errs)
    /\ length outs = 6%nat
    /\ flags results = combine (map fst steps) (map fetch_succeeded outs).
Proof.
  intros expected baseUrl Hgiven.
  assert (Hgate : rejects (pairs_get (headers request) "admin-password") expected = false).
  { apply rejects_false_iff; [apply admin_password_nonempty | exact Hgiven]. }
  destruct (clear_steps_run baseUrl expected steps initial_results st)
    as (outs & w & errs & Hsteps & Hlen).
  change (length steps) with 6%nat in Hlen.
  set (results := record_outcomes (combine (map fst steps) outs) initial_results) in *.
  pose proof (six_flags outs Hlen) as Hflags. fold results in Hflags.
  destruct (six_counts (map fetch_succeeded outs)) as (Htotal & Hcleared & Hall).
  { now rewrite length_map. }
  rewrite <- Hflags in Htotal, Hcleared, Hall.
  rewrite filter_map_id in Hcleared. rewrite forallb_map_id in Hall.
  exists outs, w, errs, results. eexists. split; [|split; [exact Hlen | exact Hflags]].
  unfold POST. fold expected. rewrite Hgate, Hgiven. cbn [default from_option].
  fold baseUrl.
  erewrite try_catch_inl; [reflexivity|].
  rewrite (bind_inl _ _ _ _ _ Hsteps), ret_run.
  rewrite successCount_flags, totalCount_flags, Htotal, Hcleared.
  change (Z.of_nat 6) with 6. rewrite <- Hcleared, Hall, Hcleared.
  unfold step_requests. reflexivity.
Qed.

(** C2. For a request that passes the password gate, the handler makes
    the six sub-requests and no other, whatever each of them gives: a
    [DELETE] with the password, in this order, of the routes that clear
    vectordb, transactions, transaction items, submissions, anomalies and
    integrations.  It answers [success: true] exactly when all six were
    answered with an ok status, with [summary.cleared] the number of those
    that were, [summary.total] 6 and [summary.errors] the difference, and
    the flag under each of the six keys of [results] tells whether the
    sub-request of that key was answered with an ok status. *)
Theorem clear_database_summary request st :
  let expected := or_else (NEXT_PUBLIC_ADMIN_PASSWORD env) "admin123" in
  let baseUrl := replace_first "/api/clear-database" "" (url request) in
  let clear path :=
    {| fetch_url := baseUrl +:+ path;
       fetch_method := "DELETE";
       fetch_headers := [("admin-password", expected);
                         ("Content-Type", "application/json")];
       fetch_timeout := Some 10000 |} in
  pairs_get (headers request) "admin-password" = Some expected ->
  exists outs resp st',
    POST host env request st = (inl resp, st')
    /\ length outs = 6%nat
    /\ fetches (new_events st st')
       = combine
           [clear "/api/vectordb/clear";
            clear "/api/transactions/clear";
            clear "/api/transaction-items/clear";
            clear "/api/submissions/clear";
            clear "/api/anomalies/clear";
            clear "/api/integrations/clear"]
           outs
    /\ (forall key out,
          In (key, out)
            (combine
               ["vectordb"; "transactions"; "transactionItems"; "submissions";
                "anomalies"; "integrations"]
               outs) ->
          exists entry,
            field "results" (body resp) ≫= field key = Some entry
            /\ field "success" entry = Some (JBool (fetch_succeeded out)))
    /\ let cleared := Z.of_nat (length (List.filter fetch_succeeded outs)) in
       field "success" (body resp) = Some (JBool (forallb fetch_succeeded outs))
       /\ field "summary" (body resp)
          = Some (JObj [("cleared", JNum cleared);
                        ("total", JNum 6);
                        ("errors", JNum (6 - cleared))]).
Proof.
  intros expected baseUrl clear Hgiven.
  destruct (clear_database_passed request st Hgiven)
    as (outs & w & errs & results & message & Hrun & Hlen & Hflags).
  fold expected baseUrl in Hrun.
  eexists outs, _, _. split; [exact Hrun|]. split; [exact Hlen|]. split; [|split].
  - now rewrite new_events_after, fetches_fetch_events.
  - intros key out Hin.
    do 6 (destruct outs as [|? outs]; [discriminate Hlen|]).
    destruct outs; [|discriminate Hlen].
    unfold flags in Hflags.
    do 6 (destruct results as [|[? [? ?]] results]; [discriminate Hflags|]).
    destruct results; [|discriminate Hflags].
    cbn in Hflags. injection Hflags; intros; subst.
    cbn in Hin.
    repeat (destruct Hin as [[= <- <-]|Hin]; [eexists; split; reflexivity|]).
    contradiction.
  - split; reflexivity.
Qed.

End ClearDatabaseFacts.

Lemma clear_database_summary_witness :
  exists outs resp st',
    ClearDatabase.POST Sim.host Sim.env
      (Sim.admin_request "http://admin.local/api/clear-database") Sim.start
    = (inl resp, st')
    /\ length outs = 6%nat
    /\ field "success" (body resp) = Some (JBool (forallb fetch_succeeded outs)).
Proof.
  destruct (clear_database_summary Sim.host Sim.env
              (Sim.admin_request "http://admin.local/api/clear-database") Sim.start
              eq_refl)
    as (outs & resp & st' & Hrun & Hlen & _ & _ & Hsuccess & _).
  exists outs, resp, st'. auto.
Defined.

Example clear_database_three_of_six :
  exists resp st',
    ClearDatabase.POST Sim.host Sim.env
      (Sim.admin_request "http://admin.local/api/clear-database") Sim.start
    = (inl resp, st')
    /\ status resp = 200
    /\ field "success" (body resp) = Some (JBool false)
    /\ field "summary" (body resp)
       = Some (JObj [("cleared", JNum 3); ("total", JNum 6); ("errors", JNum 3)]).
Proof. eexists _, _. split; [vm_compute; reflexivity|]. repeat split. Qed.

(** ** impersonate *)

Section ImpersonateFacts.
Context {W : Type} (host : Host W) (env : ProcessEnv).
Implicit Types (st : State W) (request : Request).

(** C4. When the impersonate route answers with success, the link is
    short-lived: [expiresAt] is the clock reading taken for it plus
    5 * 60 * 1000 ms, the token is the signature of a builder whose
    expiration time was set to ['5m'] and whose payload carries the user
    and the same [expiresAt], and [magicLink] is the app URL followed by
    [/transactions?impersonate=], the user id as a template literal prints
    it, [&token=] and that token.  A user id that is a string is printed
    as it is, and one that is a safe integer in decimal. *)
Theorem magic_link_short_lived request st resp st' :
  Impersonate.POST host env request st = (inl resp, st') ->
  field "success" (body resp) = Some (JBool true) ->
  exists payload userId user nonce created issued jwt token audited,
    json_body request = inl payload
    /\ destructure payload "userId" = inl userId
    /\ truthy userId = true
    /\ template_string (engine host) userId = inl user
    /\ (forall u, userId = JStr u -> user = u)
    /\ (forall n, userId = JNum n -> Z.abs n <= 9007199254740991 -> user = pretty n)
    /\ new_events st st'
       = [EvUUID nonce; EvNow created; EvNow issued;
          EvSign jwt (or_else (ADMIN_JWT_SECRET env) "admin-secret-key-change-in-production")
            (inl token);
          EvNow audited]
    /\ jwt_expirationTime jwt = Some "5m"
    /\ jwt_protectedHeader jwt = Some (JObj [("alg", JStr "HS256")])
    /\ field "userId" (jwt_payload jwt) = Some userId
    /\ field "expiresAt" (jwt_payload jwt)
       = Some (JStr (Date_toISOString host (created + 300000)))
    /\ field "expiresAt" (body resp)
       = Some (JStr (Date_toISOString host (created + 300000)))
    /\ field "token" (body resp) = Some (JStr token)
    /\ field "magicLink" (body resp)
       = Some (JStr (or_else (NEXT_PUBLIC_APP_URL env) "https://app.cooler.dev"
                       +:+ "/transactions?impersonate=" +:+ user
                       +:+ "&token=" +:+ token)).
Proof.
  unfold Impersonate.POST, Impersonate.randomUUID, Impersonate.sign, timestamp, Db.now.
  run_paths.
  all: intros Hrun Hsuccess; injection Hrun as <- <-.
  all: try discriminate Hsuccess.
  do 9 eexists.
  split; [reflexivity|]. split; [eassumption|]. split; [now destruct (truthy _)|].
  split; [eassumption|].
  split; [|split].
  - intros u ->. cbn in *. congruence.
  - intros n -> Hn. cbn in *. unfold number_string in *.
    destruct (Z.leb_spec (Z.abs n) 9007199254740991); [congruence|lia].
  - repeat split.
    1: { path_added. reflexivity. }
    all: reflexivity.
Qed.

End ImpersonateFacts.

Lemma magic_link_short_lived_witness :
  exists resp st' created token,
    Impersonate.POST Sim.host Sim.env Sim.impersonate_request Sim.start = (inl resp, st')
    /\ field "expiresAt" (body resp) = Some (JStr (Sim.sim_iso (created + 300000)))
    /\ field "magicLink" (body resp)
       = Some (JStr ("https://app.cooler.dev/transactions?impersonate=u1&token="
                       +:+ token)).
Proof.
  destruct (magic_link_short_lived Sim.host Sim.env Sim.impersonate_request Sim.start
              _ _ eq_refl eq_refl)
    as (payload & userId & user & nonce & created & issued & jwt & token & audited
        & Hbody & HuserId & _ & _ & Hstring & _ & _ & _ & _ & _ & _ & Hexpires & _ & Hlink).
  injection Hbody as <-. injection HuserId as <-.
  rewrite (Hstring "u1" eq_refl) in Hlink.
  eexists _, _, created, token.
  split; [|split; [exact Hexpires | exact Hlink]].
  vm_compute. reflexivity.
Defined.

Example magic_link_of_u1 :
  exists resp st',
    Impersonate.POST Sim.host Sim.env Sim.impersonate_request Sim.start = (inl resp, st')
    /\ field "expiresAt" (body resp) = Some (JStr "1970-01-01T00:05:00.000Z")
    /\ field "magicLink" (body resp)
       = Some (JStr "https://app.cooler.dev/transactions?impersonate=u1&token=jwt.u1.5m").
Proof. eexists _, _. split; [vm_compute; reflexivity|]. split; reflexivity. Qed.

(** ** transactions/[userId] *)

Lemma get_prop_inl (v : JsVal) (k : string) (x : JsVal) :
  get_prop v k = inl x -> x = get_prop_opt v k.
Proof. destruct v; cbn; congruence. Qed.

Lemma destructure_inl (v : JsVal) (k : string) (x : JsVal) :
  destructure v k = inl x -> x = get_prop_opt v k.
Proof. destruct v; cbn; congruence. Qed.

Lemma js_or_array (v : JsVal) (items : list JsVal) :
  js_or v (JArr []) = JArr items -> items = array_or_empty v.
Proof.
  unfold js_or. destruct (truthy v) eqn:Hv.
  - intros ->. reflexivity.
  - intros [= <-]. now destruct v.
Qed.

Lemma js_or_number (n : Z) : js_or (JNum n) (JNum 0) = JNum n.
Proof. unfold js_or. cbn. destruct (Z.eqb_spec n 0); cbn; congruence. Qed.

Section TransactionsFacts.
Context {W : Type} (host : Host W) (env : ProcessEnv).
Implicit Types (st : State W) (request : Request).

(** The callback either builds [reshaped tx], touching nothing, or
    throws. *)
Lemma reshape_inl tx st v st' :
  Transactions.reshape host tx st = (inl v, st') -> v = Transactions.reshaped tx /\ st' = st.
Proof.
  unfold Transactions.reshape. destruct tx; cbn; intros [= <- <-]; split; reflexivity.
Qed.

Lemma map_M_reshape_inl items :
  forall st ys st',
    Transactions.map_M (Transactions.reshape host) items st = (inl ys, st') ->
    ys = map Transactions.reshaped items /\ st' = st.
Proof.
  induction items as [|tx rest IH]; intros st ys st'; cbn [Transactions.map_M].
  - intros [= <- <-]. split; reflexivity.
  - unfold bind at 1.
    destruct (Transactions.reshape host tx st) as [[y|e] st1] eqn:Hone; [|discriminate].
    apply reshape_inl in Hone as [-> ->].
    unfold bind at 1.
    destruct (Transactions.map_M (Transactions.reshape host) rest st) as [[zs|e] st2] eqn:Hrest;
      [|discriminate].
    apply IH in Hrest as [-> ->].
    intros [= <- <-]. split; reflexivity.
Qed.

(** C9. A successful answer of the transactions route lists the first
    seven upstream [recentTransactions] (all of them when there are fewer,
    none when the property is missing), in the upstream order, each as
    [{ id, dateCreated, status, itemCount, stripeUsageId }] with
    [itemCount || 0]; [totalCount] is the upstream [counts.transactions],
    or 0 when that is missing. *)
Theorem transactions_first_seven request params st resp st' :
  Transactions.GET host env request params st = (inl resp, st') ->
  field "success" (body resp) = Some (JBool true) ->
  exists req up data at_,
    new_events st st' = [EvFetch req (inl up); EvNow at_]
    /\ resp_json up = inl data
    /\ let upstream := array_or_empty (get_prop_opt data "recentTransactions") in
       let count := get_prop_opt (get_prop_opt data "counts") "transactions" in
       field "transactions" (body resp)
       = Some (JArr (map Transactions.reshaped (firstn 7 upstream)))
       /\ (length (firstn 7 upstream) <= 7)%nat
       /\ field "totalCount" (body resp) = Some (js_or count (JNum 0))
       /\ (forall n, count = JNum n -> field "totalCount" (body resp) = Some (JNum n))
       /\ (count = JUndefined -> field "totalCount" (body resp) = Some (JNum 0)).
Proof.
  unfold Transactions.GET, Transactions.slice_0_7_map, timestamp, Db.now, fetch.
  run_paths.
  all: intros Hrun Hsuccess; injection Hrun as <- <-.
  all: try discriminate Hsuccess.
  match goal with
  | H : Transactions.map_M _ _ _ = (inl _, _) |- _ => apply map_M_reshape_inl in H as [-> ->]
  end.
  repeat match goal with
         | H : get_prop _ _ = inl _ |- _ => apply get_prop_inl in H; subst
         | H : js_or _ (JArr []) = JArr _ |- _ => apply js_or_array in H; subst
         end.
  do 4 eexists. split; [path_added; reflexivity|].
  split; [eassumption|]. cbv zeta.
  split; [reflexivity|]. split; [apply firstn_le_length|].
  split; [reflexivity|]. cbn [field body NextResponse_json get_field String.eqb Ascii.eqb Bool.eqb].
  split.
  - intros n ->. now rewrite js_or_number.
  - intros ->. reflexivity.
Qed.

End TransactionsFacts.

Lemma transactions_first_seven_witness :
  exists resp st' data,
    Transactions.GET Sim.host Sim.env Sim.transactions_request {| userId := "u1" |} Sim.start
    = (inl resp, st')
    /\ field "transactions" (body resp)
       = Some (JArr (map Transactions.reshaped
                       (firstn 7 (array_or_empty (get_prop_opt data "recentTransactions"))))).
Proof.
  destruct (transactions_first_seven Sim.host Sim.env Sim.transactions_request
              {| userId := "u1" |} Sim.start _ _ eq_refl eq_refl)
    as (req & up & data & at_ & _ & _ & Hlist & _).
  eexists _, _, data. split; [|exact Hlist].
  vm_compute. reflexivity.
Defined.

Example transactions_of_u1 :
  exists resp st',
    Transactions.GET Sim.host Sim.env Sim.transactions_request {| userId := "u1" |} Sim.start
    = (inl resp, st')
    /\ option_map (fun v => length (array_or_empty v)) (field "transactions" (body resp))
       = Some 7%nat
    /\ field "totalCount" (body resp) = Some (JNum 9).
Proof. eexists _, _. split; [vm_compute; reflexivity|]. split; reflexivity. Qed.

(** ** Every route: the shape of the answers *)

(** The three facts about a path of a handler: what it raised, what came
    back from upstream, and the envelope of the answer. *)
Ltac path_raised :=
  path_added; intros Hraised;
  first [ now contradict Hraised
        | repeat split; solve [ reflexivity | eexists; reflexivity ] ].

Ltac path_upstream :=
  path_added; cbn [fetches flat_map app In];
  intros req up Hin Hok;
  repeat match goal with
         | H : _ \/ _ |- _ => destruct H
         | H : False |- _ => destruct H
         | H : (_, _) = (_, _) |- _ => injection H as <- <-
         | H : negb _ = false |- _ => apply negb_false_iff in H
         | H : negb _ = true |- _ => apply negb_true_iff in H
         end;
  try match goal with
      | H : valid_status _ = _ |- _ => rewrite H
      end;
  first [ reflexivity
        | congruence
        | repeat split; solve [ reflexivity | eexists; reflexivity ] ].

Ltac path_envelope :=
  eexists; split; [reflexivity|]; split; intros Hb;
  first
    [ discriminate Hb
    | left; eexists; reflexivity
    | split; [ intros [x Hx]; lazy in Hx; discriminate Hx | intros [=] ]
    | split; [ intros _; reflexivity | intros _; eexists; reflexivity ] ].

Ltac path_facts :=
  eexists _, _; split; [reflexivity|]; split; [split; [path_raised | path_upstream]|];
  path_envelope.

Section RoutePaths.
Context {W : Type} (host : Host W) (env : ProcessEnv).
Implicit Types (st : State W) (request : Request).

Lemma failure_is_error_envelope (error details : string) :
  error_envelope (failure error details).
Proof. repeat split; eexists; reflexivity. Qed.

Lemma unauthorized_paths route st :
  uniform_errors st Unauthorized st /\ envelope route Unauthorized.
Proof.
  split; [split|].
  - rewrite new_raised_same. now intros [].
  - rewrite new_events_same. now intros req up [].
  - exists false. split; [reflexivity|]. split; [|discriminate].
    intros _. left. now exists "Unauthorized".
Qed.

Lemma table_clear_paths route table cleared failed failedCatch request st :
  route <> Api.ApiRequestsRoute ->
  exists resp st',
    table_clear_DELETE host env table cleared failed failedCatch request st = (inl resp, st')
    /\ uniform_errors st resp st' /\ envelope route resp.
Proof.
  intros Hroute.
  destruct (rejects (pairs_get (headers request) "admin-password")
              (or_else (NEXT_PUBLIC_ADMIN_PASSWORD env) "admin123")) eqn:Hgate.
  - exists Unauthorized, st. split; [now apply table_clear_rejected|].
    apply unauthorized_paths.
  - destruct (table_clear_passed host env table cleared failed failedCatch request st Hgate)
      as (out & w & evs & errs & resp & Hrun & _ & Hfetch & Hout).
    exists resp, (after st w evs errs). split; [exact Hrun|].
    unfold uniform_errors. rewrite new_raised_after, new_events_after, Hfetch.
    destruct out as [res|e].
    + destruct Hout as (-> & Hstatus & message & ts & Hbody).
      split; [split; [now intros [] | now intros req up []]|].
      exists true. rewrite Hbody. split; [reflexivity|]. split; [discriminate|].
      intros _. split; [intros [x Hx]; discriminate Hx | now intros ->].
    + destruct Hout as (-> & ->).
      split; [split; [intros _; apply failure_is_error_envelope | now intros req up []]|].
      exists false. split; [reflexivity|]. split; [|discriminate].
      intros _. left. now eexists.
Qed.

Lemma integrations_clear_paths request st :
  exists resp st',
    IntegrationsClear.DELETE host env request st = (inl resp, st')
    /\ uniform_errors st resp st' /\ envelope Api.IntegrationsClearRoute resp.
Proof.
  destruct (rejects (pairs_get (headers request) "admin-password")
              (or_else (NEXT_PUBLIC_ADMIN_PASSWORD env) "admin123")) eqn:Hgate.
  - exists Unauthorized, st. split; [now apply integrations_clear_rejected|].
    apply unauthorized_paths.
  - destruct (integrations_clear_passed host env request st Hgate)
      as (out & w & evs & errs & resp & Hrun & _ & Hfetch & Hout).
    exists resp, (after st w evs errs). split; [exact Hrun|].
    unfold uniform_errors. rewrite new_raised_after, new_events_after, Hfetch.
    destruct out as [res|e].
    + destruct Hout as (-> & Hstatus & message & ts & Hbody).
      split; [split; [now intros [] | now intros req up []]|].
      exists true. rewrite Hbody. split; [reflexivity|]. split; [discriminate|].
      intros _. split; [intros [x Hx]; discriminate Hx | intros [=]].
    + destruct Hout as (-> & ->).
      split; [split; [intros _; apply failure_is_error_envelope | now intros req up []]|].
      exists false. split; [reflexivity|]. split; [|discriminate].
      intros _. left. now eexists.
Qed.

Lemma vectordb_clear_paths request st :
  exists resp st',
    VectordbClear.DELETE host env request st = (inl resp, st')
    /\ uniform_errors st resp st' /\ envelope Api.VectordbClearRoute resp.
Proof.
  unfold VectordbClear.DELETE, timestamp, Db.now, fetch.
  run_paths; path_facts.
Qed.

Lemma api_requests_paths request st :
  exists resp st',
    ApiRequests.GET host env request st = (inl resp, st')
    /\ uniform_errors st resp st' /\ envelope Api.ApiRequestsRoute resp.
Proof.
  unfold ApiRequests.GET, timestamp, Db.now, fetch.
  run_paths; path_facts.
Qed.

Lemma impersonate_paths request st :
  exists resp st',
    Impersonate.POST host env request st = (inl resp, st')
    /\ uniform_errors st resp st' /\ envelope Api.ImpersonateRoute resp.
Proof.
  unfold Impersonate.POST, Impersonate.randomUUID, Impersonate.sign, timestamp, Db.now.
  run_paths; path_facts.
Qed.

Lemma reshape_inr tx st e st' :
  Transactions.reshape host tx st = (inr e, st') -> st' = log_raised e st.
Proof.
  unfold Transactions.reshape. destruct tx; cbn; intros [= <- <-]; reflexivity.
Qed.

Lemma map_M_reshape_inr items :
  forall st e st',
    Transactions.map_M (Transactions.reshape host) items st = (inr e, st') ->
    st' = log_raised e st.
Proof.
  induction items as [|tx rest IH]; intros st e st'; cbn [Transactions.map_M].
  - discriminate.
  - unfold bind at 1.
    destruct (Transactions.reshape host tx st) as [[y|e1] st1] eqn:Hone.
    + apply reshape_inl in Hone as [-> ->]. unfold bind at 1.
      destruct (Transactions.map_M (Transactions.reshape host) rest st) as [[zs|e2] st2] eqn:Hrest.
      * discriminate.
      * apply IH in Hrest as ->. now intros [= <- <-].
    + apply reshape_inr in Hone as ->. now intros [= <- <-].
Qed.

Lemma transactions_paths request params st :
  exists resp st',
    Transactions.GET host env request params st = (inl resp, st')
    /\ uniform_errors st resp st' /\ envelope Api.TransactionsRoute resp.
Proof.
  unfold Transactions.GET, Transactions.slice_0_7_map, timestamp, Db.now, fetch.
  run_paths;
    repeat match goal with
           | H : Transactions.map_M _ _ _ = (inl _, _) |- _ =>
               apply map_M_reshape_inl in H as [-> ->]
           | H : Transactions.map_M _ _ _ = (inr _, _) |- _ =>
               apply map_M_reshape_inr in H as ->
           end;
    path_facts.
Qed.

Lemma clear_database_rejected request st :
  rejects (pairs_get (headers request) "admin-password")
    (or_else (NEXT_PUBLIC_ADMIN_PASSWORD env) "admin123") = true ->
  ClearDatabase.POST host env request st = (inl Unauthorized, st).
Proof. intros Hgate. unfold ClearDatabase.POST. rewrite Hgate. reflexivity. Qed.

(** clear-database either stops at the gate or answers 200 with its
    summary, whatever the six sub-requests gave. *)
Lemma clear_database_paths request st :
  exists resp st',
    ClearDatabase.POST host env request st = (inl resp, st')
    /\ envelope Api.ClearDatabaseRoute resp
    /\ ((resp = Unauthorized /\ st' = st) \/ failures_recorded st resp st').
Proof.
  destruct (rejects (pairs_get (headers request) "admin-password")
              (or_else (NEXT_PUBLIC_ADMIN_PASSWORD env) "admin123")) eqn:Hgate.
  - exists Unauthorized, st. split; [now apply clear_database_rejected|].
    split; [apply unauthorized_paths; exact st | now left].
  - apply rejects_false_iff in Hgate; [|apply admin_password_nonempty].
    destruct (clear_database_passed host env request st Hgate)
      as (outs & w & errs & results & message & Hrun & _).
    destruct (clear_database_recorded host env request st Hgate)
      as (resp & st' & Hrun' & Hrecorded).
    exists resp, st'. split; [exact Hrun'|]. split; [|now right].
    rewrite Hrun in Hrun'. injection Hrun' as <- _.
    eexists. split; [reflexivity|]. split.
    + intros _. right. repeat split; eexists; reflexivity.
    + intros _. split; [intros [x Hx]; discriminate Hx | intros [=]].
Qed.

(** Every handler returns a response along every path, and the response
    has the properties of sections 6 and 7 that hold for its route. *)
Lemma handler_paths route request params st :
  exists resp st',
    Api.handler host env route request params st = (inl resp, st')
    /\ envelope route resp
    /\ (route <> Api.ClearDatabaseRoute -> uniform_errors st resp st')
    /\ (route = Api.ClearDatabaseRoute ->
        (resp = Unauthorized /\ st' = st) \/ failures_recorded st resp st').
Proof.
  destruct route; cbn [Api.handler].
  7: { destruct (clear_database_paths request st) as (resp & st' & Hrun & Henv & Hsum).
       exists resp, st'. now repeat split. }
  all: match goal with
       | |- context [AnomaliesClear.DELETE] =>
           destruct (table_clear_paths Api.AnomaliesClearRoute "anomaly_flags" "Anomaly flags"
                       "Failed to clear anomaly flags" "Failed to clear anomalies"
                       request st ltac:(discriminate))
             as (resp & st' & Hrun & Herr & Henv)
       | |- context [TransactionsClear.DELETE] =>
           destruct (table_clear_paths Api.TransactionsClearRoute "transactions" "Transactions"
                       "Failed to clear transactions" "Failed to clear transactions"
                       request st ltac:(discriminate))
             as (resp & st' & Hrun & Herr & Henv)
       | |- context [TransactionItemsClear.DELETE] =>
           destruct (table_clear_paths Api.TransactionItemsClearRoute "transaction_items"
                       "Transaction items" "Failed to clear transaction items"
                       "Failed to clear transaction items" request st ltac:(discriminate))
             as (resp & st' & Hrun & Herr & Henv)
       | |- context [SubmissionsClear.DELETE] =>
           destruct (table_clear_paths Api.SubmissionsClearRoute "submissions" "Submissions"
                       "Failed to clear submissions" "Failed to clear submissions"
                       request st ltac:(discriminate))
             as (resp & st' & Hrun & Herr & Henv)
       | |- context [IntegrationsClear.DELETE] =>
           destruct (integrations_clear_paths request st) as (resp & st' & Hrun & Herr & Henv)
       | |- context [VectordbClear.DELETE] =>
           destruct (vectordb_clear_paths request st) as (resp & st' & Hrun & Herr & Henv)
       | |- context [ApiRequests.GET] =>
           destruct (api_requests_paths request st) as (resp & st' & Hrun & Herr & Henv)
       | |- context [Impersonate.POST] =>
           destruct (impersonate_paths request st) as (resp & st' & Hrun & Herr & Henv)
       | |- context [Transactions.GET] =>
           destruct (transactions_paths request params st)
             as (resp & st' & Hrun & Herr & Henv)
       end.
  all: exists resp, st'; split; [exact Hrun|]; split; [exact Henv|]; split;
    [intros _; exact Herr | discriminate].
Qed.


(** C6, as the code has it.  Every response carries a boolean [success];
    with [success: false] it carries an [error] string, except for the
    summary of clear-database, which carries [message], [results] and
    [summary]; with [success: true] it carries a field [data] on the
    api-requests route only. *)
Theorem responses_are_envelopes route request params st :
  exists resp st',
    Api.handler host env route request params st = (inl resp, st')
    /\ envelope route resp.
Proof.
  destruct (handler_paths route request params st) as (resp & st' & Hrun & Henv & _).
  now exists resp, st'.
Qed.

End RoutePaths.



(** An upstream status that a response with a body cannot have: the
    transactions route answers 500, with the message of the engine. *)
Example transactions_upstream_not_modified :
  exists resp st',
    Transactions.GET Lab.host Sim.env Sim.transactions_request {| userId := "u5" |} Lab.start
    = (inl resp, st')
    /\ map snd (fetches (new_events Lab.start st')) = [inl (Sim.answer 304 "" Sim.not_json)]
    /\ status resp = 500
    /\ field "details" (body resp)
       = Some (JStr "Response constructor: Invalid response status code 304")
    /\ ~ spec_uniform_errors Lab.start resp st'.
Proof.
  eexists _, _. split; [vm_compute; reflexivity|].
  split; [reflexivity|]. split; [reflexivity|]. split; [reflexivity|].
  intros [_ Hmirror].
  assert (Hstatus : 500 = 304); [|discriminate Hstatus].
  apply (Hmirror
           {| fetch_url := "https://api.cooler.dev/admin/customers/u5/database-counts";
              fetch_method := "GET";
              fetch_headers := [("Authorization", "Bearer Bearit01!");
                                ("Content-Type", "application/json")];
              fetch_timeout := None |}
           (Sim.answer 304 "" Sim.not_json));
    [left|]; reflexivity.
Qed.

(** The claim of section 6 fails on impersonate: its successful answer
    has no field [data]. *)
Lemma impersonate_answer_without_data :
  exists resp st',
    Api.handler Sim.host Sim.env Api.ImpersonateRoute Sim.impersonate_request
      Sim.no_params Sim.start
    = (inl resp, st')
    /\ ~ spec_envelope resp.
Proof.
  eexists _, _. split; [vm_compute; reflexivity|].
  intros (b & Hsuccess & Hdata & _).
  injection Hsuccess as <-.
  destruct (Hdata eq_refl) as [x Hx]. discriminate Hx.
Qed.

Lemma responses_are_envelopes_witness :
  exists resp st',
    Api.handler Sim.host Sim.env Api.ImpersonateRoute Sim.impersonate_request
      Sim.no_params Sim.start
    = (inl resp, st')
    /\ envelope Api.ImpersonateRoute resp.
Proof.
  exact (responses_are_envelopes Sim.host Sim.env Api.ImpersonateRoute
           Sim.impersonate_request Sim.no_params Sim.start).
Defined.

(** * Further properties *)

(** ** The gates of all the routes *)

Lemma get_prop_defined (v : JsVal) (k : string) :
  defined v = true -> get_prop v k = inl (get_prop_opt v k).
Proof. destruct v; cbn; congruence. Qed.

Lemma get_prop_undefined (v : JsVal) (k : string) :
  defined v = false -> get_prop v k = inr (ReadOfNullish v k).
Proof. destruct v; cbn; congruence. Qed.

Lemma destructure_defined (v : JsVal) (k : string) :
  defined v = true -> destructure v k = inl (get_prop_opt v k).
Proof. destruct v; cbn; congruence. Qed.

Lemma destructure_undefined (v : JsVal) (k : string) :
  defined v = false -> destructure v k = inr (DestructureOfNullish v k).
Proof. destruct v; cbn; congruence. Qed.

Section Gates.
Context {W : Type} (host : Host W) (env : ProcessEnv).
Implicit Types (st : State W) (request : Request).

Lemma gate_nonempty r name expected :
  gate env r = Some (name, expected) -> expected <> "".
Proof.
  destruct r; cbn; intros [= <- <-]; first [apply admin_password_nonempty | discriminate].
Qed.

(** X1. Every route but api-requests stops a request whose credential
    header is missing or wrong: the answer is 401 [Unauthorized] and
    nothing has happened, no call and no exception. *)
Theorem gated_routes_reject r request params st name expected :
  gate env r = Some (name, expected) ->
  pairs_get (headers request) name <> Some expected ->
  Api.handler host env r request params st
  = (inl {| status := 401;
            body := JObj [("success", JBool false); ("error", JStr "Unauthorized")] |},
     st).
Proof.
  intros Hgate Hgiven.
  assert (Hrej : rejects (pairs_get (headers request) name) expected = true).
  { apply rejects_true_iff; [exact (gate_nonempty r name expected Hgate) | exact Hgiven]. }
  destruct r; cbn in Hgate; try discriminate Hgate; injection Hgate as <- <-;
    cbn [Api.handler];
    unfold AnomaliesClear.DELETE, TransactionsClear.DELETE, TransactionItemsClear.DELETE,
      SubmissionsClear.DELETE, table_clear_DELETE, IntegrationsClear.DELETE,
      VectordbClear.DELETE, ClearDatabase.POST, Impersonate.POST, Transactions.GET;
    rewrite Hrej; reflexivity.
Qed.

(** X2. api-requests has no gate.  Whatever headers a request carries, the
    handler calls the upstream once, with the administrator's bearer
    token: the list of recent requests of all customers, or of the
    customer named by a non-empty [userId] parameter, with the [limit]
    parameter or 100. *)
Theorem api_requests_has_no_gate request st :
  let limit := or_else (pairs_get (searchParams request) "limit") "100" in
  let base := or_else (NEXT_PUBLIC_API_URL env) "https://api.cooler.dev" in
  let user := or_else (pairs_get (searchParams request) "userId") "" in
  exists out resp st',
    ApiRequests.GET host env request st = (inl resp, st')
    /\ fetches (new_events st st')
       = [({| fetch_url :=
                if String.eqb user "" then
                  base +:+ "/admin/api-requests/recent?limit=" +:+ limit
                else
                  base +:+ "/admin/customers/" +:+ user +:+ "/api-requests/recent?limit="
                    +:+ limit;
              fetch_method := "GET";
              fetch_headers := [("Authorization", "Bearer Bearit01!");
                                ("Content-Type", "application/json")];
              fetch_timeout := None |},
           out)].
Proof.
  cbv zeta.
  match goal with
  | |- context [Build_FetchRequest ?u _ _ _] => remember u as target eqn:Htarget
  end.
  unfold ApiRequests.GET, timestamp, Db.now, fetch.
  run_paths;
    cbn [or_else String.eqb] in Htarget;
    repeat (match goal with
            | H : String.eqb _ _ = _ |- _ => rewrite H in Htarget
            end; cbn [or_else String.eqb] in Htarget);
    subst target; eexists _, _, _; (split; [reflexivity|]); path_added; reflexivity.
Qed.

End Gates.

Example api_requests_without_credentials :
  exists out resp st',
    ApiRequests.GET Sim.host Sim.env
      {| url := "http://admin.local/api/api-requests?userId=u9";
         searchParams := [("userId", "u9")]; headers := []; json_body := Sim.not_json |}
      Sim.start
    = (inl resp, st')
    /\ fetches (new_events Sim.start st')
       = [({| fetch_url :=
                "https://api.cooler.dev/admin/customers/u9/api-requests/recent?limit=100";
              fetch_method := "GET";
              fetch_headers := [("Authorization", "Bearer Bearit01!");
                                ("Content-Type", "application/json")];
              fetch_timeout := None |},
           out)].
Proof. eexists _, _, _. split; vm_compute; reflexivity. Qed.

Lemma gated_routes_reject_witness :
  Api.handler Sim.host Sim.env Api.ImpersonateRoute
    (Sim.request "http://admin.local/api/impersonate"
       [("authorization", "Bearer guess")] (inl (JObj [("userId", JStr "u1")])))
    Sim.no_params Sim.start
  = (inl Unauthorized, Sim.start).
Proof.
  apply (gated_routes_reject Sim.host Sim.env Api.ImpersonateRoute _ _ _
           "authorization" "Bearer Bearit01!");
    [reflexivity | vm_compute; discriminate].
Defined.

(** ** impersonate: the requests that get no link *)

Section ImpersonateEdges.
Context {W : Type} (host : Host W) (env : ProcessEnv).
Implicit Types (st : State W) (request : Request).

Lemma bearer_passes request :
  pairs_get (headers request) "authorization" = Some "Bearer Bearit01!" ->
  rejects (pairs_get (headers request) "authorization") "Bearer Bearit01!" = false.
Proof. intros ->. reflexivity. Qed.

(** X3. An authorised impersonate request whose body has no [userId], or
    a falsy one (empty string, 0, false, null), is answered 400
    [userId is required]; no identifier is drawn, nothing is signed and
    the clock is not read. *)
Theorem impersonate_requires_userId request st payload :
  pairs_get (headers request) "authorization" = Some "Bearer Bearit01!" ->
  json_body request = inl payload ->
  defined payload = true ->
  truthy (get_prop_opt payload "userId") = false ->
  Impersonate.POST host env request st
  = (inl {| status := 400;
            body := JObj [("success", JBool false); ("error", JStr "userId is required")] |},
     st).
Proof.
  intros Hauth Hbody Hdefined Hfalsy.
  unfold Impersonate.POST.
  rewrite (bearer_passes request Hauth), Hbody.
  erewrite try_catch_inl; [reflexivity|].
  erewrite bind_inl; [|apply ret_run].
  rewrite (destructure_defined payload "userId" Hdefined).
  erewrite bind_inl; [|apply attempt_inl].
  rewrite Hfalsy. reflexivity.
Qed.

(** X4. An authorised impersonate request whose body cannot be read is
    answered 500 with the message of the exception under [details], and
    that exception is the only thing that happened.  The exception is the
    one [request.json()] rejected with when the body is not JSON, and the
    one the engine throws for taking [userId] out of [null] when the body
    is [null], with the engine's wording. *)
Theorem impersonate_unreadable_body request st e :
  pairs_get (headers request) "authorization" = Some "Bearer Bearit01!" ->
  body_error (engine host) request = Some e ->
  Impersonate.POST host env request st
  = (inl {| status := 500;
            body := JObj [("success", JBool false);
                          ("error", JStr "Failed to generate magic link");
                          ("details", JStr (error_message e "Unknown error"))] |},
     after st (world st) [] [e]).
Proof.
  intros Hauth Hbody.
  unfold Impersonate.POST. rewrite (bearer_passes request Hauth).
  unfold body_error in Hbody.
  destruct (json_body request) as [payload|thrown].
  - destruct (defined payload) eqn:Hdefined; [discriminate Hbody|].
    injection Hbody as <-.
    erewrite try_catch_inr; [reflexivity|].
    erewrite bind_inl; [|apply ret_run].
    rewrite (destructure_undefined payload "userId" Hdefined).
    erewrite bind_inr; [reflexivity|]. apply attempt_inr.
  - injection Hbody as <-.
    erewrite try_catch_inr; [reflexivity|].
    erewrite bind_inr; [reflexivity|]. apply throw_run.
Qed.

(** X5. Whatever impersonate signs is a read-only token for the user the
    authorised request named, with the expiration set to ['5m'] and the
    algorithm HS256; a request that is not authorised, or names no user,
    has nothing signed. *)
Theorem impersonate_signs_only_for_the_user request st out st' jwt secret res :
  Impersonate.POST host env request st = (out, st') ->
  In (EvSign jwt secret res) (new_events st st') ->
  pairs_get (headers request) "authorization" = Some "Bearer Bearit01!"
  /\ exists payload,
       json_body request = inl payload
       /\ truthy (get_prop_opt payload "userId") = true
       /\ field "userId" (jwt_payload jwt) = Some (get_prop_opt payload "userId")
       /\ field "adminId" (jwt_payload jwt) = Some (JStr "admin")
       /\ field "readOnly" (jwt_payload jwt) = Some (JBool true)
       /\ jwt_expirationTime jwt = Some "5m"
       /\ jwt_protectedHeader jwt = Some (JObj [("alg", JStr "HS256")]).
Proof.
  unfold Impersonate.POST, Impersonate.randomUUID, Impersonate.sign, timestamp, Db.now.
  run_paths.
  all: intros Hrun; injection Hrun as <- <-.
  all: path_added; cbn [In]; intros Hin.
  all: repeat match goal with
              | H : _ \/ _ |- _ => destruct H
              | H : False |- _ => destruct H
              end.
  all: try match goal with H : _ = EvSign _ _ _ |- _ => discriminate H end.
  all: match goal with
       | H : EvSign _ _ _ = EvSign _ _ _ |- _ =>
           let Hj := fresh in let Hs := fresh in let Hr := fresh in
           injection H as Hj Hs Hr; subst jwt secret res
       end.
  all: match goal with H : rejects _ _ = false |- _ =>
         apply (proj1 (rejects_false_iff _ "Bearer Bearit01!" ltac:(discriminate))) in H
       end.
  all: match goal with
       | H : destructure _ _ = inl _ |- _ => apply destructure_inl in H; subst
       end.
  all: split; [assumption|]; eexists; split; [reflexivity|].
  all: split; [now destruct (truthy _)|]; repeat split.
Qed.

End ImpersonateEdges.

Lemma impersonate_requires_userId_witness :
  exists resp,
    Impersonate.POST Sim.host Sim.env
      (Sim.request "http://admin.local/api/impersonate"
         [("authorization", "Bearer Bearit01!")] (inl (JObj [("userId", JStr "")])))
      Sim.start
    = (inl resp, Sim.start)
    /\ status resp = 400.
Proof.
  eexists. split.
  - apply (impersonate_requires_userId Sim.host Sim.env _ Sim.start
             (JObj [("userId", JStr "")]));
      reflexivity.
  - reflexivity.
Defined.

Lemma impersonate_unreadable_body_witness :
  exists resp st',
    Impersonate.POST Sim.host Sim.env
      (Sim.request "http://admin.local/api/impersonate"
         [("authorization", "Bearer Bearit01!")] Sim.not_json)
      Sim.start
    = (inl resp, st')
    /\ field "details" (body resp) = Some (JStr "Unexpected token")
    /\ new_events Sim.start st' = [].
Proof.
  eexists _, _. split.
  - apply (impersonate_unreadable_body Sim.host Sim.env _ Sim.start (JsError "Unexpected token"));
      reflexivity.
  - split; reflexivity.
Defined.

(** A body that is the JSON text [null], and a user that is an object
    with a property [toString]: the second is signed for before the link
    fails to be made. *)
Example impersonate_null_body :
  exists resp st',
    Impersonate.POST Sim.host Sim.env
      (Sim.request "http://admin.local/api/impersonate"
         [("authorization", "Bearer Bearit01!")] (inl JNull))
      Sim.start
    = (inl resp, st')
    /\ status resp = 500
    /\ field "details" (body resp)
       = Some (JStr "Cannot destructure property 'userId' of 'body' as it is null.")
    /\ new_events Sim.start st' = [].
Proof. eexists _, _. split; [vm_compute; reflexivity|]. repeat split. Qed.

Example impersonate_user_with_toString :
  exists resp st' jwt,
    Impersonate.POST Sim.host Sim.env
      (Sim.request "http://admin.local/api/impersonate"
         [("authorization", "Bearer Bearit01!")]
         (inl (JObj [("userId", JObj [("toString", JNum 1)])])))
      Sim.start
    = (inl resp, st')
    /\ status resp = 500
    /\ field "details" (body resp) = Some (JStr "Cannot convert object to primitive value")
    /\ In (EvSign jwt "admin-secret-key-change-in-production" (inl "jwt.?.5m"))
         (new_events Sim.start st').
Proof.
  eexists _, _, _. split; [vm_compute; reflexivity|].
  split; [reflexivity|]. split; [reflexivity|].
  vm_compute. do 3 right. left. reflexivity.
Qed.

Lemma impersonate_signs_only_for_the_user_witness :
  exists jwt,
    field "userId" (jwt_payload jwt) = Some (JStr "u1")
    /\ jwt_expirationTime jwt = Some "5m".
Proof.
  pose (run := Impersonate.POST Sim.host Sim.env Sim.impersonate_request Sim.start).
  pose (jwt := setExpirationTime "5m"
                 (setProtectedHeader (JObj [("alg", JStr "HS256")])
                    (new_SignJWT
                       (JObj [("userId", JStr "u1");
                              ("adminId", JStr "admin");
                              ("readOnly", JBool true);
                              ("expiresAt", JStr "1970-01-01T00:05:00.000Z");
                              ("nonce", JStr "00000000-0000-4000-8000-7");
                              ("iat", JNum 0)])))).
  destruct (impersonate_signs_only_for_the_user Sim.host Sim.env Sim.impersonate_request
              Sim.start (fst run) (snd run) jwt
              "admin-secret-key-change-in-production" (inl "jwt.u1.5m"))
    as (_ & payload & Hbody & _ & Huser & _ & _ & Hexp & _).
  - reflexivity.
  - vm_compute. do 3 right. left. reflexivity.
  - exists jwt. split; [|exact Hexp].
    rewrite Huser. injection Hbody as <-. reflexivity.
Defined.

(** ** transactions/[userId]: the edges *)

Section TransactionsEdges.
Context {W : Type} (host : Host W) (env : ProcessEnv).
Implicit Types (st : State W) (request : Request).

Lemma reshape_defined tx st :
  defined tx = true ->
  Transactions.reshape host tx st = (inl (Transactions.reshaped tx), st).
Proof. destruct tx; cbn; intros [=]; reflexivity. Qed.

Lemma reshape_not_defined tx st :
  defined tx = false ->
  Transactions.reshape host tx st
  = (inr (raise (engine host) (ReadOfNullish tx "id")),
     log_raised (raise (engine host) (ReadOfNullish tx "id")) st).
Proof. destruct tx; cbn; intros [=]; reflexivity. Qed.

(** The [map] goes through exactly when no element is [null] or
    [undefined]; otherwise it throws what the engine throws for reading
    [id] of the first one. *)
Lemma map_M_reshape_run items st :
  Transactions.map_M (Transactions.reshape host) items st
  = match first_nullish items with
    | None => (inl (map Transactions.reshaped items), st)
    | Some v =>
        (inr (raise (engine host) (ReadOfNullish v "id")),
         log_raised (raise (engine host) (ReadOfNullish v "id")) st)
    end.
Proof.
  induction items as [|tx rest IH]; [reflexivity|].
  cbn [Transactions.map_M first_nullish List.find map]. unfold bind at 1.
  destruct (defined tx) eqn:Htx; cbn [negb].
  - rewrite (reshape_defined tx st Htx). unfold bind at 1. rewrite IH.
    fold (first_nullish rest). now destruct (first_nullish rest).
  - now rewrite (reshape_not_defined tx st Htx).
Qed.

Lemma first_nullish_none items :
  forallb defined items = true -> first_nullish items = None.
Proof.
  induction items as [|tx rest IH]; [reflexivity|]. cbn [forallb first_nullish List.find].
  intros [Htx Hrest]%andb_true_iff. rewrite Htx. cbn [negb]. exact (IH Hrest).
Qed.

(** X6. An authorised request to the transactions route with an empty
    [userId] is answered 400 [userId is required], and the upstream is
    not called. *)
Theorem transactions_requires_userId request params st :
  pairs_get (headers request) "authorization" = Some "Bearer Bearit01!" ->
  userId params = "" ->
  Transactions.GET host env request params st
  = (inl {| status := 400;
            body := JObj [("success", JBool false); ("error", JStr "userId is required")] |},
     st).
Proof.
  intros Hauth Hempty. unfold Transactions.GET.
  rewrite (bearer_passes request Hauth), Hempty. reflexivity.
Qed.

(** Settles how the [map] over the transactions ended on a path. *)
Ltac map_path :=
  repeat match goal with
         | H : Transactions.map_M _ _ _ = _ |- _ =>
             rewrite map_M_reshape_run in H;
             match type of H with
             | match ?c with _ => _ end = _ => destruct c eqn:?
             end;
             first [ discriminate H | injection H as ? ?; subst ]
         end.

(** What is known on each path of the handler once the answer of the
    upstream is fixed. *)
Ltac upstream_path :=
  repeat match goal with
         | H : _ \/ _ |- _ => destruct H
         | H : False |- _ => destruct H
         | H : (_, _) = (_, _) |- _ => injection H as <- <-
         | H : negb _ = false |- _ => apply negb_false_iff in H
         | H : negb _ = true |- _ => apply negb_true_iff in H
         end.

(** X7. If one of the first seven upstream [recentTransactions] is [null],
    the route answers 500 [Failed to fetch transactions], although the
    upstream answered with an ok status and a JSON body; under [details]
    is the message of what the engine throws for reading [id] of the
    first such element, in the wording of the engine. *)
Theorem transactions_null_entry request params st resp st' req up data items v :
  Transactions.GET host env request params st = (inl resp, st') ->
  In (req, inl up) (fetches (new_events st st')) ->
  ok up = true ->
  resp_json up = inl data ->
  get_prop_opt data "recentTransactions" = JArr items ->
  first_nullish (firstn 7 items) = Some v ->
  resp = {| status := 500;
            body := JObj [("success", JBool false);
                          ("error", JStr "Failed to fetch transactions");
                          ("details",
                           JStr (fault_message (engine host) (ReadOfNullish v "id")))] |}.
Proof.
  unfold Transactions.GET, Transactions.slice_0_7_map, timestamp, Db.now, fetch.
  run_paths; map_path;
    intros Hrun; injection Hrun as <- <-; path_added; cbn [fetches flat_map app In];
    intros Hin Hok Hjson Hrecent Hnull; upstream_path; try congruence.
  all: rewrite Hjson in *.
  all: repeat match goal with H : inl _ = inl _ |- _ => injection H as <- end.
  all: repeat match goal with
              | H : get_prop _ _ = inl _ |- _ => apply get_prop_inl in H; subst
              end.
  all: try (destruct data; discriminate).
  all: rewrite ?Hrecent in *; cbn [js_or truthy] in *.
  all: try discriminate.
  all: repeat match goal with H : JArr _ = JArr _ |- _ => injection H as <- end.
  all: congruence.
Qed.

(** X8. If the upstream answers with an ok status and a JSON body that is
    not [null], whose [recentTransactions] is missing, falsy or an array
    without [null] among its first seven elements, the route answers 200
    with those elements reshaped: elements after the seventh are never
    looked at. *)
Theorem transactions_well_formed_upstream request params st resp st' req up data items :
  Transactions.GET host env request params st = (inl resp, st') ->
  In (req, inl up) (fetches (new_events st st')) ->
  ok up = true ->
  resp_json up = inl data ->
  defined data = true ->
  (get_prop_opt data "recentTransactions" = JArr items
   \/ (truthy (get_prop_opt data "recentTransactions") = false /\ items = [])) ->
  forallb defined (firstn 7 items) = true ->
  status resp = 200
  /\ field "success" (body resp) = Some (JBool true)
  /\ field "transactions" (body resp)
     = Some (JArr (map Transactions.reshaped (firstn 7 items))).
Proof.
  unfold Transactions.GET, Transactions.slice_0_7_map, timestamp, Db.now, fetch.
  run_paths; map_path;
    intros Hrun; injection Hrun as <- <-; path_added; cbn [fetches flat_map app In];
    intros Hin Hok Hjson Hdefined [Harray|[Hfalsy ->]] Hall; upstream_path;
    try congruence.
  all: rewrite Hjson in *.
  all: repeat match goal with H : inl _ = inl _ |- _ => injection H as <- end.
  all: rewrite ?(get_prop_defined data _ Hdefined) in *.
  all: repeat match goal with H : inl _ = inl _ |- _ => injection H as <- end.
  all: try discriminate.
  all: unfold js_or in *.
  all: rewrite ?Harray, ?Hfalsy in *; cbn [truthy] in *.
  all: try discriminate.
  all: repeat match goal with H : JArr _ = JArr _ |- _ => injection H as <- end.
  all: try congruence.
  all: try match goal with
           | H : first_nullish _ = Some _ |- _ =>
               rewrite first_nullish_none in H by assumption; discriminate H
           end.
  all: repeat split.
Qed.

End TransactionsEdges.

Lemma transactions_requires_userId_witness :
  Transactions.GET Sim.host Sim.env Sim.transactions_request Sim.no_params Sim.start
  = (inl {| status := 400;
            body := JObj [("success", JBool false); ("error", JStr "userId is required")] |},
     Sim.start).
Proof.
  apply (transactions_requires_userId Sim.host Sim.env); reflexivity.
Defined.

Lemma transactions_null_entry_witness :
  exists resp st',
    Transactions.GET Lab.host Sim.env Sim.transactions_request {| userId := "u3" |} Lab.start
    = (inl resp, st')
    /\ field "details" (body resp)
       = Some (JStr "Cannot read properties of null (reading 'id')").
Proof.
  pose (run := Transactions.GET Lab.host Sim.env Sim.transactions_request
                 {| userId := "u3" |} Lab.start).
  exists (match fst run with inl r => r | inr _ => Unauthorized end), (snd run).
  split; [vm_compute; reflexivity|].
  rewrite (transactions_null_entry Lab.host Sim.env Sim.transactions_request
             {| userId := "u3" |} Lab.start _ (snd run)
             {| fetch_url := "https://api.cooler.dev/admin/customers/u3/database-counts";
                fetch_method := "GET";
                fetch_headers := [("Authorization", "Bearer Bearit01!");
                                  ("Content-Type", "application/json")];
                fetch_timeout := None |}
             (Sim.answer 200 "{...}"
                (inl (JObj [("recentTransactions",
                             JArr [Lab.transaction 1; Lab.transaction 2; JNull;
                                   Lab.transaction 4])])))
             (JObj [("recentTransactions",
                     JArr [Lab.transaction 1; Lab.transaction 2; JNull;
                           Lab.transaction 4])])
             [Lab.transaction 1; Lab.transaction 2; JNull; Lab.transaction 4]
             JNull);
    first [ vm_compute; left; reflexivity | vm_compute; reflexivity ].
Defined.

Lemma transactions_well_formed_upstream_witness :
  exists resp st',
    Transactions.GET Lab.host Sim.env Sim.transactions_request {| userId := "u4" |} Lab.start
    = (inl resp, st')
    /\ status resp = 200.
Proof.
  pose (run := Transactions.GET Lab.host Sim.env Sim.transactions_request
                 {| userId := "u4" |} Lab.start).
  pose (items := [Lab.transaction 1; Lab.transaction 2; Lab.transaction 3;
                  Lab.transaction 4; Lab.transaction 5; Lab.transaction 6;
                  Lab.transaction 7; JNull]).
  exists (match fst run with inl r => r | inr _ => Unauthorized end), (snd run).
  split; [vm_compute; reflexivity|].
  eapply proj1.
  apply (transactions_well_formed_upstream Lab.host Sim.env Sim.transactions_request
           {| userId := "u4" |} Lab.start _ (snd run)
           {| fetch_url := "https://api.cooler.dev/admin/customers/u4/database-counts";
              fetch_method := "GET";
              fetch_headers := [("Authorization", "Bearer Bearit01!");
                                ("Content-Type", "application/json")];
              fetch_timeout := None |}
           (Sim.answer 200 "{...}" (inl (JObj [("recentTransactions", JArr items)])))
           (JObj [("recentTransactions", JArr items)])
           items);
    first [ left; reflexivity
          | vm_compute; left; reflexivity
          | vm_compute; reflexivity ].
Defined.

(** ** vectordb/clear and the row counts *)

Section ClearEdges.
Context {W : Type} (host : Host W) (env : ProcessEnv).
Implicit Types (st : State W) (request : Request).

(** X9. When the upstream answers the clearing of the vector index with
    an ok status, the route passes the parsed body on under [apiResponse];
    but if that body is not JSON the route answers 500
    [Failed to call Cooler API], although the upstream reported success. *)
Theorem vectordb_unreadable_answer request st resp st' req up :
  VectordbClear.DELETE host env request st = (inl resp, st') ->
  In (req, inl up) (fetches (new_events st st')) ->
  ok up = true ->
  match resp_json up with
  | inl v =>
      status resp = 200
      /\ field "success" (body resp) = Some (JBool true)
      /\ field "apiResponse" (body resp) = Some v
  | inr e =>
      resp = {| status := 500;
                body := JObj [("success", JBool false);
                              ("error", JStr "Failed to call Cooler API");
                              ("details", JStr (error_message e "Unknown error"))] |}
  end.
Proof.
  unfold VectordbClear.DELETE, timestamp, Db.now, fetch.
  run_paths;
    intros Hrun; injection Hrun as <- <-; path_added; cbn [fetches flat_map app In];
    intros Hin Hok;
    repeat match goal with
           | H : _ \/ _ |- _ => destruct H
           | H : False |- _ => destruct H
           | H : (_, _) = (_, _) |- _ => injection H as <- <-
           end;
    try congruence.
  all: match goal with
       | H : resp_json ?f = _, H' : resp_json ?f = _ |- _ =>
           rewrite H in H'; first [ discriminate H' | injection H' as <- ]
       end.
  all: repeat split.
Qed.

(** X10. When the driver reports no row count ([rowCount] is [null]),
    the integrations route answers [rowCount: null] and [Removed null
    rows.], whereas the four routes that go through [clearTable] answer
    [rowCount: 0] and [Removed 0 rows.]. *)
Theorem null_row_count r request params st resp st' text ps res :
  Api.table_clearing r = true ->
  Api.handler host env r request params st = (inl resp, st') ->
  In (EvQuery text ps (inl res)) (new_events st st') ->
  pg_rowCount res = None ->
  let shown := match r with Api.IntegrationsClearRoute => JNull | _ => JNum 0 end in
  let text := match r with Api.IntegrationsClearRoute => "null" | _ => "0" end in
  field "rowCount" (body resp) = Some shown
  /\ template_string (engine host) shown = inl text
  /\ field "message" (body resp)
     = Some (JStr (cleared_text r +:+ text +:+ " rows.")).
Proof.
  intros Hr.
  destruct r; try discriminate Hr; cbn [Api.handler cleared_text];
    unfold AnomaliesClear.DELETE, TransactionsClear.DELETE, TransactionItemsClear.DELETE,
      SubmissionsClear.DELETE, table_clear_DELETE, IntegrationsClear.DELETE,
      Db.clearTable, Db.query, Db.pool_query_call, timestamp, Db.now;
    run_paths;
    intros Hrun; injection Hrun as <- <-; path_added; cbn [In];
    intros Hin Hnone;
    repeat match goal with
           | H : _ \/ _ |- _ => destruct H
           | H : False |- _ => destruct H
           end;
    try discriminate.
  all: match goal with
       | H : EvQuery _ _ (inl ?p) = EvQuery _ _ (inl ?q) |- _ =>
           assert (p = q) as -> by congruence
       end.
  all: unfold IntegrationsClear.rowCount_value in *; cbn [Db.success Db.rowCount] in *.
  all: rewrite Hnone in *.
  all: repeat match goal with
              | H : template_string _ _ = _ |- _ => cbn in H; try injection H as <-
              end.
  all: try discriminate.
  all: repeat split; reflexivity.
Qed.

End ClearEdges.

Lemma vectordb_unreadable_answer_witness :
  exists resp st',
    VectordbClear.DELETE Lab.host Sim.env
      (Sim.admin_request "http://admin.local/api/vectordb/clear") Lab.start
    = (inl resp, st')
    /\ status resp = 500
    /\ field "error" (body resp) = Some (JStr "Failed to call Cooler API").
Proof.
  pose (run := VectordbClear.DELETE Lab.host Sim.env
                 (Sim.admin_request "http://admin.local/api/vectordb/clear") Lab.start).
  exists (match fst run with inl r => r | inr _ => Unauthorized end), (snd run).
  split; [vm_compute; reflexivity|].
  pose proof (vectordb_unreadable_answer Lab.host Sim.env
                (Sim.admin_request "http://admin.local/api/vectordb/clear") Lab.start
                (match fst run with inl r => r | inr _ => Unauthorized end) (snd run)
                {| fetch_url := "http://localhost:8888/admin/vector-db/clear-all";
                   fetch_method := "DELETE";
                   fetch_headers := [("Authorization", "Bearer Bearit01!");
                                     ("Content-Type", "application/json")];
                   fetch_timeout := Some 10000 |}
                (Sim.answer 200 "cleared" Sim.not_json)) as Hanswer.
  cbn [resp_json Sim.answer Sim.not_json] in Hanswer.
  rewrite Hanswer; [split; reflexivity | vm_compute; reflexivity
                   | vm_compute; left; reflexivity | reflexivity].
Defined.

Lemma null_row_count_witness :
  exists resp st',
    Api.handler Lab.host Sim.env Api.IntegrationsClearRoute
      (Sim.admin_request "http://admin.local/api/integrations/clear") Sim.no_params Lab.start
    = (inl resp, st')
    /\ field "rowCount" (body resp) = Some JNull
    /\ field "message" (body resp)
       = Some (JStr "Shopify integrations cleared successfully. Removed null rows.").
Proof.
  pose (run := Api.handler Lab.host Sim.env Api.IntegrationsClearRoute
                 (Sim.admin_request "http://admin.local/api/integrations/clear")
                 Sim.no_params Lab.start).
  exists (match fst run with inl r => r | inr _ => Unauthorized end), (snd run).
  split; [vm_compute; reflexivity|].
  destruct (null_row_count Lab.host Sim.env Api.IntegrationsClearRoute
              (Sim.admin_request "http://admin.local/api/integrations/clear")
              Sim.no_params Lab.start
              (match fst run with inl r => r | inr _ => Unauthorized end) (snd run)
              "DELETE FROM integrations WHERE type = $1" (Some ["shopify"])
              {| pg_rowCount := None |})
    as (Hcount & _ & Hmessage);
    first [ vm_compute; do 1 right; left; reflexivity | vm_compute; reflexivity | idtac ].
  split; [exact Hcount | exact Hmessage].
Defined.

Example null_row_count_of_a_table :
  exists resp st',
    Api.handler Lab.host Sim.env Api.SubmissionsClearRoute
      (Sim.admin_request "http://admin.local/api/submissions/clear") Sim.no_params Lab.start
    = (inl resp, st')
    /\ field "rowCount" (body resp) = Some (JNum 0)
    /\ field "message" (body resp)
       = Some (JStr "Submissions cleared successfully. Removed 0 rows.").
Proof. eexists _, _. split; [vm_compute; reflexivity|]. split; reflexivity. Qed.

(** ** clear-database: what [results] holds *)

Section ClearDatabaseResults.
Import ClearDatabase.
Context {W : Type} (host : Host W) (env : ProcessEnv).
Implicit Types (st : State W) (request : Request) (results : Results).


End ClearDatabaseResults.


(** ** src/lib/db.ts: [query] and [clearTables] *)

Section DbMore.
Context {W : Type} (host : Host W).
Implicit Types (st : State W).

(** X12. [query] adds nothing to the pool: it sends the statement it was
    given once, resolves with the result of the pool, and rejects with
    the very exception the pool rejected with. *)
Theorem query_passes_through text params st :
  exists out st',
    Db.query host text params st = (out, st')
    /\ statements (new_events st st') = [(text, params)]
    /\ query_outcomes (new_events st st') = [out]
    /\ fetches (new_events st st') = []
    /\ (forall e, out = inr e -> last (new_raised st st') = Some e).
Proof.
  unfold Db.query, Db.pool_query_call, Db.now.
  run_paths; eexists _, _; (split; [reflexivity|]); path_added; repeat split;
    intros e [= <-]; reflexivity.
Qed.

Lemma assign_all_own_other (kvs : list (string * Db.ClearResult)) :
  forall (results : Db.ResultsObject) (k : string),
    k ∉ map fst kvs -> Db.own (assign_all kvs results) !! k = Db.own results !! k.
Proof.
  induction kvs as [|[k' v] rest IH]; intros results k Hk; [reflexivity|].
  cbn [assign_all fold_left fst snd] in *. fold (assign_all rest (Db.assign k' v results)).
  rewrite IH by (intros Hin; apply Hk; now right).
  unfold Db.assign. destruct (String.eqb k' "__proto__"); cbn [Db.own]; [reflexivity|].
  apply lookup_insert_ne. intros ->. apply Hk. now left.
Qed.

Lemma assign_all_prototype_other (kvs : list (string * Db.ClearResult)) :
  forall (results : Db.ResultsObject),
    "__proto__" ∉ map fst kvs ->
    Db.prototype (assign_all kvs results) = Db.prototype results.
Proof.
  induction kvs as [|[k' v] rest IH]; intros results Hk; [reflexivity|].
  cbn [assign_all fold_left fst snd] in *. fold (assign_all rest (Db.assign k' v results)).
  rewrite IH by (intros Hin; apply Hk; now right).
  unfold Db.assign. destruct (String.eqb_spec k' "__proto__") as [->|Hne]; [|reflexivity].
  exfalso. apply Hk. now left.
Qed.

Lemma assign_keeps_no_proto_entry name r (results : Db.ResultsObject) :
  Db.own results !! "__proto__" = None ->
  Db.own (Db.assign name r results) !! "__proto__" = None.
Proof.
  intros Hnone. unfold Db.assign.
  destruct (String.eqb_spec name "__proto__") as [->|Hne]; cbn [Db.own]; [exact Hnone|].
  rewrite lookup_insert_ne; [exact Hnone|exact Hne].
Qed.

Lemma assign_all_keeps_no_proto_entry (kvs : list (string * Db.ClearResult)) :
  forall (results : Db.ResultsObject),
    Db.own results !! "__proto__" = None ->
    Db.own (assign_all kvs results) !! "__proto__" = None.
Proof.
  induction kvs as [|[k' v] rest IH]; intros results Hnone; [exact Hnone|].
  cbn [assign_all fold_left fst snd]. fold (assign_all rest (Db.assign k' v results)).
  apply IH. now apply assign_keeps_no_proto_entry.
Qed.

Lemma combine_keys {A} (keys : list string) :
  forall (values : list A) (k : string),
    k ∈ map fst (combine keys values) -> k ∈ keys.
Proof.
  induction keys as [|r rest IH]; intros values k Hin; [destruct values; inversion Hin|].
  destruct values as [|o values]; [inversion Hin|].
  cbn in Hin. apply list_elem_of_In in Hin. destruct Hin as [<-|Hin].
  - now left.
  - right. apply (IH values). now apply list_elem_of_In.
Qed.

(** [clearTable] with the outcome of its statement. *)
Lemma clearTable_outcome tableName st :
  exists out w evs errs,
    Db.clearTable host tableName st = (inl (clear_outcome out), after st w evs errs)
    /\ query_outcomes evs = [out].
Proof.
  unfold Db.clearTable, Db.query, Db.pool_query_call, Db.now.
  run_paths;
    match goal with H : pool_query _ _ _ _ = (?o, _) |- _ => exists o end;
    eexists _, _, _;
    rewrite ?log_event_after, ?log_raised_after, ?after_after;
    (split; [reflexivity|]); reflexivity.
Qed.

(** The loop of [clearTables] with the outcomes of its statements. *)
Lemma clearTables_loop_outcomes tableNames :
  forall (results : Db.ResultsObject) st,
  exists outs w evs errs,
    Db.clearTables_loop host tableNames results st
    = (inl (assign_all (combine tableNames (map clear_outcome outs)) results),
       after st w evs errs)
    /\ length outs = length tableNames
    /\ query_outcomes evs = outs.
Proof.
  induction tableNames as [|t rest IH]; intros results st.
  - exists [], (world st), [], []. cbn. now rewrite after_nothing.
  - destruct (clearTable_outcome t st) as (out & w & evs & errs & Hone & Hevs).
    destruct (IH (Db.assign t (clear_outcome out) results) (after st w evs errs))
      as (outs & w' & evs' & errs' & Hrest & Hlen & Houts).
    exists (out :: outs), w', (evs ++ evs'), (errs ++ errs').
    split; [|split; [cbn; now rewrite Hlen|]].
    + cbn [Db.clearTables_loop]. rewrite (bind_inl _ _ _ _ _ Hone), Hrest, after_after.
      reflexivity.
    + unfold query_outcomes in *. now rewrite flat_map_app, Hevs, Houts.
Qed.

(** X13. The object [clearTables] returns holds, under each table name,
    what [clearTable] made of the outcome of that table's own statement:
    the [i]-th requested name has the result of the [i]-th statement
    sent, provided no name is requested twice.  The name [__proto__] is
    the exception: the result of its statement becomes the prototype of
    the object, and the object has no entry under that name. *)
Theorem clearTables_entries tableNames st :
  NoDup tableNames ->
  exists (results : Db.ResultsObject) st',
    Db.clearTables host tableNames st = (inl results, st')
    /\ length (query_outcomes (new_events st st')) = length tableNames
    /\ forall (i : nat) (name : string) (out : PgResult + Thrown),
         tableNames !! i = Some name ->
         query_outcomes (new_events st st') !! i = Some out ->
         if String.eqb name "__proto__" then
           Db.prototype results = Some (clear_outcome out)
           /\ Db.own results !! name = None
         else Db.own results !! name = Some (clear_outcome out).
Proof.
  intros Hnodup.
  destruct (clearTables_loop_outcomes tableNames Db.empty_object st)
    as (outs & w & evs & errs & Hrun & Hlen & Houts).
  eexists _, _. split; [exact Hrun|].
  rewrite new_events_after, Houts. split; [exact Hlen|].
  clear Hrun Houts.
  assert (Hacc : Db.own Db.empty_object !! "__proto__" = None) by reflexivity.
  revert Hacc. generalize Db.empty_object as acc.
  revert outs Hlen.
  induction Hnodup as [|t rest Hfresh Hrest IH];
    intros outs Hlen acc Hacc i name out Hname Hout.
  - destruct i; discriminate Hname.
  - destruct outs as [|o outs]; [discriminate Hlen|]. injection Hlen as Hlen.
    cbn [map combine assign_all fold_left fst snd].
    fold (assign_all (combine rest (map clear_outcome outs))
            (Db.assign t (clear_outcome o) acc)).
    destruct i as [|i]; cbn in Hname, Hout.
    + injection Hname as <-. injection Hout as <-.
      assert (Hother : t ∉ map fst (combine rest (map clear_outcome outs))).
      { intros Hin. apply Hfresh. exact (combine_keys rest _ t Hin). }
      destruct (String.eqb_spec t "__proto__") as [->|Hne].
      * split.
        -- now rewrite assign_all_prototype_other.
        -- apply assign_all_keeps_no_proto_entry. exact Hacc.
      * rewrite assign_all_own_other by exact Hother.
        unfold Db.assign. rewrite (proj2 (String.eqb_neq t "__proto__") Hne).
        apply lookup_insert_eq.
    + apply (IH outs Hlen _ (assign_keeps_no_proto_entry t _ acc Hacc) i name out Hname Hout).
Qed.

End DbMore.

Lemma clearTables_entries_witness :
  exists (results : Db.ResultsObject) st',
    Db.clearTables Sim.host ["transactions"; "__proto__"; "anomaly_flags"] Sim.start
    = (inl results, st')
    /\ length (query_outcomes (new_events Sim.start st')) = 3%nat.
Proof.
  destruct (clearTables_entries Sim.host ["transactions"; "__proto__"; "anomaly_flags"]
              Sim.start)
    as (results & st' & Hrun & Hlen & _).
  - apply NoDup_ListNoDup. repeat constructor; cbn; intuition discriminate.
  - now exists results, st'.
Defined.

Example clearTables_goes_on_after_a_failure :
  exists (results : Db.ResultsObject) st',
    Db.clearTables Sim.host ["transactions"; "nowhere"; "anomaly_flags"] Sim.start
    = (inl results, st')
    /\ Db.success <$> Db.own results !! "transactions" = Some true
    /\ Db.success <$> Db.own results !! "nowhere" = Some false
    /\ Db.rowCount <$> Db.own results !! "anomaly_flags" = Some 3.
Proof. eexists _, _. split; [reflexivity|]. repeat split; vm_compute; reflexivity. Qed.

Example clearTables_with_proto :
  exists (results : Db.ResultsObject) st',
    Db.clearTables Sim.host ["transactions"; "__proto__"] Sim.start = (inl results, st')
    /\ dom (Db.own results) = {[ "transactions" ]}
    /\ Db.prototype results
       = Some {| Db.success := false; Db.rowCount := 0;
                 Db.error := Some "relation __proto__ does not exist" |}.
Proof.
  eexists _, _. split; [reflexivity|]. split; [|vm_compute; reflexivity].
  cbn. set_solver.
Qed.

(** ** Resolving an anomaly *)

Section ResolveFlow.
Import AnomalyProcessor AnomalyProcessorRun.
Context {number : Type} (browser : Engine).

Lemma answered_resolved anomalyId (outcome : JsVal + Thrown) :
  reports_success outcome = true ->
  answered (number := number) browser anomalyId outcome = inl [OnResolved anomalyId; OnClose].
Proof.
  destruct outcome as [data|e]; [|discriminate].
  destruct data; cbn; try discriminate; intros ->; reflexivity.
Qed.

Lemma answered_refused anomalyId (outcome : JsVal + Thrown) :
  reports_success outcome = false ->
  exists e, answered (number := number) browser anomalyId outcome = inr e.
Proof.
  destruct outcome as [data|e]; [|intros _; eexists; reflexivity].
  destruct data; cbn; try (intros _; eexists; reflexivity).
  intros ->. eexists; reflexivity.
Qed.

(** X14. Whatever the resolution endpoint answers, [handleResolve] turns
    [isProcessing] on, posts once, and turns [isProcessing] off at the
    end; in between it either calls [onResolved] with the id of the anomaly
    and then [onClose] (when [response.data.success] is truthy), or shows
    one alert that begins with "Failed to resolve anomaly: " (when the
    request was rejected, the answer has no [data], or [success] is
    falsy), never both. *)
Theorem resolve_reports_or_alerts (API_BASE_URL anomalyId : string)
  (st : FormState number) (outcome : JsVal + Thrown) :
  let posted := [SetIsProcessing true; Post (handleResolve API_BASE_URL anomalyId st)] in
  if reports_success outcome then
    run browser API_BASE_URL anomalyId st outcome
    = posted ++ [OnResolved anomalyId; OnClose; SetIsProcessing false]
  else
    exists text,
      run browser API_BASE_URL anomalyId st outcome
      = posted ++ [Alert ("Failed to resolve anomaly: " +:+ text); SetIsProcessing false].
Proof.
  intros posted. destruct (reports_success outcome) eqn:Hok; unfold run.
  - now rewrite (answered_resolved anomalyId outcome Hok).
  - destruct (answered_refused anomalyId outcome Hok) as [e ->].
    exists (error_message e "Unknown error"). reflexivity.
Qed.

(** An answer with [success: false] and no [error]: the alert repeats
    itself. *)
Example resolve_refused_without_reason :
  run (number := Z) browser "http://localhost:8888" "a1"
    {| selectedAction := MARK_RESOLVED; resolutionNotes := "";
       submissionData := {| title := ""; manufacturer := ""; category := "";
                            description := ""; price := 0; currency := "USD";
                            naicsCode := "" |} |}
    (inl (JObj [("success", JBool false)]))
  = [SetIsProcessing true;
     Post {| post_url := "http://localhost:8888/admin/anomalies/a1/resolve";
             post_data := [("action", VAction MARK_RESOLVED); ("notes", VString "")];
             post_headers := [("Authorization", "Bearer Bearit01!")] |};
     Alert "Failed to resolve anomaly: Failed to resolve anomaly";
     SetIsProcessing false].
Proof. reflexivity. Qed.

(** The case of the component test "handles API error gracefully". *)
Example resolve_rejected_with_api_error :
  run (number := Z) browser "http://localhost:8888" "anomaly-1"
    {| selectedAction := MARK_RESOLVED; resolutionNotes := "";
       submissionData := {| title := ""; manufacturer := ""; category := "";
                            description := ""; price := 0; currency := "USD";
                            naicsCode := "" |} |}
    (inr (JsError "API Error"))
  = [SetIsProcessing true;
     Post {| post_url := "http://localhost:8888/admin/anomalies/anomaly-1/resolve";
             post_data := [("action", VAction MARK_RESOLVED); ("notes", VString "")];
             post_headers := [("Authorization", "Bearer Bearit01!")] |};
     Alert "Failed to resolve anomaly: API Error";
     SetIsProcessing false].
Proof. reflexivity. Qed.

Section Page.
Import AnomaliesPage.
Context {AnomalyFlag Breakdown : Type} (id : AnomalyFlag -> string).

(** X15. From the button of a row to the end of [handleResolve]: when
    the answer does not report success the page is as the button left it,
    with the processor still open on the anomaly and the list and the
    statistics untouched; when it does, the rows with the id of the
    anomaly are gone from the list and all the others are kept, and the
    processor is closed. *)
Theorem process_outcome (API_BASE_URL : string) (anomaly : AnomalyFlag)
  (form : FormState number) (outcome : JsVal + Thrown)
  (st : AnomaliesPage.PageState AnomalyFlag Breakdown) :
  let st' := process id browser API_BASE_URL anomaly form outcome st in
  if reports_success outcome then
    anomalies st'
    = List.filter (fun a => negb (String.eqb (id a) (id anomaly))) (anomalies st)
    /\ (forall a, In a (anomalies st') <-> In a (anomalies st) /\ id a <> id anomaly)
    /\ processingAnomaly st' = None
    /\ showAnomalyProcessor st' = false
  else
    st' = handleProcessAnomaly anomaly st
    /\ anomalies st' = anomalies st
    /\ anomalyStats st' = anomalyStats st
    /\ processingAnomaly st' = Some anomaly
    /\ showAnomalyProcessor st' = true.
Proof.
  intros st'. subst st'. unfold process, run.
  destruct (reports_success outcome) eqn:Hok.
  - rewrite (answered_resolved (id anomaly) outcome Hok).
    cbn [app fold_left react]. cbn.
    split; [reflexivity|]. split; [|split; reflexivity].
    intros a. rewrite filter_In, negb_true_iff, String.eqb_neq. tauto.
  - destruct (answered_refused (id anomaly) outcome Hok) as [e ->].
    cbn [app fold_left react]. repeat split.
Qed.

(** X16. The counters after [handleAnomalyResolved]: [unresolvedAnomalies]
    never goes below zero, and the sum of [unresolvedAnomalies] and
    [resolvedAnomalies] is kept exactly when there was an unresolved
    anomaly to count down.  A second call with the same id finds no row
    to remove and counts once more. *)
Theorem resolved_counters (anomalyId : string)
  (st : AnomaliesPage.PageState AnomalyFlag Breakdown) prev :
  anomalyStats st = Some prev ->
  exists next,
    anomalyStats (handleAnomalyResolved id anomalyId st) = Some next
    /\ 0 <= unresolvedAnomalies next
    /\ totalAnomalies next = totalAnomalies prev
    /\ (unresolvedAnomalies next + resolvedAnomalies next
        = unresolvedAnomalies prev + resolvedAnomalies prev
        <-> 1 <= unresolvedAnomalies prev)
    /\ exists again,
         anomalyStats (handleAnomalyResolved id anomalyId
                         (handleAnomalyResolved id anomalyId st)) = Some again
         /\ resolvedAnomalies again = resolvedAnomalies prev + 2
         /\ anomalies (handleAnomalyResolved id anomalyId
                         (handleAnomalyResolved id anomalyId st))
            = anomalies (handleAnomalyResolved id anomalyId st).
Proof.
  intros Hprev. unfold handleAnomalyResolved at 1. rewrite Hprev. eexists.
  split; [reflexivity|]. cbn [unresolvedAnomalies resolvedAnomalies totalAnomalies].
  split; [lia|]. split; [reflexivity|]. split; [lia|].
  unfold handleAnomalyResolved. rewrite Hprev. cbn [anomalyStats anomalies]. eexists.
  split; [reflexivity|]. cbn [resolvedAnomalies]. split; [lia|].
  induction (anomalies st) as [|a l IH]; [reflexivity|].
  cbn [List.filter]. destruct (negb (String.eqb (id a) anomalyId)) eqn:Ha.
  - cbn [List.filter]. rewrite Ha. now f_equal.
  - exact IH.
Qed.

End Page.
End ResolveFlow.

Lemma resolved_counters_witness :
  exists next,
    AnomaliesPage.anomalyStats
      (AnomaliesPage.handleAnomalyResolved (Breakdown := unit) fst "a1"
         {| AnomaliesPage.anomalies := [("a1", 1); ("a2", 2)];
            AnomaliesPage.anomalyStats :=
              Some {| AnomaliesPage.totalAnomalies := 2;
                      AnomaliesPage.unresolvedAnomalies := 0;
                      AnomaliesPage.resolvedAnomalies := 2;
                      AnomaliesPage.breakdown := tt |};
            AnomaliesPage.processingAnomaly := None;
            AnomaliesPage.showAnomalyProcessor := false |})
    = Some next
    /\ AnomaliesPage.unresolvedAnomalies next = 0
    /\ AnomaliesPage.resolvedAnomalies next = 3.
Proof.
  destruct (resolved_counters (AnomalyFlag := string * Z) (Breakdown := unit) fst "a1"
              {| AnomaliesPage.anomalies := [("a1", 1); ("a2", 2)];
                 AnomaliesPage.anomalyStats :=
                   Some {| AnomaliesPage.totalAnomalies := 2;
                           AnomaliesPage.unresolvedAnomalies := 0;
                           AnomaliesPage.resolvedAnomalies := 2;
                           AnomaliesPage.breakdown := tt |};
                 AnomaliesPage.processingAnomaly := None;
                 AnomaliesPage.showAnomalyProcessor := false |}
              _ eq_refl) as (next & Hnext & _).
  exists next. split; [exact Hnext|].
  cbn in Hnext. injection Hnext as <-. split; reflexivity.
Defined.
(** ** The rows shown on the page of API requests *)

Lemma prefix_refl (s : string) : String.prefix s s = true.
Proof.
  induction s as [|c s IH]; [reflexivity|]. cbn [String.prefix].
  destruct (ascii_dec c c) as [_|Hne]; [exact IH | now destruct Hne].
Qed.

Lemma includes_refl (s : string) : includes s s = true.
Proof. destruct s; cbn [includes]; now rewrite prefix_refl. Qed.

Section RequestRows.
Import ApiRequestsPage RequestList.
Context {ApiRequest Date : Type}
  (requestType : ApiRequest -> option string)
  (succeeded : ApiRequest -> bool)
  (endpoint userId : ApiRequest -> string)
  (toLowerCase : string -> string).

(** X17. With an empty search box, status "all" and empty endpoint and
    user filters, every request of the list is shown, in the order of the
    list; and with a search term that is not empty, no request without a
    [requestType] is shown, whatever the other filters are. *)
Theorem filters_off_show_everything (st : PageState ApiRequest Date) :
  (searchTerm st = "" -> statusFilter st = all -> endpointFilter st = ""
   -> userIdFilter st = "" ->
   filteredRequests requestType succeeded endpoint userId toLowerCase st = requests st)
  /\ (searchTerm st <> "" ->
      forall request,
        In request (filteredRequests requestType succeeded endpoint userId toLowerCase st) ->
        requestType request <> None).
Proof.
  split.
  - intros Hs Hf He Hu. unfold filteredRequests.
    apply forallb_filter_id. apply forallb_forall. intros request _.
    unfold shown. rewrite Hs, Hf, He, Hu. reflexivity.
  - intros Hs request Hin Hnone. apply filter_In in Hin. destruct Hin as [_ Hshown].
    unfold shown in Hshown. rewrite Hnone in Hshown.
    apply String.eqb_neq in Hs. rewrite Hs in Hshown. discriminate Hshown.
Qed.

(** X18. The two buttons of the details of a shown request.  "View
    user" leaves the request on the list, closes the details and, when the
    request has a user id, leaves only requests of that user; "view
    similar requests" leaves the request on the list, closes the details
    and, when the request has an endpoint, leaves only requests whose
    endpoint contains the endpoint of the request. *)
Theorem details_buttons_narrow_the_list (st : PageState ApiRequest Date) (request : ApiRequest) :
  In request (filteredRequests requestType succeeded endpoint userId toLowerCase st) ->
  let by_user := step endpoint st (ViewUser (userId request)) in
  let by_endpoint := step endpoint st (ViewSimilarRequests request) in
  (In request (filteredRequests requestType succeeded endpoint userId toLowerCase by_user)
   /\ isModalOpen by_user = false
   /\ (userId request <> "" ->
       forall r,
         In r (filteredRequests requestType succeeded endpoint userId toLowerCase by_user) ->
         userId r = userId request))
  /\ (In request
        (filteredRequests requestType succeeded endpoint userId toLowerCase by_endpoint)
      /\ isModalOpen by_endpoint = false
      /\ (endpoint request <> "" ->
          forall r,
            In r (filteredRequests requestType succeeded endpoint userId toLowerCase
                    by_endpoint) ->
            includes (endpoint r) (endpoint request) = true)).
Proof.
  intros Hin by_user by_endpoint. subst by_user by_endpoint.
  apply filter_In in Hin. destruct Hin as [Hin Hshown].
  unfold filteredRequests, step. cbn [setters fold_left apply requests isModalOpen].
  unfold shown in *.
  cbn [searchTerm statusFilter endpointFilter userIdFilter].
  destruct (negb (String.eqb (searchTerm st) "")
            && negb match requestType request with
                    | Some t => includes (toLowerCase t) (toLowerCase (searchTerm st))
                    | None => false
                    end) eqn:Hsearch; [discriminate Hshown|].
  destruct (match statusFilter st with success => negb (succeeded request) | _ => false end)
    eqn:Hsucc; [discriminate Hshown|].
  destruct (match statusFilter st with error => succeeded request | _ => false end)
    eqn:Herr; [discriminate Hshown|].
  destruct (negb (String.eqb (endpointFilter st) "")
            && negb (includes (endpoint request) (endpointFilter st))) eqn:Hend;
    [discriminate Hshown|].
  destruct (negb (String.eqb (userIdFilter st) "")
            && negb (String.eqb (userId request) (userIdFilter st))) eqn:Huser;
    [discriminate Hshown|].
  split; (split; [|split; [reflexivity|]]).
  - apply filter_In. split; [exact Hin|].
    rewrite Hsearch, Hsucc, Herr, Hend, String.eqb_refl, andb_false_r. reflexivity.
  - intros Hne r Hr. apply filter_In in Hr. destruct Hr as [_ Hr].
    apply String.eqb_neq in Hne. rewrite Hne in Hr.
    destruct (String.eqb (userId r) (userId request)) eqn:Heq.
    + now apply String.eqb_eq.
    + cbn [negb andb] in Hr.
      repeat match type of Hr with (if ?c then _ else _) = _ => destruct c end;
        discriminate Hr.
  - apply filter_In. split; [exact Hin|].
    rewrite Hsearch, Hsucc, Herr, includes_refl, andb_false_r, Huser. reflexivity.
  - intros Hne r Hr. apply filter_In in Hr. destruct Hr as [_ Hr].
    apply String.eqb_neq in Hne. rewrite Hne in Hr.
    destruct (includes (endpoint r) (endpoint request)); [reflexivity|].
    cbn [negb andb] in Hr.
    repeat match type of Hr with (if ?c then _ else _) = _ => destruct c end;
      discriminate Hr.
Qed.

End RequestRows.

Lemma filters_off_show_everything_witness :
  let rows := [(Some "FOOTPRINT", true, "/v1/footprint", "u1");
               (None, false, "/v1/orders", "u2")] in
  RequestList.filteredRequests (fun r => fst (fst (fst r))) (fun r => snd (fst (fst r)))
    (fun r => snd (fst r)) snd (fun s => s)
    (ApiRequestsPage.step (fun r => snd (fst r)) (ApiRequestsPage.initial None)
       (ApiRequestsPage.FetchSucceeded rows tt))
  = rows.
Proof.
  intros rows.
  apply (proj1 (filters_off_show_everything
                  (fun r => fst (fst (fst r))) (fun r => snd (fst (fst r)))
                  (fun r => snd (fst r)) snd (fun s => s)
                  (ApiRequestsPage.step (fun r => snd (fst r)) (ApiRequestsPage.initial None)
                     (ApiRequestsPage.FetchSucceeded rows tt))));
    reflexivity.
Defined.

Lemma details_buttons_narrow_the_list_witness :
  let rows := [(Some "FOOTPRINT", true, "/v1/footprint", "u1");
               (None, false, "/v1/orders", "u2");
               (Some "FOOTPRINT", false, "/v1/footprint/batch", "u2")] in
  let st := ApiRequestsPage.step (fun r => snd (fst r)) (ApiRequestsPage.initial None)
              (ApiRequestsPage.FetchSucceeded rows tt) in
  let request := (Some "FOOTPRINT", true, "/v1/footprint", "u1") in
  RequestList.filteredRequests (fun r => fst (fst (fst r))) (fun r => snd (fst (fst r)))
    (fun r => snd (fst r)) snd (fun s => s)
    (ApiRequestsPage.step (fun r => snd (fst r)) st (ApiRequestsPage.ViewUser "u1"))
  = [request]
  /\ forall r,
       In r (RequestList.filteredRequests (fun r => fst (fst (fst r)))
               (fun r => snd (fst (fst r))) (fun r => snd (fst r)) snd (fun s => s)
               (ApiRequestsPage.step (fun r => snd (fst r)) st
                  (ApiRequestsPage.ViewSimilarRequests request))) ->
       includes (snd (fst r)) "/v1/footprint" = true.
Proof.
  intros rows st request. split; [reflexivity|].
  refine (proj2 (proj2 (proj2
            (details_buttons_narrow_the_list
               (fun r => fst (fst (fst r))) (fun r => snd (fst (fst r)))
               (fun r => snd (fst r)) snd (fun s => s) st request _))) _).
  - left. reflexivity.
  - discriminate.
Defined.
(** ** The components with their routes *)

Section Clients.
Context {W : Type} (host : Host W) (env : ProcessEnv) (origin : string)
  (browser : Engine).

(** X19. [handleSignInAs] against the impersonate route.  The component
    either opens, in a new tab, the magic link made of the app URL, the
    user id and the token that was signed, or shows "Failed to generate
    magic link"; it never shows an error text of the route, since the
    route puts its errors under a status that [axios] rejects.  At the end
    [signingIn] is off.  For an empty user id nothing leaves the server
    and nothing is signed. *)
Theorem sign_in_opens_the_link_or_fails (userId : string) (st : State W) :
  exists effects st',
    SignInAs.handleSignInAs host env origin browser userId st = (inl effects, st')
    /\ (userId = "" -> st' = st)
    /\ effects
       = [SignInAs.SetSigningIn true; SignInAs.SetSignInError JNull]
         ++ match SignInAs.signed (new_events st st') with
            | [token] =>
                [SignInAs.WindowOpen
                   (JStr (or_else (NEXT_PUBLIC_APP_URL env) "https://app.cooler.dev"
                            +:+ "/transactions?impersonate=" +:+ userId
                            +:+ "&token=" +:+ token))
                   "_blank"]
            | _ => [SignInAs.SetSignInError (JStr "Failed to generate magic link")]
            end
         ++ [SignInAs.SetSigningIn false].
Proof.
  unfold SignInAs.handleSignInAs, Impersonate.POST, Impersonate.randomUUID,
    Impersonate.sign, timestamp, Db.now, SignInAs.request.
  cbn [headers pairs_get json_body String.eqb Ascii.eqb Bool.eqb rejects orb negb].
  unfold attempt, thrown.
  cbn [destructure get_field String.eqb Ascii.eqb Bool.eqb default from_option].
  unfold lift. cbn [truthy template_string].
  run_paths.
  all: repeat match goal with
              | H : destructure (JObj _) _ = _ |- _ =>
                  cbn in H; first [discriminate H | injection H as <-]
              | H : template_string _ (JStr _) = _ |- _ =>
                  cbn in H; first [discriminate H | injection H as <-]
              end.
  all: repeat match goal with
              | H : SignInAs.answered _ _ = _ |- _ =>
                  vm_compute in H; first [discriminate H | injection H as <-]
              end.
  all: eexists _, _; split; [reflexivity|].
  all: path_added.
  all: split;
    [ first [ reflexivity
            | intros ->;
              match goal with H : negb (truthy _) = false |- _ => discriminate H end ]
    | ].
  all: cbn [SignInAs.signed flat_map app].
  all: reflexivity.
Qed.
End Clients.

(** The reshaped transactions as the preview receives them. *)
Lemma wire_reshaped_array (l : list JsVal) :
  wire (JArr (map Transactions.reshaped l))
  = JArr (map (fun tx => wire (Transactions.reshaped tx)) l).
Proof.
  induction l as [|tx l IH]; [reflexivity|]. cbn [map].
  change (wire (JArr (Transactions.reshaped tx :: map Transactions.reshaped l)))
    with (match wire (JArr (map Transactions.reshaped l)) with
          | JArr r => JArr (wire (Transactions.reshaped tx) :: r)
          | v => v
          end).
  now rewrite IH.
Qed.

Lemma segment_nonempty (s : string) : TransactionPreview.segment s = true -> s <> "".
Proof. intros Hs ->. discriminate Hs. Qed.

Section PreviewFacts.
Context {W : Type} (host : Host W) (env : ProcessEnv) (origin : string)
  (browser : Engine).

(** What the transactions route answers to an authorised request for a
    user: after one call of the upstream it either answers 200 with at
    most seven reshaped transactions, or with a status that is not from
    200 to 299. *)
Lemma transactions_answer request params st :
  pairs_get (headers request) "authorization" = Some "Bearer Bearit01!" ->
  userId params <> "" ->
  exists out resp st',
    Transactions.GET host env request params st = (inl resp, st')
    /\ fetches (new_events st st')
       = [({| fetch_url :=
                or_else (NEXT_PUBLIC_API_URL env) "https://api.cooler.dev"
                  +:+ "/admin/customers/" +:+ userId params +:+ "/database-counts";
              fetch_method := "GET";
              fetch_headers := [("Authorization", "Bearer Bearit01!");
                                ("Content-Type", "application/json")];
              fetch_timeout := None |}, out)]
    /\ ((exists items totalCount ts,
           resp = NextResponse_json
                    (JObj [("success", JBool true);
                           ("userId", JStr (userId params));
                           ("transactions",
                            JArr (map Transactions.reshaped (firstn 7 items)));
                           ("totalCount", totalCount);
                           ("timestamp", JStr ts)])
           /\ fetch_succeeded out = true)
        \/ (200 <=? status resp) && (status resp <=? 299) = false).
Proof.
  intros Hauth Hne. apply String.eqb_neq in Hne.
  unfold Transactions.GET, Transactions.slice_0_7_map, timestamp, Db.now, fetch.
  rewrite (bearer_passes request Hauth), Hne.
  run_paths.
  all: repeat match goal with
              | H : Transactions.map_M _ _ _ = _ |- _ =>
                  rewrite map_M_reshape_run in H;
                  match type of H with
                  | match ?c with _ => _ end = _ => destruct c eqn:?
                  end;
                  first [ discriminate H | injection H as ? ?; subst ]
              end.
  all: eexists _, _, _; split; [reflexivity|].
  all: path_added; cbn [fetches flat_map app].
  all: split; [reflexivity|].
  all: first
         [ right; reflexivity
         | right; cbn [status NextResponse_json_status]; now apply negb_true_iff
         | left; eexists _, _, _; split; [reflexivity|];
           cbn [fetch_succeeded]; now apply negb_false_iff ].
Qed.

Lemma axios_rejects (resp : NextResponse) :
  (200 <=? status resp) && (status resp <=? 299) = false ->
  exists e, axios_data resp = inr e.
Proof. intros H. unfold axios_data. rewrite H. eexists; reflexivity. Qed.

(** X20. [fetchTransactions] of the preview against the transactions
    route, for a user id that is one path segment (letters, digits, [-]
    and [_]).  The route calls the upstream once, for the counts of that
    user.  The preview then either takes over at most seven transactions,
    each as the route reshaped it and as JSON carries it (the fields that
    were missing upstream are absent), or shows "Failed to fetch
    transactions"; it never shows an error text of the route.  At the end
    [loading] is off. *)
Theorem preview_takes_at_most_seven (userId : string) (st : State W) :
  TransactionPreview.segment userId = true ->
  exists effects st' out,
    TransactionPreview.fetchTransactions host env origin browser userId st
    = (inl effects, st')
    /\ fetches (new_events st st')
       = [({| fetch_url :=
                or_else (NEXT_PUBLIC_API_URL env) "https://api.cooler.dev"
                  +:+ "/admin/customers/" +:+ userId +:+ "/database-counts";
              fetch_method := "GET";
              fetch_headers := [("Authorization", "Bearer Bearit01!");
                                ("Content-Type", "application/json")];
              fetch_timeout := None |}, out)]
    /\ ((exists items,
           effects
           = [TransactionPreview.SetLoading true;
              TransactionPreview.SetError JNull;
              TransactionPreview.SetTransactions
                (JArr (map (fun tx => wire (Transactions.reshaped tx)) (firstn 7 items)));
              TransactionPreview.SetLoading false]
           /\ (length (firstn 7 items) <= 7)%nat
           /\ fetch_succeeded out = true)
        \/ effects
           = [TransactionPreview.SetLoading true;
              TransactionPreview.SetError JNull;
              TransactionPreview.SetError (JStr "Failed to fetch transactions");
              TransactionPreview.SetLoading false]).
Proof.
  intros Hsegment. apply segment_nonempty in Hsegment.
  destruct (transactions_answer (TransactionPreview.request origin userId)
              {| Http.userId := userId |} st eq_refl Hsegment)
    as (out & resp & st' & Hrun & Hfetches & Hresp).
  cbn [Http.userId] in Hfetches, Hresp.
  unfold TransactionPreview.fetchTransactions.
  rewrite (bind_inl _ _ _ _ _ Hrun), ret_run.
  eexists _, st', out. split; [reflexivity|]. split; [exact Hfetches|].
  destruct Hresp as [(items & totalCount & ts & -> & Hok)|Hrejected].
  - left. exists items. split; [|split; [apply firstn_le_length | exact Hok]].
    rewrite <- wire_reshaped_array. reflexivity.
  - right. destruct (axios_rejects resp Hrejected) as [e ->]. reflexivity.
Qed.

End PreviewFacts.

Lemma preview_takes_at_most_seven_witness :
  exists effects st',
    TransactionPreview.fetchTransactions Lab.host Sim.env "http://localhost:3000"
      Sim.sim_engine "u4" Lab.start
    = (inl effects, st')
    /\ exists txs,
         nth_error effects 2 = Some (TransactionPreview.SetTransactions (JArr txs))
         /\ length txs = 7%nat.
Proof.
  destruct (preview_takes_at_most_seven Lab.host Sim.env "http://localhost:3000"
              Sim.sim_engine "u4" Lab.start eq_refl)
    as (effects & st' & out & Hrun & _ & _).
  exists effects, st'. split; [exact Hrun|].
  vm_compute in Hrun. injection Hrun as <- _.
  eexists. split; reflexivity.
Defined.
(** ** The button that clears the database *)

Lemma filter_all {A} (f : A -> bool) (l : list A) :
  forallb f l = true -> List.filter f l = l.
Proof.
  induction l as [|a l IH]; [reflexivity|]. cbn [forallb List.filter].
  destruct (f a); [|discriminate]. cbn [andb]. intros Hl. now rewrite (IH Hl).
Qed.

Section DashboardFacts.
Import ClearDatabase.
Context {W : Type} (host : Host W) (env buildEnv : ProcessEnv) (origin : string)
  (browser : Engine).

(** The answer of clear-database past the gate, with its message. *)
Lemma clear_database_message request st :
  let expected := or_else (NEXT_PUBLIC_ADMIN_PASSWORD env) "admin123" in
  let baseUrl := replace_first "/api/clear-database" "" (url request) in
  pairs_get (headers request) "admin-password" = Some expected ->
  exists outs w errs results summary,
    POST host env request st
    = (inl (NextResponse_json
              (JObj [("success", JBool (forallb fetch_succeeded outs));
                     ("message",
                      JStr (if forallb fetch_succeeded outs
                            then "Successfully cleared 6/6 database tables"
                            else "Cleared "
                                   +:+ pretty (Z.of_nat
                                                 (length (List.filter fetch_succeeded outs)))
                                   +:+ "/6 database tables with some errors"));
                     ("results", results_value results);
                     ("summary", JObj summary)])),
       after st w (fetch_events (step_requests baseUrl expected) outs) errs)
    /\ length outs = 6%nat.
Proof.
  intros expected baseUrl Hgiven.
  assert (Hgate : rejects (pairs_get (headers request) "admin-password") expected = false).
  { apply rejects_false_iff; [apply admin_password_nonempty | exact Hgiven]. }
  destruct (clear_steps_run host baseUrl expected steps initial_results st)
    as (outs & w & errs & Hsteps & Hlen).
  change (length steps) with 6%nat in Hlen.
  set (results := record_outcomes (combine (map fst steps) outs) initial_results) in *.
  pose proof (six_flags outs Hlen) as Hflags. fold results in Hflags.
  destruct (six_counts (map fetch_succeeded outs)) as (Htotal & Hcleared & Hall).
  { now rewrite length_map. }
  rewrite <- Hflags in Htotal, Hcleared, Hall.
  rewrite filter_map_id in Hcleared. rewrite forallb_map_id in Hall.
  exists outs, w, errs, results. eexists. split; [|exact Hlen].
  unfold POST. fold expected. rewrite Hgate, Hgiven. cbn [default from_option].
  fold baseUrl.
  erewrite try_catch_inl; [reflexivity|].
  rewrite (bind_inl _ _ _ _ _ Hsteps), ret_run.
  rewrite successCount_flags, totalCount_flags, Htotal, Hcleared.
  change (Z.of_nat 6) with 6. rewrite <- Hcleared, Hall, Hcleared.
  unfold step_requests.
  destruct (forallb fetch_succeeded outs) eqn:Hevery; [|reflexivity].
  rewrite (filter_all _ _ Hevery), Hlen. reflexivity.
Qed.

(** X21. The button "clear database" of the dashboard against the
    clear-database route.  Without the confirmation nothing is sent.  With
    it, and with the password the page was built with equal to the one the
    server expects, the six sub-requests are made and the user is told
    "Successfully cleared 6/6 database tables" when all six succeeded, and
    otherwise only "Failed to clear database": the message of the route
    that counts the cleared tables is not shown, because the page reads
    [result.error], which that answer does not have.  With a different
    password the user is told "Unauthorized" and nothing is sent on.
    [isClearingDatabase] is off at the end. *)
Theorem clear_button_reports (st : State W) :
  let password := or_else (NEXT_PUBLIC_ADMIN_PASSWORD buildEnv) "admin123" in
  let baseUrl := replace_first "/api/clear-database" "" (origin +:+ "/api/clear-database") in
  Dashboard.clearDatabase host env buildEnv origin browser false st = (inl [], st)
  /\ if String.eqb password (or_else (NEXT_PUBLIC_ADMIN_PASSWORD env) "admin123") then
       exists outs st',
         Dashboard.clearDatabase host env buildEnv origin browser true st
         = (inl [Dashboard.SetIsClearingDatabase true;
                 Dashboard.Alert
                   (if forallb fetch_succeeded outs
                    then "✅ Successfully cleared 6/6 database tables" +:+ nl +:+ nl
                           +:+ "Check console for detailed results."
                    else "❌ Failed to clear database" +:+ nl +:+ nl
                           +:+ "Check console for details.");
                 Dashboard.SetIsClearingDatabase false],
            st')
         /\ length outs = 6%nat
         /\ fetches (new_events st st') = combine (step_requests baseUrl password) outs
     else
       Dashboard.clearDatabase host env buildEnv origin browser true st
       = (inl [Dashboard.SetIsClearingDatabase true;
               Dashboard.Alert ("❌ Unauthorized" +:+ nl +:+ nl
                                  +:+ "Check console for details.");
               Dashboard.SetIsClearingDatabase false],
          st).
Proof.
  intros password baseUrl. split; [reflexivity|].
  destruct (String.eqb password (or_else (NEXT_PUBLIC_ADMIN_PASSWORD env) "admin123"))
    eqn:Hsame.
  - apply String.eqb_eq in Hsame.
    destruct (clear_database_message (Dashboard.request buildEnv origin) st)
      as (outs & w & errs & results & summary & Hrun & Hlen).
    { cbn [Dashboard.request headers pairs_get String.eqb Ascii.eqb Bool.eqb].
      f_equal. exact Hsame. }
    exists outs. eexists. split; [|split; [exact Hlen|]].
    + unfold Dashboard.clearDatabase. cbn [negb].
      rewrite (bind_inl _ _ _ _ _ Hrun), ret_run.
      destruct (forallb fetch_succeeded outs); reflexivity.
    + rewrite new_events_after, fetches_fetch_events.
      cbn [Dashboard.request url]. fold baseUrl. now rewrite <- Hsame.
  - assert (Hgate : rejects (pairs_get (headers (Dashboard.request buildEnv origin))
                               "admin-password")
                       (or_else (NEXT_PUBLIC_ADMIN_PASSWORD env) "admin123") = true).
    { change (pairs_get (headers (Dashboard.request buildEnv origin)) "admin-password")
        with (Some password).
      cbn [rejects]. rewrite Hsame. apply orb_true_r. }
    unfold Dashboard.clearDatabase, POST. rewrite Hgate. reflexivity.
Qed.

End DashboardFacts.

Section RequestsFacts.
Import RequestsClients.
Context {W : Type} (host : Host W) (env : ProcessEnv) (origin : string)
  (browser : Engine).

(** What the api-requests route answers: after one call of the upstream
    it either answers 200 with the body of the upstream under [data], or
    with a status that is not from 200 to 299. *)
Lemma api_requests_answer request st :
  let limit := or_else (pairs_get (searchParams request) "limit") "100" in
  let user := default "" (pairs_get (searchParams request) "userId") in
  let base := or_else (NEXT_PUBLIC_API_URL env) "https://api.cooler.dev" in
  exists out resp st',
    ApiRequests.GET host env request st = (inl resp, st')
    /\ fetches (new_events st st')
       = [({| fetch_url :=
                if String.eqb user ""
                then base +:+ "/admin/api-requests/recent?limit=" +:+ limit
                else base +:+ "/admin/customers/" +:+ user
                       +:+ "/api-requests/recent?limit=" +:+ limit;
              fetch_method := "GET";
              fetch_headers := [("Authorization", "Bearer Bearit01!");
                                ("Content-Type", "application/json")];
              fetch_timeout := None |}, out)]
    /\ ((exists up data ts,
           out = inl up /\ ok up = true /\ resp_json up = inl data
           /\ resp = NextResponse_json
                       (JObj [("success", JBool true);
                              ("data", data);
                              ("timestamp", JStr ts)]))
        \/ (200 <=? status resp) && (status resp <=? 299) = false).
Proof.
  intros limit user base.
  unfold ApiRequests.GET, timestamp, Db.now, fetch. fold limit base.
  match goal with
  | |- context [Build_FetchRequest ?u _ _ _] =>
      replace u with (if String.eqb user ""
                      then base +:+ "/admin/api-requests/recent?limit=" +:+ limit
                      else base +:+ "/admin/customers/" +:+ user
                             +:+ "/api-requests/recent?limit=" +:+ limit)
  end.
  2: { unfold user. destruct (pairs_get (searchParams request) "userId") as [u|];
       reflexivity. }
  generalize (if String.eqb user ""
              then base +:+ "/admin/api-requests/recent?limit=" +:+ limit
              else base +:+ "/admin/customers/" +:+ user
                     +:+ "/api-requests/recent?limit=" +:+ limit).
  intros target.
  run_paths.
  all: eexists _, _, _; split; [reflexivity|].
  all: path_added; cbn [fetches flat_map app].
  all: split; [reflexivity|].
  all: first
         [ right; reflexivity
         | right; cbn [status NextResponse_json_status]; now apply negb_true_iff
         | left; eexists _, _, _; split; [reflexivity|];
           split; [now apply negb_false_iff|]; split; [eassumption | reflexivity] ].
Qed.

(** X22. [fetchApiRequests] of the page against the api-requests route,
    for a user filter that is empty or one path segment.  The route calls
    the upstream once, with limit 100, for all users when the filter is
    empty and for that user otherwise.  The page then either takes the
    body of the upstream as its rows ([[]] when it is falsy), or shows
    "Failed to fetch API requests"; it never shows an error text of the
    route.  At the end [loading] is off. *)
Theorem page_takes_upstream_rows (userIdFilter : string) (st : State W) :
  userIdFilter = "" \/ TransactionPreview.segment userIdFilter = true ->
  let base := or_else (NEXT_PUBLIC_API_URL env) "https://api.cooler.dev" in
  exists effects st' out,
    fetchApiRequests host env origin browser userIdFilter st = (inl effects, st')
    /\ fetches (new_events st st')
       = [({| fetch_url :=
                if String.eqb userIdFilter ""
                then base +:+ "/admin/api-requests/recent?limit=100"
                else base +:+ "/admin/customers/" +:+ userIdFilter
                       +:+ "/api-requests/recent?limit=100";
              fetch_method := "GET";
              fetch_headers := [("Authorization", "Bearer Bearit01!");
                                ("Content-Type", "application/json")];
              fetch_timeout := None |}, out)]
    /\ ((exists up data,
           out = inl up /\ ok up = true /\ resp_json up = inl data
           /\ effects = [SetError JNull;
                         SetRequests (js_or (wire data) (JArr []));
                         SetLastUpdated;
                         SetLoading false])
        \/ effects = [SetError JNull;
                      SetError (JStr "Failed to fetch API requests");
                      SetLoading false]).
Proof.
  intros _ base.
  destruct (api_requests_answer (page_request origin userIdFilter) st)
    as (out & resp & st' & Hrun & Hfetches & Hresp).
  unfold fetchApiRequests. rewrite (bind_inl _ _ _ _ _ Hrun), ret_run.
  eexists _, st', out. split; [reflexivity|]. split.
  - rewrite Hfetches. unfold page_request. cbn [searchParams].
    destruct (String.eqb userIdFilter "") eqn:Hempty.
    + reflexivity.
    + cbn [pairs_get String.eqb Ascii.eqb Bool.eqb default from_option id or_else].
      rewrite Hempty. reflexivity.
  - destruct Hresp as [(up & data & ts & -> & Hok & Hjson & ->)|Hrejected].
    + left. exists up, data. repeat split; try assumption.
      destruct data; reflexivity.
    + right. destruct (axios_rejects resp Hrejected) as [e ->]. reflexivity.
Qed.

(** X23. [fetchCustomerApiRequests] of the dashboard against the
    api-requests route, for a user id that is one path segment.  The route
    calls the upstream once, for that user with limit 50.  The dashboard
    then takes the body of the upstream as the requests of the customer
    ([[]] when it is falsy), and on any failure it empties the list.  At
    the end [loadingApiRequests] is off. *)
Theorem dashboard_takes_customer_rows (userId : string) (st : State W) :
  TransactionPreview.segment userId = true ->
  exists effects st' out,
    fetchCustomerApiRequests host env origin browser userId st = (inl effects, st')
    /\ fetches (new_events st st')
       = [({| fetch_url :=
                or_else (NEXT_PUBLIC_API_URL env) "https://api.cooler.dev"
                  +:+ "/admin/customers/" +:+ userId +:+ "/api-requests/recent?limit=50";
              fetch_method := "GET";
              fetch_headers := [("Authorization", "Bearer Bearit01!");
                                ("Content-Type", "application/json")];
              fetch_timeout := None |}, out)]
    /\ ((exists up data,
           out = inl up /\ ok up = true /\ resp_json up = inl data
           /\ effects = [SetLoadingApiRequests true;
                         SetCustomerApiRequests (js_or (wire data) (JArr []));
                         SetLoadingApiRequests false])
        \/ effects = [SetLoadingApiRequests true;
                      SetCustomerApiRequests (JArr []);
                      SetLoadingApiRequests false]).
Proof.
  intros Hsegment. apply segment_nonempty, String.eqb_neq in Hsegment.
  destruct (api_requests_answer (dashboard_request origin userId) st)
    as (out & resp & st' & Hrun & Hfetches & Hresp).
  unfold fetchCustomerApiRequests. rewrite (bind_inl _ _ _ _ _ Hrun), ret_run.
  eexists _, st', out. split; [reflexivity|]. split.
  - rewrite Hfetches. unfold dashboard_request.
    cbn [searchParams pairs_get String.eqb Ascii.eqb Bool.eqb default from_option id
         or_else].
    rewrite Hsegment. reflexivity.
  - destruct Hresp as [(up & data & ts & -> & Hok & Hjson & ->)|Hrejected].
    + left. exists up, data. repeat split; try assumption.
      destruct data; reflexivity.
    + right. destruct (axios_rejects resp Hrejected) as [e ->]. reflexivity.
Qed.

End RequestsFacts.

(** Signing in as customer [u4]. *)
Example sign_in_as_u4 :
  exists st',
    SignInAs.handleSignInAs Lab.host Sim.env "http://localhost:3000" Sim.sim_engine "u4" Lab.start
    = (inl [SignInAs.SetSigningIn true;
            SignInAs.SetSignInError JNull;
            SignInAs.WindowOpen
              (JStr "https://app.cooler.dev/transactions?impersonate=u4&token=jwt.u4.5m")
              "_blank";
            SignInAs.SetSigningIn false],
       st').
Proof. eexists. vm_compute. reflexivity. Qed.

(** The button after three of the six sub-requests succeeded. *)
Example clear_button_after_three_of_six :
  exists st',
    Dashboard.clearDatabase Sim.host Sim.env Sim.env "http://admin.local" Sim.sim_engine
      true Sim.start
    = (inl [Dashboard.SetIsClearingDatabase true;
            Dashboard.Alert ("❌ Failed to clear database" +:+ nl +:+ nl
                               +:+ "Check console for details.");
            Dashboard.SetIsClearingDatabase false],
       st').
Proof. eexists. vm_compute. reflexivity. Qed.

Lemma page_takes_upstream_rows_witness :
  exists st',
    RequestsClients.fetchApiRequests Lab.host Sim.env "http://localhost:3000"
      Sim.sim_engine "" Lab.start
    = (inl [RequestsClients.SetError JNull;
            RequestsClients.SetRequests
              (JArr [JObj [("id", JStr "r1"); ("userId", JStr "u3")];
                     JObj [("id", JStr "r2"); ("userId", JStr "u4")]]);
            RequestsClients.SetLastUpdated;
            RequestsClients.SetLoading false],
       st').
Proof.
  destruct (page_takes_upstream_rows Lab.host Sim.env "http://localhost:3000"
              Sim.sim_engine "" Lab.start (or_introl eq_refl))
    as (effects & st' & out & Hrun & _ & _).
  exists st'. rewrite Hrun. vm_compute in Hrun. injection Hrun as <- _. reflexivity.
Defined.

Lemma dashboard_takes_customer_rows_witness :
  exists st',
    RequestsClients.fetchCustomerApiRequests Lab.host Sim.env "http://localhost:3000"
      Sim.sim_engine "u4" Lab.start
    = (inl [RequestsClients.SetLoadingApiRequests true;
            RequestsClients.SetCustomerApiRequests (JArr []);
            RequestsClients.SetLoadingApiRequests false],
       st').
Proof.
  destruct (dashboard_takes_customer_rows Lab.host Sim.env "http://localhost:3000"
              Sim.sim_engine "u4" Lab.start eq_refl)
    as (effects & st' & out & Hrun & _ & _).
  exists st'. rewrite Hrun. vm_compute in Hrun. injection Hrun as <- _. reflexivity.
Defined.


(** ** The login form and the gate *)

(** X24. The login form and the gate of the clearing routes agree: with
    the page built in the environment of the server, [handleLogin] sets
    [isAuthenticated] exactly for the passwords that the routes accept in
    the [admin-password] header; for every other password it shows
    "Invalid password" and starts no fetch.  The text "Login failed" is
    never shown. *)
Theorem login_agrees_with_the_gate (env : ProcessEnv) (password : string) :
  let expected := or_else (NEXT_PUBLIC_ADMIN_PASSWORD env) "admin123" in
  (In (Login.SetIsAuthenticated true) (Login.handleLogin env password)
   <-> rejects (Some password) expected = false)
  /\ (rejects (Some password) expected = true ->
      Login.handleLogin env password
      = [Login.SetLoading true; Login.SetError ""; Login.SetError "Invalid password";
         Login.SetLoading false])
  /\ ~ In (Login.SetError "Login failed") (Login.handleLogin env password).
Proof.
  intros expected. unfold Login.handleLogin. fold expected.
  pose proof (admin_password_nonempty env) as Hne. fold expected in Hne.
  unfold rejects.
  destruct (String.eqb password expected) eqn:Hsame.
  - apply String.eqb_eq in Hsame. subst password.
    apply String.eqb_neq in Hne. rewrite Hne. cbn.
    split; [|split]; [tauto | discriminate | intuition discriminate].
  - rewrite orb_true_r. cbn.
    split; [|split]; [|reflexivity | intuition discriminate].
    split; [intuition discriminate | discriminate].
Qed.

Lemma login_agrees_with_the_gate_witness :
  Login.handleLogin Sim.env "letmein"
  = [Login.SetLoading true; Login.SetError ""; Login.SetError "Invalid password";
     Login.SetLoading false].
Proof.
  apply (proj1 (proj2 (login_agrees_with_the_gate Sim.env "letmein"))). reflexivity.
Defined.

(** ** The base URL of clear-database *)

Lemma prefix_app (p q : string) : String.prefix p (p +:+ q) = true.
Proof.
  induction p as [|c p IH]; [now destruct q|].
  simpl.
  destruct (ascii_dec c c) as [_|Hne]; [exact IH | now destruct Hne].
Qed.

Lemma substring_all (s : string) : String.substring 0 (String.length s) s = s.
Proof. induction s as [|c s IH]; [reflexivity|]. cbn. now rewrite IH. Qed.

Lemma substring_after (p q : string) :
  String.substring (String.length p) (String.length (p +:+ q) - String.length p) (p +:+ q)
  = q.
Proof.
  induction p as [|c p IH].
  - cbn [String.length String.append]. rewrite Nat.sub_0_r. apply substring_all.
  - exact IH.
Qed.

Lemma replace_first_eq (pat rep s : string) :
  replace_first pat rep s
  = if String.prefix pat s then
      rep +:+ String.substring (String.length pat) (String.length s - String.length pat) s
    else
      match s with
      | EmptyString => EmptyString
      | String c rest => String c (replace_first pat rep rest)
      end.
Proof. destruct s; reflexivity. Qed.

(** [replace] removes the first occurrence of the pattern, wherever what
    comes before it does not contain an earlier one. *)
Lemma replace_first_at (pat rep pre post : string) :
  occurs_before pat (String.length pre) (pre +:+ pat +:+ post) = false ->
  replace_first pat rep (pre +:+ pat +:+ post) = pre +:+ rep +:+ post.
Proof.
  induction pre as [|c pre IH]; intros Hnone.
  - change (replace_first pat rep (pat +:+ post) = rep +:+ post).
    rewrite replace_first_eq, prefix_app, substring_after. reflexivity.
  - change (String.prefix pat (String c (pre +:+ pat +:+ post))
            || occurs_before pat (String.length pre) (pre +:+ pat +:+ post) = false)
      in Hnone.
    apply orb_false_iff in Hnone. destruct Hnone as [Hhere Hlater].
    change (replace_first pat rep (String c (pre +:+ pat +:+ post))
            = String c (pre +:+ rep +:+ post)).
    rewrite replace_first_eq, Hhere. f_equal. exact (IH Hlater).
Qed.

Section BaseUrl.
Context {W : Type} (host : Host W) (env : ProcessEnv).

(** X25. Where the sub-requests of clear-database go.  For a request past
    the gate whose URL is an origin, then [/api/clear-database], then
    anything (nothing, or a query string), with no earlier occurrence of
    [/api/clear-database] in it, the six sub-requests go to the origin
    followed by that remainder and then the path of the route: to the
    routes of the same origin when nothing follows, and to URLs with the
    query string in the middle when there is one. *)
Theorem clear_database_calls_its_origin request st (origin rest : string) :
  pairs_get (headers request) "admin-password"
  = Some (or_else (NEXT_PUBLIC_ADMIN_PASSWORD env) "admin123") ->
  url request = origin +:+ "/api/clear-database" +:+ rest ->
  occurs_before "/api/clear-database" (String.length origin) (url request) = false ->
  exists resp st',
    ClearDatabase.POST host env request st = (inl resp, st')
    /\ map (fun ro => fetch_url (fst ro)) (fetches (new_events st st'))
       = map (fun s => (origin +:+ rest) +:+ snd s) ClearDatabase.steps.
Proof.
  intros Hgiven Hurl Hnone.
  destruct (clear_database_passed host env request st Hgiven)
    as (outs & w & errs & results & message & Hrun & Hlen & _).
  eexists _, _. split; [exact Hrun|].
  rewrite new_events_after, fetches_fetch_events.
  rewrite Hurl in Hnone |- *. rewrite (replace_first_at _ "" _ _ Hnone).
  do 6 (destruct outs as [|? outs]; [discriminate Hlen|]).
  destruct outs; [|discriminate Hlen]. reflexivity.
Qed.

End BaseUrl.

Lemma clear_database_calls_its_origin_witness :
  exists resp st',
    ClearDatabase.POST Sim.host Sim.env
      (Sim.admin_request "http://admin.local/api/clear-database") Sim.start
    = (inl resp, st')
    /\ map (fun ro => fetch_url (fst ro)) (fetches (new_events Sim.start st'))
       = ["http://admin.local/api/vectordb/clear";
          "http://admin.local/api/transactions/clear";
          "http://admin.local/api/transaction-items/clear";
          "http://admin.local/api/submissions/clear";
          "http://admin.local/api/anomalies/clear";
          "http://admin.local/api/integrations/clear"].
Proof.
  apply (clear_database_calls_its_origin Sim.host Sim.env
           (Sim.admin_request "http://admin.local/api/clear-database") Sim.start
           "http://admin.local" ""); reflexivity.
Defined.

(** A query string on the request ends up inside the URLs of the
    sub-requests. *)
Example clear_database_with_a_query_string :
  exists resp st',
    ClearDatabase.POST Sim.host Sim.env
      (Sim.admin_request "http://admin.local/api/clear-database?confirm=1") Sim.start
    = (inl resp, st')
    /\ map (fun ro => fetch_url (fst ro)) (fetches (new_events Sim.start st'))
       = ["http://admin.local?confirm=1/api/vectordb/clear";
          "http://admin.local?confirm=1/api/transactions/clear";
          "http://admin.local?confirm=1/api/transaction-items/clear";
          "http://admin.local?confirm=1/api/submissions/clear";
          "http://admin.local?confirm=1/api/anomalies/clear";
          "http://admin.local?confirm=1/api/integrations/clear"].
Proof. eexists _, _. split; [vm_compute; reflexivity|]. vm_compute. reflexivity. Qed.

(** ** clear-database with its routes *)

Lemma path_after_app (origin path : string) :
  Loopback.path_after origin (origin +:+ path) = Some path.
Proof.
  induction origin as [|c origin IH]; [reflexivity|].
  change (Loopback.path_after (String c origin) (String c (origin +:+ path)) = Some path).
  cbn [Loopback.path_after]. now rewrite Ascii.eqb_refl.
Qed.

Lemma append_empty (s : string) : s +:+ "" = s.
Proof.
  induction s as [|c s IH]; [reflexivity|].
  change (String c (s +:+ "") = String c s). now rewrite IH.
Qed.

Section LoopbackFacts.
Import Loopback.
Context {W : Type} (host : Host W) (env : ProcessEnv) (origin : string)
  (stringify : JsVal -> string).

(** What each of the six routes does for a request with the expected
    password: the table routes send their statement and answer with an ok
    status exactly when it succeeded; the vectordb route calls the
    upstream and answers with an ok status exactly when the upstream did
    and its body was JSON. *)
Lemma served_route_run path r request params (s : State W) :
  route_at path served = Some r ->
  pairs_get (headers request) "admin-password"
  = Some (or_else (NEXT_PUBLIC_ADMIN_PASSWORD env) "admin123") ->
  exists resp w evs errs,
    Api.handler host env r request params s = (inl resp, after s w evs errs)
    /\ statements evs = (if Api.table_clearing r then [clear_statement r] else [])
    /\ map (fun ro => fetch_url (fst ro)) (fetches evs)
       = (if Api.table_clearing r then []
          else [or_else (NEXT_PUBLIC_API_URL env) "http://localhost:8888"
                  +:+ "/admin/vector-db/clear-all"])
    /\ length (query_outcomes evs) = (if Api.table_clearing r then 1%nat else 0%nat)
    /\ ok (answer stringify resp)
       = forallb vector_cleared (map snd (fetches evs))
         && forallb succeeded (query_outcomes evs).
Proof.
  intros Hroute Hgiven.
  assert (Hgate : rejects (pairs_get (headers request) "admin-password")
                    (or_else (NEXT_PUBLIC_ADMIN_PASSWORD env) "admin123") = false).
  { apply rejects_false_iff; [apply admin_password_nonempty | exact Hgiven]. }
  unfold served in Hroute. cbn [route_at] in Hroute.
  repeat match type of Hroute with
         | (if ?c then _ else _) = _ => destruct c
         end;
    try discriminate Hroute; injection Hroute as <-.
  all: cbn [Api.handler Api.table_clearing clear_statement].
  all: unfold VectordbClear.DELETE, TransactionsClear.DELETE, TransactionItemsClear.DELETE,
         SubmissionsClear.DELETE, AnomaliesClear.DELETE, IntegrationsClear.DELETE,
         table_clear_DELETE, Db.clearTable, Db.query, Db.pool_query_call, timestamp,
         Db.now, fetch.
  all: rewrite Hgate.
  all: run_paths.
  all: try match goal with
           | H : template_string _ (IntegrationsClear.rowCount_value _) = inr _ |- _ =>
               rewrite rowCount_text in H; discriminate H
           end.
  all: eexists _, _, _, _; split;
         [ rewrite ?log_event_after, ?log_raised_after, ?after_after; reflexivity |].
  all: cbn [app statements fetches query_outcomes flat_map map fst snd length].
  all: repeat split.
  all: unfold answer, ok; cbn [resp_status status NextResponse_json
                               NextResponse_json_status failure forallb vector_cleared
                               succeeded andb].
  all: try reflexivity.
  all: try match goal with
           | H : Db.success _ = _ |- _ => cbn in H; discriminate H
           end.
  all: match goal with
       | H : ok ?f = _ |- _ =>
           change ((200 <=? resp_status f) && (resp_status f <=? 299)) with (ok f);
           rewrite H
       end.
  all: rewrite ?Heqs0; reflexivity.
Qed.

(** One sub-request of clear-database, with what the [fetch] gave. *)
Lemma clear_step_fetched {V : Type} (h : Host V) baseUrl adminPassword results key path
  (st : State V) out v :
  net_fetch h (ClearDatabase.step_request baseUrl adminPassword path) (world st) = (out, v) ->
  ClearDatabase.clear_step h baseUrl adminPassword results (key, path) st
  = (inl (record_outcome key out results),
     after st v [EvFetch (ClearDatabase.step_request baseUrl adminPassword path) out]
       match out with inl _ => [] | inr e => [e] end).
Proof.
  intros Hnet.
  set (req := ClearDatabase.step_request baseUrl adminPassword path) in *.
  pose proof (call_run (net_fetch h req) (EvFetch req) st out v Hnet) as Hcall.
  fold (fetch h req) in Hcall.
  unfold ClearDatabase.clear_step. fold req.
  destruct out as [r|e].
  - erewrite try_catch_inl; [reflexivity|].
    rewrite (bind_inl _ _ _ _ _ Hcall). cbn [record_outcome].
    now destruct (ok r).
  - erewrite try_catch_inr; [reflexivity|].
    now rewrite (bind_inr _ _ _ _ _ Hcall).
Qed.

(** A sub-request of clear-database to one of the six paths of the
    deployed application runs the route behind the path. *)
Lemma loop_fetch_served path r adminPassword (s : State W) :
  route_at path served = Some r ->
  adminPassword = or_else (NEXT_PUBLIC_ADMIN_PASSWORD env) "admin123" ->
  exists resp w evs errs,
    loop_fetch host env origin stringify
      (ClearDatabase.step_request origin adminPassword path) s
    = (inl (answer stringify resp), after s w evs errs)
    /\ statements evs = (if Api.table_clearing r then [clear_statement r] else [])
    /\ map (fun ro => fetch_url (fst ro)) (fetches evs)
       = (if Api.table_clearing r then []
          else [or_else (NEXT_PUBLIC_API_URL env) "http://localhost:8888"
                  +:+ "/admin/vector-db/clear-all"])
    /\ length (query_outcomes evs) = (if Api.table_clearing r then 1%nat else 0%nat)
    /\ ok (answer stringify resp)
       = forallb vector_cleared (map snd (fetches evs))
         && forallb succeeded (query_outcomes evs).
Proof.
  intros Hroute ->.
  destruct (served_route_run path r
              (incoming (ClearDatabase.step_request origin
                           (or_else (NEXT_PUBLIC_ADMIN_PASSWORD env) "admin123") path))
              {| userId := "" |} s Hroute eq_refl)
    as (resp & w & evs & errs & Hrun & Hfacts).
  exists resp, w, evs, errs. split; [|exact Hfacts].
  unfold loop_fetch.
  change (fetch_method (ClearDatabase.step_request origin
                          (or_else (NEXT_PUBLIC_ADMIN_PASSWORD env) "admin123") path))
    with "DELETE".
  change (fetch_url (ClearDatabase.step_request origin
                       (or_else (NEXT_PUBLIC_ADMIN_PASSWORD env) "admin123") path))
    with (origin +:+ path).
  rewrite String.eqb_refl, path_after_app. cbn [from_option]. rewrite Hroute, Hrun.
  reflexivity.
Qed.

Lemma query_outcomes_app evs evs' :
  query_outcomes (evs ++ evs') = query_outcomes evs ++ query_outcomes evs'.
Proof. apply flat_map_app. Qed.

(** clear-database deployed with the routes it calls: the answer and
    what left the process. *)
Lemma clear_database_deployed request (st : State (State W)) :
  pairs_get (headers request) "admin-password"
  = Some (or_else (NEXT_PUBLIC_ADMIN_PASSWORD env) "admin123") ->
  url request = origin +:+ "/api/clear-database" ->
  occurs_before "/api/clear-database" (String.length origin) (url request) = false ->
  exists st' results summary other,
    let all_cleared :=
      forallb vector_cleared (map snd (fetches (new_events (world st) (world st'))))
      && forallb succeeded (query_outcomes (new_events (world st) (world st'))) in
    ClearDatabase.POST (loop_host host env origin stringify) env request st
    = (inl (NextResponse_json
              (JObj [("success", JBool all_cleared);
                     ("message",
                      JStr (if all_cleared then "Successfully cleared 6/6 database tables"
                            else other));
                     ("results", ClearDatabase.results_value results);
                     ("summary", JObj summary)])),
       st')
    /\ map (fun ro => fetch_url (fst ro)) (fetches (new_events (world st) (world st')))
       = [or_else (NEXT_PUBLIC_API_URL env) "http://localhost:8888"
            +:+ "/admin/vector-db/clear-all"]
    /\ statements (new_events (world st) (world st'))
       = [("DELETE FROM transactions", None);
          ("DELETE FROM transaction_items", None);
          ("DELETE FROM submissions", None);
          ("DELETE FROM anomaly_flags", None);
          ("DELETE FROM integrations WHERE type = $1", Some ["shopify"])]
    /\ length (query_outcomes (new_events (world st) (world st'))) = 5%nat.
Proof.
  intros Hgiven Hurl Hnone.
  assert (Hgate : rejects (pairs_get (headers request) "admin-password")
                    (or_else (NEXT_PUBLIC_ADMIN_PASSWORD env) "admin123") = false).
  { apply rejects_false_iff; [apply admin_password_nonempty | exact Hgiven]. }
  assert (Hbase : replace_first "/api/clear-database" "" (url request) = origin).
  { rewrite Hurl in Hnone |- *.
    change (origin +:+ "/api/clear-database")
      with (origin +:+ "/api/clear-database" +:+ "") in Hnone |- *.
    rewrite (replace_first_at _ "" _ _ Hnone). apply append_empty. }
  unfold ClearDatabase.POST. rewrite Hgate, Hgiven, Hbase. cbn [default from_option id].
  cbn [ClearDatabase.clear_steps ClearDatabase.steps].
  set (expected := or_else (NEXT_PUBLIC_ADMIN_PASSWORD env) "admin123") in *.
  set (h := loop_host host env origin stringify).
  destruct (loop_fetch_served "/api/vectordb/clear" _ expected (world st) eq_refl eq_refl)
    as (r1 & w1 & e1 & x1 & Hf1 & Hs1 & Hu1 & Hq1 & Ho1).
  pose proof (clear_step_fetched h origin expected ClearDatabase.initial_results
                "vectordb" _ st _ _ Hf1) as H1.
  match type of H1 with _ = (inl ?R, ?S) => set (R1 := R) in *; set (S1 := S) in * end.
  destruct (loop_fetch_served "/api/transactions/clear" _ expected (world S1)
              eq_refl eq_refl)
    as (r2 & w2 & e2 & x2 & Hf2 & Hs2 & Hu2 & Hq2 & Ho2).
  pose proof (clear_step_fetched h origin expected R1 "transactions" _ S1 _ _ Hf2) as H2.
  match type of H2 with _ = (inl ?R, ?S) => set (R2 := R) in *; set (S2 := S) in * end.
  destruct (loop_fetch_served "/api/transaction-items/clear" _ expected (world S2)
              eq_refl eq_refl)
    as (r3 & w3 & e3 & x3 & Hf3 & Hs3 & Hu3 & Hq3 & Ho3).
  pose proof (clear_step_fetched h origin expected R2 "transactionItems" _ S2 _ _ Hf3)
    as H3.
  match type of H3 with _ = (inl ?R, ?S) => set (R3 := R) in *; set (S3 := S) in * end.
  destruct (loop_fetch_served "/api/submissions/clear" _ expected (world S3)
              eq_refl eq_refl)
    as (r4 & w4 & e4 & x4 & Hf4 & Hs4 & Hu4 & Hq4 & Ho4).
  pose proof (clear_step_fetched h origin expected R3 "submissions" _ S3 _ _ Hf4) as H4.
  match type of H4 with _ = (inl ?R, ?S) => set (R4 := R) in *; set (S4 := S) in * end.
  destruct (loop_fetch_served "/api/anomalies/clear" _ expected (world S4)
              eq_refl eq_refl)
    as (r5 & w5 & e5 & x5 & Hf5 & Hs5 & Hu5 & Hq5 & Ho5).
  pose proof (clear_step_fetched h origin expected R4 "anomalies" _ S4 _ _ Hf5) as H5.
  match type of H5 with _ = (inl ?R, ?S) => set (R5 := R) in *; set (S5 := S) in * end.
  destruct (loop_fetch_served "/api/integrations/clear" _ expected (world S5)
              eq_refl eq_refl)
    as (r6 & w6 & e6 & x6 & Hf6 & Hs6 & Hu6 & Hq6 & Ho6).
  pose proof (clear_step_fetched h origin expected R5 "integrations" _ S5 _ _ Hf6) as H6.
  match type of H6 with _ = (inl ?R, ?S) => set (R6 := R) in *; set (S6 := S) in * end.
  cbn [Api.table_clearing clear_statement] in *.
  apply map_eq_nil in Hu2, Hu3, Hu4, Hu5, Hu6.
  apply nil_length_inv in Hq1.
  assert (Hnew : new_events (world st) (world S6) = e1 ++ e2 ++ e3 ++ e4 ++ e5 ++ e6).
  { subst S6 S5 S4 S3 S2 S1. unfold after. path_added. reflexivity. }
  set (outs := [inl (answer stringify r1); inl (answer stringify r2);
                inl (answer stringify r3); inl (answer stringify r4);
                inl (answer stringify r5); inl (answer stringify r6)]
               : list (FetchResponse + Thrown)).
  pose proof (six_flags outs eq_refl) as Hflags.
  destruct (six_counts (map fetch_succeeded outs) eq_refl) as (Htotal & _ & Hall).
  rewrite <- Hflags in Htotal, Hall.
  change (record_outcomes (combine (map fst ClearDatabase.steps) outs)
            ClearDatabase.initial_results) with R6 in Htotal, Hall.
  assert (Hflag :
            (ClearDatabase.successCount R6 =? ClearDatabase.totalCount R6)
            = forallb vector_cleared (map snd (fetches (new_events (world st) (world S6))))
              && forallb succeeded (query_outcomes (new_events (world st) (world S6)))).
  { rewrite Hnew, !fetches_app, !query_outcomes_app.
    rewrite Hu2, Hu3, Hu4, Hu5, Hu6, Hq1. rewrite !app_nil_r. cbn [app].
    rewrite successCount_flags, totalCount_flags, Htotal.
    change (Z.of_nat 6) with 6. rewrite Hall.
    subst outs. cbn [map forallb fetch_succeeded id].
    unfold id. rewrite Ho1, Ho2, Ho3, Ho4, Ho5, Ho6.
    rewrite Hu2, Hu3, Hu4, Hu5, Hu6, Hq1. cbn [map forallb app].
    rewrite !forallb_app.
    generalize (forallb vector_cleared (map snd (fetches e1))),
      (forallb succeeded (query_outcomes e2)), (forallb succeeded (query_outcomes e3)),
      (forallb succeeded (query_outcomes e4)), (forallb succeeded (query_outcomes e5)),
      (forallb succeeded (query_outcomes e6)).
    intros [] [] [] [] [] []; reflexivity. }
  exists S6, R6. eexists. eexists. cbv zeta.
  split.
  { etransitivity.
    { erewrite try_catch_inl; [reflexivity|].
      erewrite bind_inl; [apply ret_run|].
      rewrite (bind_inl _ _ _ _ _ H1), (bind_inl _ _ _ _ _ H2), (bind_inl _ _ _ _ _ H3),
        (bind_inl _ _ _ _ _ H4), (bind_inl _ _ _ _ _ H5), (bind_inl _ _ _ _ _ H6).
      apply ret_run. }
    rewrite <- Hflag.
    destruct (ClearDatabase.successCount R6 =? ClearDatabase.totalCount R6) eqn:Hsame;
      [|reflexivity].
    apply Z.eqb_eq in Hsame. rewrite Hsame, totalCount_flags, Htotal. reflexivity. }
  rewrite Hnew, !fetches_app, !statements_app, !query_outcomes_app.
  rewrite Hu2, Hu3, Hu4, Hu5, Hu6, Hq1, Hs1, Hs2, Hs3, Hs4, Hs5, Hs6.
  rewrite !app_nil_r. cbn [app].
  split; [exact Hu1|]. split; [reflexivity|].
  rewrite !length_app, Hq2, Hq3, Hq4, Hq5, Hq6. reflexivity.
Qed.

(** X26. clear-database deployed with the routes it calls.  For a request
    past the gate, sent to [/api/clear-database] of the origin where the
    application serves its six clearing routes, the process calls the
    upstream once, to clear the vector index, and then sends five
    statements to the database, in this order: transactions, transaction
    items, submissions, anomaly flags and the Shopify integrations;
    whatever fails, the later ones are still sent.  The answer has status
    200, and its [success] is true exactly when the upstream answered with
    an ok status and a JSON body and all five statements succeeded. *)
Theorem clear_database_end_to_end request (st : State (State W)) :
  pairs_get (headers request) "admin-password"
  = Some (or_else (NEXT_PUBLIC_ADMIN_PASSWORD env) "admin123") ->
  url request = origin +:+ "/api/clear-database" ->
  occurs_before "/api/clear-database" (String.length origin) (url request) = false ->
  exists resp st',
    ClearDatabase.POST (loop_host host env origin stringify) env request st = (inl resp, st')
    /\ status resp = 200
    /\ map (fun ro => fetch_url (fst ro)) (fetches (new_events (world st) (world st')))
       = [or_else (NEXT_PUBLIC_API_URL env) "http://localhost:8888"
            +:+ "/admin/vector-db/clear-all"]
    /\ statements (new_events (world st) (world st'))
       = [("DELETE FROM transactions", None);
          ("DELETE FROM transaction_items", None);
          ("DELETE FROM submissions", None);
          ("DELETE FROM anomaly_flags", None);
          ("DELETE FROM integrations WHERE type = $1", Some ["shopify"])]
    /\ length (query_outcomes (new_events (world st) (world st'))) = 5%nat
    /\ field "success" (body resp)
       = Some (JBool
                 (forallb vector_cleared
                    (map snd (fetches (new_events (world st) (world st'))))
                  && forallb succeeded
                       (query_outcomes (new_events (world st) (world st'))))).
Proof.
  intros Hgiven Hurl Hnone.
  destruct (clear_database_deployed request st Hgiven Hurl Hnone)
    as (st' & results & summary & other & Hrun & Hfetches & Hstatements & Hlength).
  cbv zeta in Hrun. eexists _, st'. split; [exact Hrun|].
  repeat split; assumption.
Qed.

End LoopbackFacts.

Lemma clear_database_end_to_end_witness :
  exists resp st',
    ClearDatabase.POST
      (Loopback.loop_host Lab.host Sim.env "http://admin.local" (fun _ => "{...}"))
      Sim.env (Sim.admin_request "http://admin.local/api/clear-database")
      {| world := Lab.start; trace := []; raised := [] |}
    = (inl resp, st')
    /\ statements (new_events Lab.start (world st'))
       = [("DELETE FROM transactions", None);
          ("DELETE FROM transaction_items", None);
          ("DELETE FROM submissions", None);
          ("DELETE FROM anomaly_flags", None);
          ("DELETE FROM integrations WHERE type = $1", Some ["shopify"])].
Proof.
  destruct (clear_database_end_to_end Lab.host Sim.env "http://admin.local"
              (fun _ => "{...}")
              (Sim.admin_request "http://admin.local/api/clear-database")
              {| world := Lab.start; trace := []; raised := [] |}
              eq_refl eq_refl eq_refl)
    as (resp & st' & Hrun & _ & _ & Hstatements & _).
  exists resp, st'. split; [exact Hrun | exact Hstatements].
Defined.

(** In the second world the five statements succeed, but the upstream
    answers the clearing of the vector index with a body that is not JSON:
    five of six. *)
Example clear_database_deployed_in_the_lab :
  exists resp st',
    ClearDatabase.POST
      (Loopback.loop_host Lab.host Sim.env "http://admin.local" (fun _ => "{...}"))
      Sim.env (Sim.admin_request "http://admin.local/api/clear-database")
      {| world := Lab.start; trace := []; raised := [] |}
    = (inl resp, st')
    /\ field "success" (body resp) = Some (JBool false)
    /\ field "summary" (body resp)
       = Some (JObj [("cleared", JNum 5); ("total", JNum 6); ("errors", JNum 1)])
    /\ map (fun ro => (fetch_url (fst ro), Loopback.vector_cleared (snd ro)))
         (fetches (new_events Lab.start (world st')))
       = [("http://localhost:8888/admin/vector-db/clear-all", false)].
Proof. eexists _, _. split; [vm_compute; reflexivity|]. repeat split. Qed.

Section ButtonToDatabase.
Import Loopback.
Context {W : Type} (host : Host W) (env buildEnv : ProcessEnv) (origin : string)
  (stringify : JsVal -> string) (browser : Engine).

(** X27. From the button of the dashboard to the database.  With the
    application deployed at [origin], the page built with the password
    the server expects and the confirmation given, the process calls the
    upstream once, to clear the vector index, and sends the five
    statements in their order; the user is told "Successfully cleared 6/6
    database tables" exactly when the upstream answered with an ok status
    and a JSON body and all five statements succeeded, and "Failed to
    clear database" otherwise. *)
Theorem clear_button_end_to_end (st : State (State W)) :
  or_else (NEXT_PUBLIC_ADMIN_PASSWORD buildEnv) "admin123"
  = or_else (NEXT_PUBLIC_ADMIN_PASSWORD env) "admin123" ->
  occurs_before "/api/clear-database" (String.length origin)
    (origin +:+ "/api/clear-database") = false ->
  exists st',
    let all_cleared :=
      forallb vector_cleared (map snd (fetches (new_events (world st) (world st'))))
      && forallb succeeded (query_outcomes (new_events (world st) (world st'))) in
    Dashboard.clearDatabase (loop_host host env origin stringify) env buildEnv origin
      browser true st
    = (inl [Dashboard.SetIsClearingDatabase true;
            Dashboard.Alert
              (if all_cleared
               then "✅ Successfully cleared 6/6 database tables" +:+ nl +:+ nl
                      +:+ "Check console for detailed results."
               else "❌ Failed to clear database" +:+ nl +:+ nl
                      +:+ "Check console for details.");
            Dashboard.SetIsClearingDatabase false],
       st')
    /\ map (fun ro => fetch_url (fst ro)) (fetches (new_events (world st) (world st')))
       = [or_else (NEXT_PUBLIC_API_URL env) "http://localhost:8888"
            +:+ "/admin/vector-db/clear-all"]
    /\ statements (new_events (world st) (world st'))
       = [("DELETE FROM transactions", None);
          ("DELETE FROM transaction_items", None);
          ("DELETE FROM submissions", None);
          ("DELETE FROM anomaly_flags", None);
          ("DELETE FROM integrations WHERE type = $1", Some ["shopify"])].
Proof.
  intros Hsame Hnone.
  destruct (clear_database_deployed host env origin stringify
              (Dashboard.request buildEnv origin) st)
    as (st' & results & summary & other & Hrun & Hfetches & Hstatements & _).
  { cbn [Dashboard.request headers pairs_get String.eqb Ascii.eqb Bool.eqb].
    now rewrite Hsame. }
  { reflexivity. }
  { exact Hnone. }
  cbv zeta in Hrun. exists st'. cbv zeta.
  split; [|split; [exact Hfetches | exact Hstatements]].
  unfold Dashboard.clearDatabase. cbn [negb].
  rewrite (bind_inl _ _ _ _ _ Hrun), ret_run.
  destruct (forallb vector_cleared _ && forallb succeeded _); reflexivity.
Qed.

End ButtonToDatabase.

Lemma clear_button_end_to_end_witness :
  let deployed :=
    Loopback.loop_host Lab.host Sim.env "http://admin.local" (fun _ => "{...}") in
  let st := {| world := Lab.start; trace := []; raised := [] |} in
  exists st',
    let all_cleared :=
      forallb Loopback.vector_cleared
        (map snd (fetches (new_events (world st) (world st'))))
      && forallb Loopback.succeeded
           (query_outcomes (new_events (world st) (world st'))) in
    Dashboard.clearDatabase deployed Sim.env Sim.env "http://admin.local" Sim.sim_engine
      true st
    = (inl [Dashboard.SetIsClearingDatabase true;
            Dashboard.Alert
              (if all_cleared
               then "✅ Successfully cleared 6/6 database tables" +:+ nl +:+ nl
                      +:+ "Check console for detailed results."
               else "❌ Failed to clear database" +:+ nl +:+ nl
                      +:+ "Check console for details.");
            Dashboard.SetIsClearingDatabase false],
       st')
    /\ map (fun ro => fetch_url (fst ro)) (fetches (new_events (world st) (world st')))
       = ["http://localhost:8888/admin/vector-db/clear-all"]
    /\ statements (new_events (world st) (world st'))
       = [("DELETE FROM transactions", None);
          ("DELETE FROM transaction_items", None);
          ("DELETE FROM submissions", None);
          ("DELETE FROM anomaly_flags", None);
          ("DELETE FROM integrations WHERE type = $1", Some ["shopify"])].
Proof.
  intros deployed st.
  apply (clear_button_end_to_end Lab.host Sim.env Sim.env "http://admin.local"
           (fun _ => "{...}") Sim.sim_engine st); reflexivity.
Defined.

(** In the second world the button reports a failure, although the five
    statements succeeded: the upstream answered the clearing of the vector
    index with a body that is not JSON. *)
Example clear_button_in_the_lab :
  exists st',
    Dashboard.clearDatabase
      (Loopback.loop_host Lab.host Sim.env "http://admin.local" (fun _ => "{...}"))
      Sim.env Sim.env "http://admin.local" Sim.sim_engine true
      {| world := Lab.start; trace := []; raised := [] |}
    = (inl [Dashboard.SetIsClearingDatabase true;
            Dashboard.Alert ("❌ Failed to clear database" +:+ nl +:+ nl
                               +:+ "Check console for details.");
            Dashboard.SetIsClearingDatabase false],
       st')
    /\ map Loopback.succeeded (query_outcomes (new_events Lab.start (world st')))
       = [true; true; true; true; true].
Proof. eexists. split; vm_compute; reflexivity. Qed.
